(** * Snow Drought Index: the data-preparation module

    A shallow embedding of [snowdroughtindex/core/data_preparation.py] and
    the properties its specification states about it.

    The module is a thin layer over three libraries (a table library, a
    labelled-array library and a geospatial library).  A table is a list of
    rows over a list of column names, a row a finite map from names to
    cells; a labelled array is a function from positions to cells.  What
    the module does with tables and arrays (column access and assignment,
    masks, [unique], daily resampling, [count] along a dimension) is
    written out; what it only hands over to a library (re-projection,
    buffering, the containment predicate, the spatial join, the parsing of
    date-times, the flattening and the selection of a dataset, the
    conversion of a value stored into an array) is a field
    of the class [Libraries], so every statement holds for any
    implementation of these.

    A function of the module is a computation over a world made of the
    objects the caller shares with it and of what the progress tracker has
    been told; it returns or raises.  The memory-monitoring decorator has
    no effect on results and is left out, as are the three file loaders.
    Numeric cells are exact rationals: the rounding of binary floating
    point is outside this development. *)

From Stdlib Require Import ZArith QArith Qround List String Lia.
From stdpp Require Import base option list gmap strings pretty.

(** ** Cells, rows and tables *)

Inductive Geometry :=
| Point (x y : Q)
| LineString (pts : list (Q * Q))
| Polygon (shell : list (Q * Q))
| MultiPolygon (parts : list (list (Q * Q))).

(** A cell of a table or an element of an array.  [CNaN] stands for every
    missing value (NaN, None, NaT). *)
Inductive cell :=
| CNaN
| CStr (s : string)
| CNum (q : Q)
| CTime (ns : Z)
| CGeom (g : Geometry).

Definition isnull (c : cell) : bool :=
  match c with CNaN => true | _ => false end.

Definition notnull (c : cell) : bool := negb (isnull c).

(** Element-wise [==]: a missing value is equal to nothing, itself included. *)
Definition cell_eqb (a b : cell) : bool :=
  match a, b with
  | CStr s, CStr s' => bool_decide (s = s')
  | CNum q, CNum q' => Qeq_bool q q'
  | CTime t, CTime t' => (t =? t')%Z
  | _, _ => false
  end.

(** Identity as the hash tables of the table library see it ([unique],
    [isin], [is_unique]): like [==], but all missing values are one key. *)
Definition cell_same (a b : cell) : bool :=
  cell_eqb a b || (isnull a && isnull b).

Abbreviation row := (gmap string cell).

(** A table.  The cells of a row are keyed by name; [index_names] are the
    keys that currently form the row index (none for the default positional
    index, two or more for a composite index), [columns] the others. *)
Record DataFrame := mkDataFrame {
  index_names : list string;
  columns : list string;
  rows : list row
}.

(** A geospatial table: its geometry lives in the column [geometry]. *)
Record GeoDataFrame := mkGeoDataFrame {
  frame : DataFrame;
  crs : option Z
}.

Record GeoSeries := mkGeoSeries {
  geoms : list cell;
  series_crs : option Z
}.

(** A labelled array: the names of its axes and its elements by position. *)
Record DataArray := mkDataArray {
  dims : list string;
  values : list nat -> cell
}.

Record Dataset := mkDataset {
  sizes : list (string * nat);
  data_vars : list (string * DataArray);
  coords : list (string * DataArray)
}.

(** ** Exceptions, the progress tracker and the object store *)

Inductive exn :=
| ValueError (msg : string)
| TypeError (msg : string)
| KeyError (key : string)
| IndexError (msg : string)
| AttributeError (msg : string)
| ReferenceError (msg : string)
| RuntimeError (msg : string).

(** [str(e)]: a [KeyError] prints its key quoted. *)
Definition str (e : exn) : string :=
  match e with
  | KeyError k => "'" +:+ k +:+ "'"
  | ValueError m | TypeError m | IndexError m | AttributeError m
  | ReferenceError m | RuntimeError m => m
  end.

Inductive outcome (A : Type) :=
| Return (a : A)
| Raise (e : exn).
Arguments Return {A} a.
Arguments Raise {A} e.

(** What the progress tracker is told, in order. *)
Inductive tracker_event :=
| TrackerStart (total : nat) (desc unit_ : string)
| TrackerUpdate (n : nat) (message : string)
| TrackerClose.

Inductive object :=
| ODataFrame (df : DataFrame)
| ODataset (ds : Dataset)
| OOther.

(** Objects the caller and the callee share are named by their position in
    the heap. *)
Abbreviation loc := nat (only parsing).

Record World := mkWorld {
  heap : list object;
  progress : list tracker_event
}.

Definition Py (A : Type) : Type := World -> World * outcome A.

Definition ret {A} (a : A) : Py A := fun w => (w, Return a).

Definition raise {A} (e : exn) : Py A := fun w => (w, Raise e).

Definition bind {A B} (m : Py A) (k : A -> Py B) : Py B :=
  fun w =>
    match m w with
    | (w', Return a) => k a w'
    | (w', Raise e) => (w', Raise e)
    end.

(** [try: body except Exception as e: handler e] *)
Definition try_except {A} (body : Py A) (handler : exn -> Py A) : Py A :=
  fun w =>
    match body w with
    | (w', Return a) => (w', Return a)
    | (w', Raise e) => handler e w'
    end.

Definition lift {A} (o : outcome A) : Py A := fun w => (w, o).

Notation "x <- c1 ;; c2" := (bind c1 (fun x => c2))
  (at level 100, c1 at next level, right associativity).
Notation "c1 ;; c2" := (bind c1 (fun _ => c2))
  (at level 100, right associativity).

Definition tell (ev : tracker_event) : Py unit :=
  fun w => (mkWorld (heap w) (progress w ++ [ev]), Return tt).

Definition ProgressTracker (total : nat) (desc unit_ : string) : Py unit :=
  tell (TrackerStart total desc unit_).

Definition tracker_update (n : nat) (message : string) : Py unit :=
  tell (TrackerUpdate n message).

Definition tracker_close : Py unit := tell TrackerClose.

Definition deref (l : loc) : Py object :=
  fun w =>
    match heap w !! l with
    | Some o => (w, Return o)
    | None => (w, Raise (ReferenceError "no such object"))
    end.

Definition store (l : loc) (o : object) : Py unit :=
  fun w => (mkWorld (<[l := o]> (heap w)) (progress w), Return tt).

Definition alloc (o : object) : Py loc :=
  fun w => (mkWorld (heap w ++ [o]) (progress w), Return (length (heap w))).

(** [for x in xs: body x] *)
Fixpoint for_each {A} (xs : list A) (body : A -> Py unit) : Py unit :=
  match xs with
  | [] => ret tt
  | x :: xs' => body x ;; for_each xs' body
  end.

(** A comprehension whose body can raise: the results in order. *)
Fixpoint map_py {A B} (f : A -> Py B) (xs : list A) : Py (list B) :=
  match xs with
  | [] => ret []
  | x :: xs' => y <- f x ;; ys <- map_py f xs' ;; ret (y :: ys)
  end.

Fixpoint map_outcome {A B} (f : A -> outcome B) (xs : list A)
  : outcome (list B) :=
  match xs with
  | [] => Return []
  | x :: xs' =>
      match f x with
      | Raise e => Raise e
      | Return y =>
          match map_outcome f xs' with
          | Raise e => Raise e
          | Return ys => Return (y :: ys)
          end
      end
  end.

(** ** The operations of the table library that the module uses *)

(** [c in df.columns] *)
Definition has_column (df : DataFrame) (c : string) : bool :=
  bool_decide (c ∈ columns df).

Definition cell_at (c : string) (r : row) : cell := default CNaN (r !! c).

(** [df[c]]: the cells of a column, top to bottom. *)
Definition getitem (df : DataFrame) (c : string) : outcome (list cell) :=
  if has_column df c then Return (map (cell_at c) (rows df))
  else Raise (KeyError c).

Definition add_column (cs : list string) (c : string) : list string :=
  if bool_decide (c ∈ cs) then cs else cs ++ [c].

(** [df[c] = vs] for a series [vs] with the index of [df]. *)
Definition setitem (df : DataFrame) (c : string) (vs : list cell) : DataFrame :=
  mkDataFrame (index_names df) (add_column (columns df) c)
    (zip_with (fun r v => <[c := v]> r) (rows df) vs).

(** [df[c] = v] for a scalar [v]. *)
Definition setitem_const (df : DataFrame) (c : string) (v : cell) : DataFrame :=
  mkDataFrame (index_names df) (add_column (columns df) c)
    (map (fun r => <[c := v]> r) (rows df)).

(** [series == v] and [series.isin(vs)] *)
Definition series_eq (s : list cell) (v : cell) : list bool :=
  map (fun c => cell_eqb c v) s.

Definition isin (s : list cell) (vs : list cell) : list bool :=
  map (fun c => existsb (cell_same c) vs) s.

(** Selection of the rows at which a boolean mask holds. *)
Fixpoint boolean_index {A} (xs : list A) (mask : list bool) : list A :=
  match xs, mask with
  | x :: xs', b :: mask' =>
      if b then x :: boolean_index xs' mask' else boolean_index xs' mask'
  | _, _ => []
  end.

(** [df[mask]] and [df.loc[mask]] *)
Definition loc_mask (df : DataFrame) (mask : list bool) : DataFrame :=
  mkDataFrame (index_names df) (columns df) (boolean_index (rows df) mask).

(** [df.loc[mask, c] = v]: the cell [c] of the masked rows is overwritten;
    a column that did not exist is created, missing in the other rows. *)
Definition loc_setitem (df : DataFrame) (mask : list bool) (c : string)
    (v : cell) : DataFrame :=
  mkDataFrame (index_names df) (add_column (columns df) c)
    (zip_with
       (fun r (b : bool) =>
          if b then <[c := v]> r
          else if has_column df c then r else <[c := CNaN]> r)
       (rows df) mask).

(** [series.unique()]: the distinct values in order of first appearance. *)
Fixpoint unique (xs : list cell) : list cell :=
  match xs with
  | [] => []
  | x :: xs' => x :: List.filter (fun y => negb (cell_same x y)) (unique xs')
  end.

Fixpoint is_unique (xs : list cell) : bool :=
  match xs with
  | [] => true
  | x :: xs' => negb (existsb (cell_same x) xs') && is_unique xs'
  end.

(** [isinstance(df.index, pd.MultiIndex)] *)
Definition is_multiindex (df : DataFrame) : bool :=
  (2 <=? length (index_names df))%nat.

(** [df.reset_index()] on a named index: its levels become the leading
    columns; a level named like a column cannot be inserted. *)
Definition reset_index (df : DataFrame) : outcome DataFrame :=
  match List.find (fun n => has_column df n) (index_names df) with
  | Some n => Raise (ValueError ("cannot insert " +:+ n +:+ ", already exists"))
  | None => Return (mkDataFrame [] (index_names df ++ columns df) (rows df))
  end.

Definition remove_column (cs : list string) (c : string) : list string :=
  List.filter (fun c' => negb (bool_decide (c' = c))) cs.

(** [df.set_index(c)] *)
Definition set_index (df : DataFrame) (c : string) : outcome DataFrame :=
  if has_column df c
  then Return (mkDataFrame [c] (remove_column (columns df) c) (rows df))
  else Raise (KeyError c).

(** [pd.concat(frames, ignore_index=True)] *)
Definition pd_concat (frames : list DataFrame) : outcome DataFrame :=
  match frames with
  | [] => Raise (ValueError "No objects to concatenate")
  | _ =>
      Return (mkDataFrame []
                (fold_left (fun cs df => fold_left add_column (columns df) cs)
                   frames [])
                (concat (map rows frames)))
  end.

(** *** Daily resampling *)

Definition ns_per_day : Z := 86400000000000.

(** The calendar day of a time stamp (nanoseconds since the epoch, no
    time zone). *)
Definition day_of (ns : Z) : Z := (ns `div` ns_per_day)%Z.

Definition timestamp (c : cell) : outcome Z :=
  match c with
  | CTime t => Return t
  | _ => Raise (TypeError "Only valid with DatetimeIndex, TimedeltaIndex or PeriodIndex")
  end.

(** A value of the aggregated column: a number, or missing and skipped. *)
Definition numeric (c : cell) : outcome (option Q) :=
  match c with
  | CNum q => Return (Some q)
  | CNaN => Return None
  | _ => Raise (TypeError "agg function failed [how->mean,dtype->object]")
  end.

Definition Qsum (qs : list Q) : Q := fold_right Qplus 0%Q qs.

(** [mean()] of a bin: the arithmetic mean of its non-missing values,
    missing for a bin without any. *)
Definition mean (vs : list (option Q)) : cell :=
  match omap id vs with
  | [] => CNaN
  | q :: qs => CNum (Qsum (q :: qs) / inject_Z (Z.of_nat (length (q :: qs))))
  end.

Definition values_on (d : Z) (obs : list (Z * option Q)) : list (option Q) :=
  map snd (List.filter (fun o => (day_of (fst o) =? d)%Z) obs).

Definition first_day (obs : list (Z * option Q)) (d0 : Z) : Z :=
  fold_right (fun o d => Z.min (day_of (fst o)) d) d0 obs.

Definition last_day (obs : list (Z * option Q)) (d0 : Z) : Z :=
  fold_right (fun o d => Z.max (day_of (fst o)) d) d0 obs.

(** The days a daily resampling of [obs] has a bin for: every day from the
    earliest to the latest observation, observed or not. *)
Definition bin_days (obs : list (Z * option Q)) : list Z :=
  match obs with
  | [] => []
  | o :: obs' =>
      let lo := first_day obs' (day_of (fst o)) in
      let hi := last_day obs' (day_of (fst o)) in
      seqZ lo (hi - lo + 1)
  end.

(** [df.resample('D')[value_col].mean().reset_index()] for a frame indexed
    by time: one row per bin, labelled by the midnight that opens it. *)
Definition resample_daily_mean (df : DataFrame) (value_col : string)
  : outcome DataFrame :=
  match index_names df with
  | [time_col] =>
      match map_outcome (fun r => timestamp (cell_at time_col r)) (rows df) with
      | Raise e => Raise e
      | Return ts =>
          if has_column df value_col then
            match map_outcome (fun r => numeric (cell_at value_col r)) (rows df) with
            | Raise e => Raise e
            | Return vs =>
                let obs := zip ts vs in
                Return (mkDataFrame [] [time_col; value_col]
                          (map (fun d =>
                                  <[value_col := mean (values_on d obs)]>
                                    {[time_col := CTime (d * ns_per_day)]})
                             (bin_days obs)))
            end
          else Raise (KeyError ("Column not found: " +:+ value_col))
      end
  | _ => Raise (TypeError "Only valid with DatetimeIndex, TimedeltaIndex or PeriodIndex")
  end.

(** ** The operations the module only calls *)

Class Libraries := {
  (** the date-time a scalar is coerced to by [pd.to_datetime]; a cell it
      would coerce to a missing time counts as one it refuses *)
  to_datetime_scalar : cell -> outcome Z;
  (** [Dataset.to_dataframe()] *)
  to_dataframe : Dataset -> outcome DataFrame;
  (** [Dataset.sel(station_id=...)] *)
  sel_station_id : Dataset -> list cell -> outcome Dataset;
  (** the containment predicate and the buffer of the geometry library *)
  within : Geometry -> Geometry -> bool;
  buffer : Geometry -> Q -> Geometry;
  (** re-projection from one reference system to another, by EPSG code *)
  transform : Z -> Z -> Geometry -> Geometry;
  (** [gpd.sjoin(left, right, how=..., op=...)] *)
  sjoin : GeoDataFrame -> GeoDataFrame -> string -> string
          -> outcome GeoDataFrame;
  (** what an assignment into a copy of the values of an array stores: the
      cell converted to the element type of the array (a number with a
      fraction loses it in an array of integers), or a refusal *)
  cast_element : DataArray -> cell -> outcome cell
}.

(** ** The operations of the labelled-array library that the module uses *)

Definition dim_size (ds : Dataset) (d : string) : option nat :=
  snd <$> List.find (fun p => bool_decide (fst p = d)) (sizes ds).

(** The position of a dimension among the axes of an array. *)
Fixpoint axis_of (d : string) (axes : list string) : option nat :=
  match axes with
  | [] => None
  | d' :: axes' =>
      if bool_decide (d' = d) then Some 0%nat else S <$> axis_of d axes'
  end.

(** The position [idx] of a reduced array with [t] put back at axis [k]. *)
Definition insert_axis (k t : nat) (idx : list nat) : list nat :=
  take k idx ++ t :: drop k idx.

Definition count_notnull (T : nat) (elem : nat -> cell) : nat :=
  length (List.filter (fun t => notnull (elem t)) (seq 0 T)).

Definition cell_of_nat (n : nat) : cell := CNum (inject_Z (Z.of_nat n)).

(** [var.count(dim)]: the number of non-missing elements along [dim].  An
    array that does not have the dimension is reduced over no axis at all:
    each element counts itself. *)
Definition count_var (dim : string) (T : nat) (a : DataArray) : DataArray :=
  match axis_of dim (dims a) with
  | Some k =>
      mkDataArray (take k (dims a) ++ drop (S k) (dims a))
        (fun idx =>
           cell_of_nat (count_notnull T (fun t => values a (insert_axis k t idx))))
  | None =>
      mkDataArray (dims a)
        (fun idx => cell_of_nat (if notnull (values a idx) then 1 else 0))
  end.

(** [ds.count(dim=dim)]: every data variable is reduced; coordinates along
    [dim] are dropped. *)
Definition ds_count (ds : Dataset) (dim : string) : outcome Dataset :=
  match dim_size ds dim with
  | None =>
      Raise (ValueError ("Dataset does not contain the dimensions: " +:+ dim))
  | Some T =>
      Return (mkDataset
                (List.filter (fun p => negb (bool_decide (fst p = dim))) (sizes ds))
                (map (fun p => (fst p, count_var dim T (snd p))) (data_vars ds))
                (List.filter (fun p => negb (bool_decide (dim ∈ dims (snd p))))
                   (coords ds)))
  end.

(** [len(ds[dim])] for a dimension of the dataset. *)
Definition ds_len (ds : Dataset) (dim : string) : outcome nat :=
  match dim_size ds dim with
  | Some T => Return T
  | None => Raise (KeyError dim)
  end.

(** Arithmetic of a dataset with a scalar acts on every element of every
    data variable.  A quotient by zero is not a finite number and is left
    missing here.  Quotient and product are the exact ones; the code
    rounds each to the nearest binary floating-point number, which leaves
    0, 1 and 100 as they are and keeps the order and the range of the
    quotients: what is stated of the numbers below is stated within these
    limits. *)
Definition ds_map (f : cell -> cell) (ds : Dataset) : Dataset :=
  mkDataset (sizes ds)
    (map (fun p => (fst p, mkDataArray (dims (snd p))
                             (fun idx => f (values (snd p) idx))))
       (data_vars ds))
    (coords ds).

Definition cell_div (n : nat) (c : cell) : cell :=
  match c, n with
  | CNum q, S _ => CNum (q / inject_Z (Z.of_nat n))
  | _, _ => CNaN
  end.

Definition cell_mul (k : Q) (c : cell) : cell :=
  match c with
  | CNum q => CNum (q * k)
  | _ => CNaN
  end.

(** [ds[name]] and [ds[name] = (dims, values)] *)
Definition ds_getitem (ds : Dataset) (name : string) : outcome DataArray :=
  match List.find (fun p => bool_decide (fst p = name))
          (data_vars ds ++ coords ds) with
  | Some p => Return (snd p)
  | None => Raise (KeyError name)
  end.

Definition replace_var (name : string) (a : DataArray)
    (vars : list (string * DataArray)) : list (string * DataArray) :=
  map (fun p => if bool_decide (fst p = name) then (name, a) else p) vars.

Definition has_var (name : string) (vars : list (string * DataArray)) : bool :=
  existsb (fun p => bool_decide (fst p = name)) vars.

Definition ds_setitem (ds : Dataset) (name : string) (a : DataArray) : Dataset :=
  if has_var name (coords ds)
  then mkDataset (sizes ds) (data_vars ds) (replace_var name a (coords ds))
  else if has_var name (data_vars ds)
  then mkDataset (sizes ds) (replace_var name a (data_vars ds)) (coords ds)
  else mkDataset (sizes ds) (data_vars ds ++ [(name, a)]) (coords ds).

(** [a.values] walked along its first axis: the elements of a
    one-dimensional array; the items of an array of more dimensions are
    arrays themselves ([None]). *)
Definition first_axis_items (ds : Dataset) (a : DataArray)
  : outcome (list (option cell)) :=
  match dims a with
  | [] => Raise (TypeError "len() of unsized object")
  | d :: more =>
      let n := default 0%nat (dim_size ds d) in
      Return (map (fun i => match more with
                            | [] => Some (values a [i])
                            | _ => None
                            end) (seq 0 n))
  end.

(** [arr[i] = v] ([min_ndim = 1]) and [arr[i, :] = v] ([min_ndim = 2]) on
    [arr], a copy of the values of [a]: what is stored is [v] converted to
    the element type of the array. *)
Definition assign_first_axis `{Libraries} (ds : Dataset) (a : DataArray)
    (vals : list nat -> cell) (min_ndim i : nat) (v : cell)
  : outcome (list nat -> cell) :=
  if (length (dims a) <? min_ndim)%nat
  then Raise (IndexError "too many indices for array")
  else
    match dims a with
    | [] => Raise (IndexError "too many indices for array")
    | d :: _ =>
        if (i <? default 0%nat (dim_size ds d))%nat
        then
          match cast_element a v with
          | Raise e => Raise e
          | Return stored =>
              Return (fun idx =>
                        match idx with
                        | j :: _ => if (j =? i)%nat then stored else vals idx
                        | [] => vals idx
                        end)
          end
        else Raise (IndexError "index is out of bounds for axis 0")
    end.

(** ** The operations of the geospatial library on tables *)

Definition geometry_of (r : row) : cell := cell_at "geometry" r.

Definition transform_cell `{Libraries} (from to : Z) (c : cell) : cell :=
  match c with
  | CGeom g => CGeom (transform from to g)
  | _ => c
  end.

(** [gdf.to_crs(epsg=to)] *)
Definition to_crs `{Libraries} (gdf : GeoDataFrame) (to : Z)
  : outcome GeoDataFrame :=
  match crs gdf with
  | None =>
      Raise (ValueError "Cannot transform naive geometries.  Please set a crs on the object first.")
  | Some from =>
      Return (mkGeoDataFrame
                (mkDataFrame (index_names (frame gdf)) (columns (frame gdf))
                   (map (fun r =>
                           match r !! "geometry" with
                           | Some c => <["geometry" := transform_cell from to c]> r
                           | None => r
                           end) (rows (frame gdf))))
                (Some to))
  end.

Definition series_to_crs `{Libraries} (s : GeoSeries) (to : Z)
  : outcome GeoSeries :=
  match series_crs s with
  | None =>
      Raise (ValueError "Cannot transform naive geometries.  Please set a crs on the object first.")
  | Some from => Return (mkGeoSeries (map (transform_cell from to) (geoms s)) (Some to))
  end.

Definition buffer_cell `{Libraries} (c : cell) (distance : Q) : cell :=
  match c with
  | CGeom g => CGeom (buffer g distance)
  | _ => CNaN
  end.

(** [gdf.buffer(distance)] *)
Definition gdf_buffer `{Libraries} (gdf : GeoDataFrame) (distance : Q)
  : GeoSeries :=
  mkGeoSeries (map (fun r => buffer_cell (geometry_of r) distance) (rows (frame gdf)))
    (crs gdf).

Definition within_cell `{Libraries} (c other : cell) : bool :=
  match c, other with
  | CGeom g, CGeom o => within g o
  | _, _ => false
  end.

(** [gdf.within(other)] *)
Definition gdf_within `{Libraries} (gdf : GeoDataFrame) (other : cell)
  : list bool :=
  map (fun r => within_cell (geometry_of r) other) (rows (frame gdf)).

(** [xs.iloc[0]] *)
Definition iloc0 {A} (xs : list A) : outcome A :=
  match xs with
  | x :: _ => Return x
  | [] => Raise (IndexError "single positional indexer is out-of-bounds")
  end.

(** [isinstance(geom, Point)] and [isinstance(geom, (Polygon, MultiPolygon))] *)
Definition is_point (c : cell) : bool :=
  match c with CGeom (Point _ _) => true | _ => false end.

Definition is_polygonal (c : cell) : bool :=
  match c with
  | CGeom (Polygon _) | CGeom (MultiPolygon _) => true
  | _ => false
  end.

Definition enumerate {A} (xs : list A) : list (nat * A) :=
  zip (seq 0 (length xs)) xs.

(** ** The functions of [data_preparation.py] *)

(** The second component of what [extract_stations_in_basin] returns: the
    integer [0] or a series of buffer geometries. *)
Inductive int_or_series :=
| Int (n : Z)
| Series (s : GeoSeries).

Section DataPreparation.
Context `{Libraries}.

(** [pd.to_datetime(series)] *)
Definition pd_to_datetime (s : list cell) : outcome (list cell) :=
  map_outcome (fun c => match to_datetime_scalar c with
                        | Return t => Return (CTime t)
                        | Raise e => Raise e
                        end) s.

Definition preprocess_swe (swe_data : Dataset) : Py DataFrame :=
  ProgressTracker 4 "Preprocessing SWE data" "steps" ;;
  try_except
    (tracker_update 1 "Converting to DataFrame" ;;
     swe_df <- lift (to_dataframe swe_data) ;;
     tracker_update 1 "Resetting index" ;;
     swe_df <- (if is_multiindex swe_df then lift (reset_index swe_df)
                else ret swe_df) ;;
     tracker_update 1 "Adding metadata" ;;
     let swe_df := setitem_const swe_df "data_source" (CStr "SWE") in
     let swe_df := setitem_const swe_df "units" (CStr "mm") in
     tracker_update 1 "Finalizing preprocessing" ;;
     ret swe_df)
    (fun e =>
       tracker_close ;;
       raise (RuntimeError ("Error during SWE preprocessing: " +:+ str e))).

Definition preprocess_precip (precip_data : Dataset) : Py DataFrame :=
  ProgressTracker 4 "Preprocessing precipitation data" "steps" ;;
  try_except
    (tracker_update 1 "Converting to DataFrame" ;;
     precip_df <- lift (to_dataframe precip_data) ;;
     tracker_update 1 "Resetting index" ;;
     precip_df <- (if is_multiindex precip_df then lift (reset_index precip_df)
                   else ret precip_df) ;;
     tracker_update 1 "Converting time format" ;;
     precip_df <- (if has_column precip_df "time"
                   then
                     col <- lift (getitem precip_df "time") ;;
                     col <- lift (pd_to_datetime col) ;;
                     ret (setitem precip_df "time" col)
                   else ret precip_df) ;;
     tracker_update 1 "Adding metadata" ;;
     let precip_df := setitem_const precip_df "data_source" (CStr "Precipitation") in
     let precip_df := setitem_const precip_df "units" (CStr "mm") in
     ret precip_df)
    (fun e =>
       tracker_close ;;
       raise (RuntimeError ("Error during precipitation preprocessing: " +:+ str e))).

(** [basin_shapefile.loc[basin_shapefile['Station_ID'] == basin_id]] *)
Definition select_basin (basin_shapefile : GeoDataFrame) (basin_id : string)
  : outcome GeoDataFrame :=
  match getitem (frame basin_shapefile) "Station_ID" with
  | Raise e => Raise e
  | Return ids =>
      Return (mkGeoDataFrame
                (loc_mask (frame basin_shapefile) (series_eq ids (CStr basin_id)))
                (crs basin_shapefile))
  end.

(** [gdf.iloc[0].loc["geometry"]] *)
Definition first_geometry (gdf : GeoDataFrame) : outcome cell :=
  match iloc0 (rows (frame gdf)) with
  | Raise e => Raise e
  | Return r =>
      if has_column (frame gdf) "geometry" then Return (geometry_of r)
      else Raise (KeyError "geometry")
  end.

Definition Qpositive (q : Q) : bool := negb (Qle_bool q 0).

Definition extract_stations_in_basin (stations basin_shapefile : GeoDataFrame)
    (basin_id : string) (buffer_km : Q)
  : Py (GeoDataFrame * int_or_series) :=
  ProgressTracker 3 "Extracting stations in basin" "steps" ;;
  try_except
    (tracker_update 1 "Extracting basin geometry" ;;
     basin <- lift (select_basin basin_shapefile basin_id) ;;
     basin_geom <- lift (first_geometry basin) ;;
     tracker_update 1 "Processing buffer" ;;
     res <- (if Qpositive buffer_km
             then
               basin <- lift (select_basin basin_shapefile basin_id) ;;
               basin_crs_conversion <- lift (to_crs basin 3763) ;;
               stations_crs_conversion <- lift (to_crs stations 3763) ;;
               let buffer_m := (buffer_km * 1000)%Q in
               let basin_buffer := gdf_buffer basin_crs_conversion buffer_m in
               buffer0 <- lift (iloc0 (geoms basin_buffer)) ;;
               let mask := gdf_within stations_crs_conversion buffer0 in
               basin_buffer <- lift (series_to_crs basin_buffer 4326) ;;
               ret (Series basin_buffer, mask)
             else
               ret (Int 0, gdf_within stations basin_geom)) ;;
     let basin_buffer := fst res in
     let mask := snd res in
     tracker_update 1 "Extracting stations" ;;
     let stations_in_basin :=
       mkGeoDataFrame
         (setitem_const (loc_mask (frame stations) mask) "basin" (CStr basin_id))
         (crs stations) in
     ret (stations_in_basin, basin_buffer))
    (fun e =>
       tracker_close ;;
       raise (RuntimeError ("Error during station extraction: " +:+ str e))).

Definition filter_stations (data : object) (stations_list : list cell)
  : Py object :=
  ProgressTracker 2 "Filtering stations" "steps" ;;
  try_except
    (tracker_update 1 "Validating input data" ;;
     filtered_data <-
       match data with
       | ODataFrame df =>
           (if negb (has_column df "station_id")
            then raise (ValueError "DataFrame does not contain 'station_id' column")
            else ret tt) ;;
           ids <- lift (getitem df "station_id") ;;
           ret (ODataFrame (loc_mask df (isin ids stations_list)))
       | ODataset ds =>
           ds' <- lift (sel_station_id ds stations_list) ;;
           ret (ODataset ds')
       | OOther =>
           raise (TypeError "Data must be a pandas DataFrame or xarray Dataset")
       end ;;
     tracker_update 1 "Returning filtered data" ;;
     ret filtered_data)
    (fun e =>
       tracker_close ;;
       raise (RuntimeError ("Error during station filtering: " +:+ str e))).

Definition assess_data_availability (data : Dataset)
    (time_dim station_dim : string) : Py Dataset :=
  ProgressTracker 3 "Assessing data availability" "steps" ;;
  try_except
    (tracker_update 1 "Counting non-NaN values" ;;
     counts <- lift (ds_count data time_dim) ;;
     tracker_update 1 "Calculating total time points" ;;
     total_times <- lift (ds_len data time_dim) ;;
     tracker_update 1 "Calculating availability percentages" ;;
     let availability := ds_map (cell_mul 100) (ds_map (cell_div total_times) counts) in
     ret availability)
    (fun e =>
       tracker_close ;;
       raise (RuntimeError ("Error during data availability assessment: " +:+ str e))).

Definition spatial_join (points_gdf polygons_gdf : GeoDataFrame)
    (how op : string) : Py GeoDataFrame :=
  ProgressTracker 4 "Performing spatial join" "steps" ;;
  try_except
    (tracker_update 1 "Validating input geometries" ;;
     (if negb (forallb is_point (map geometry_of (rows (frame points_gdf))))
      then raise (ValueError "points_gdf must contain only Point geometries")
      else ret tt) ;;
     (if negb (forallb is_polygonal (map geometry_of (rows (frame polygons_gdf))))
      then raise (ValueError "polygons_gdf must contain only Polygon or MultiPolygon geometries")
      else ret tt) ;;
     tracker_update 1 "Checking coordinate systems" ;;
     (if bool_decide (crs points_gdf ≠ crs polygons_gdf)
      then raise (ValueError "Coordinate systems of points and polygons must match")
      else ret tt) ;;
     tracker_update 1 "Executing spatial join" ;;
     result <- lift (sjoin points_gdf polygons_gdf how op) ;;
     tracker_update 1 "Finalizing results" ;;
     ret result)
    (fun e =>
       tracker_close ;;
       raise (RuntimeError ("Error during spatial join: " +:+ str e))).

End DataPreparation.

(** *** Functions that work on the caller's object *)

Definition frame_at (l : loc) : Py DataFrame :=
  o <- deref l ;;
  match o with
  | ODataFrame df => ret df
  | _ => raise (AttributeError "object is not a DataFrame")
  end.

Definition getitem_at (l : loc) (c : string) : Py (list cell) :=
  df <- frame_at l ;; lift (getitem df c).

(** [df[c] = vs] and [df.loc[mask, c] = v] on the object itself. *)
Definition setitem_at (l : loc) (c : string) (vs : list cell) : Py unit :=
  df <- frame_at l ;; store l (ODataFrame (setitem df c vs)).

Definition loc_setitem_at (l : loc) (mask : list bool) (c : string) (v : cell)
  : Py unit :=
  df <- frame_at l ;; store l (ODataFrame (loc_setitem df mask c v)).

(** [coordinates_df.set_index(id_col)[[lat_col, lon_col]].to_dict('index')]:
    the replacement pair of every station id; the ids have to be distinct. *)
Definition coord_map_of (coordinates_df : DataFrame)
    (id_col lat_col lon_col : string) : outcome (list (cell * (cell * cell))) :=
  match set_index coordinates_df id_col with
  | Raise e => Raise e
  | Return indexed =>
      if negb (has_column indexed lat_col) then Raise (KeyError lat_col)
      else if negb (has_column indexed lon_col) then Raise (KeyError lon_col)
      else if negb (is_unique (map (cell_at id_col) (rows indexed)))
      then Raise (ValueError "DataFrame index must be unique for orient='index'.")
      else Return (map (fun r => (cell_at id_col r,
                                  (cell_at lat_col r, cell_at lon_col r)))
                     (rows indexed))
  end.

(** [coord_map.get(k)]; a missing id is no key of the lookup. *)
Definition dict_get (m : list (cell * (cell * cell))) (k : cell)
  : option (cell * cell) :=
  snd <$> List.find (fun p => cell_eqb (fst p) k) m.

Definition station_message (what : string) (i n_stations : nat) : string :=
  what +:+ pretty (i + 1)%nat +:+ "/" +:+ pretty n_stations.

(** One round of the loop of the table variant. *)
Definition update_station (data : loc) (coord_map : list (cell * (cell * cell)))
    (n_stations : nat) (p : nat * cell) : Py unit :=
  (match dict_get coord_map (snd p) with
   | Some new =>
       ids <- getitem_at data "station_id" ;;
       let mask := series_eq ids (snd p) in
       loc_setitem_at data mask "lat" (fst new) ;;
       loc_setitem_at data mask "lon" (snd new)
   | None => ret tt
   end) ;;
  tracker_update 1
    (station_message "Updated coordinates for station " (fst p) n_stations).

(** The loop of the array variant, on the copies of the two arrays. *)
Fixpoint update_arrays `{Libraries} (ds : Dataset) (lat lon : DataArray)
    (coord_map : list (cell * (cell * cell))) (n_stations : nat)
    (items : list (nat * option cell)) (updated : (list nat -> cell) * (list nat -> cell))
  : Py ((list nat -> cell) * (list nat -> cell)) :=
  match items with
  | [] => ret updated
  | (i, item) :: items' =>
      updated' <-
        match item with
        | None => raise (TypeError "unhashable type: 'numpy.ndarray'")
        | Some sid =>
            match dict_get coord_map sid with
            | Some new =>
                let min_ndim := if (length (dims lat) =? 1)%nat then 1%nat else 2%nat in
                la <- lift (assign_first_axis ds lat (fst updated) min_ndim i (fst new)) ;;
                lo <- lift (assign_first_axis ds lon (snd updated) min_ndim i (snd new)) ;;
                ret (la, lo)
            | None => ret updated
            end
        end ;;
      tracker_update 1
        (station_message "Updated coordinates for station " i n_stations) ;;
      update_arrays ds lat lon coord_map n_stations items' updated'
  end.

Definition update_coordinates `{Libraries} (data coordinates_df : loc)
    (id_col lat_col lon_col : string) : Py loc :=
  o <- deref data ;;
  match o with
  | ODataFrame _ =>
      coords_table <- frame_at coordinates_df ;;
      coord_map <- lift (coord_map_of coords_table id_col lat_col lon_col) ;;
      ids <- getitem_at data "station_id" ;;
      let station_ids := unique ids in
      let n_stations := length station_ids in
      ProgressTracker n_stations "Updating coordinates" "stations" ;;
      try_except
        (for_each (enumerate station_ids) (update_station data coord_map n_stations) ;;
         ret data)
        (fun e =>
           tracker_close ;;
           raise (RuntimeError ("Error during coordinate update: " +:+ str e)))
  | ODataset ds =>
      coords_table <- frame_at coordinates_df ;;
      coord_map <- lift (coord_map_of coords_table id_col lat_col lon_col) ;;
      ids <- lift (ds_getitem ds "station_id") ;;
      station_ids <- lift (first_axis_items ds ids) ;;
      let n_stations := length station_ids in
      ProgressTracker n_stations "Updating coordinates" "stations" ;;
      try_except
        (lat <- lift (ds_getitem ds "lat") ;;
         lon <- lift (ds_getitem ds "lon") ;;
         updated <- update_arrays ds lat lon coord_map n_stations
                      (enumerate station_ids) (values lat, values lon) ;;
         let ds := ds_setitem ds "lat" (mkDataArray (dims lat) (fst updated)) in
         let ds := ds_setitem ds "lon" (mkDataArray (dims lon) (snd updated)) in
         store data (ODataset ds) ;;
         ret data)
        (fun e =>
           tracker_close ;;
           raise (RuntimeError ("Error during coordinate update: " +:+ str e)))
  | OOther => raise (TypeError "Data must be a pandas DataFrame or xarray Dataset")
  end.

Section Resampling.
Context `{Libraries}.

(** One round of the loop of [convert_hourly_to_daily]: the daily table of
    one station. *)
Definition daily_of_station (df : loc) (value_col time_col : string)
    (n_stations : nat) (p : nat * cell) : Py DataFrame :=
  table <- frame_at df ;;
  ids <- lift (getitem table "station_id") ;;
  let station_data := loc_mask table (series_eq ids (snd p)) in
  indexed <- lift (set_index station_data time_col) ;;
  daily_station <- lift (resample_daily_mean indexed value_col) ;;
  let daily_station := setitem_const daily_station "station_id" (snd p) in
  tracker_update 1 (station_message "Processed station " (fst p) n_stations) ;;
  ret daily_station.

Definition convert_hourly_to_daily (df : loc) (value_col time_col : string)
  : Py loc :=
  col <- getitem_at df time_col ;;
  col <- lift (pd_to_datetime col) ;;
  setitem_at df time_col col ;;
  ids <- getitem_at df "station_id" ;;
  let station_ids := unique ids in
  let n_stations := length station_ids in
  ProgressTracker n_stations "Converting hourly to daily data" "stations" ;;
  try_except
    (daily_data <- map_py (daily_of_station df value_col time_col n_stations)
                     (enumerate station_ids) ;;
     result <- lift (pd_concat daily_data) ;;
     alloc (ODataFrame result))
    (fun e =>
       tracker_close ;;
       raise (RuntimeError ("Error during hourly to daily conversion: " +:+ str e))).

End Resampling.

(** *** The remaining geospatial helpers *)

(** [Point(x, y)] of the geometry library, called on two cells of a
    table.  What it makes of a missing coordinate or of a cell that is no
    number is the library's to say. *)
Class PointLibrary := {
  point_of : cell -> cell -> outcome cell
}.

Section Points.
Context `{PointLibrary}.

(** [convert_to_geodataframe]; the reference system is given by its EPSG
    code (the default is 4326). *)
Definition convert_to_geodataframe (df : DataFrame) (lon_col lat_col : string)
    (crs : Z) : Py GeoDataFrame :=
  ProgressTracker 3 "Converting to GeoDataFrame" "steps" ;;
  try_except
    (tracker_update 1 "Validating input columns" ;;
     (if negb (has_column df lon_col) || negb (has_column df lat_col)
      then raise (ValueError ("DataFrame must contain '" +:+ lon_col
                              +:+ "' and '" +:+ lat_col +:+ "' columns"))
      else ret tt) ;;
     tracker_update 1 "Creating Point geometries" ;;
     lons <- lift (getitem df lon_col) ;;
     lats <- lift (getitem df lat_col) ;;
     geometry <- lift (map_outcome (fun xy => point_of (fst xy) (snd xy))
                         (zip lons lats)) ;;
     tracker_update 1 "Creating GeoDataFrame" ;;
     let gdf := mkGeoDataFrame (setitem df "geometry" geometry) (Some crs) in
     ret gdf)
    (fun e =>
       tracker_close ;;
       raise (RuntimeError ("Error during GeoDataFrame conversion: " +:+ str e))).

End Points.

Section WithinShape.
Context `{Libraries} `{PointLibrary}.

(** One round of the loop of [filter_data_within_shape]: the rows of the
    station when its first record lies within the first geometry of the
    shape, nothing otherwise. *)
Definition rows_if_within (shape : GeoDataFrame) (df : DataFrame)
    (n_stations : nat) (p : nat * cell) : Py (option DataFrame) :=
  ids <- lift (getitem df "station_id") ;;
  let station_data := loc_mask df (series_eq ids (snd p)) in
  lons <- lift (getitem station_data "lon") ;;
  lon0 <- lift (iloc0 lons) ;;
  lats <- lift (getitem station_data "lat") ;;
  lat0 <- lift (iloc0 lats) ;;
  point <- lift (point_of lon0 lat0) ;;
  shape0 <- lift (iloc0 (map geometry_of (rows (frame shape)))) ;;
  let inside := within_cell point shape0 in
  tracker_update 1 (station_message "Processed station " (fst p) n_stations) ;;
  ret (if inside then Some station_data else None).

Definition filter_data_within_shape (dataset : Dataset) (shape : GeoDataFrame)
  : Py DataFrame :=
  df <- lift (to_dataframe dataset) ;;
  ids <- lift (getitem df "station_id") ;;
  let station_ids := unique ids in
  let n_stations := length station_ids in
  ProgressTracker n_stations "Filtering stations within shape" "stations" ;;
  try_except
    (kept <- map_py (rows_if_within shape df n_stations) (enumerate station_ids) ;;
     let filtered_data := omap id kept in
     match filtered_data with
     | [] => ret (mkDataFrame [] [] [])
     | _ => lift (pd_concat filtered_data)
     end)
    (fun e =>
       tracker_close ;;
       raise (RuntimeError ("Error during data filtering: " +:+ str e))).

End WithinShape.

(** * Vocabulary of the statements *)

(** The row [r] with its coordinates replaced by the pair [new]. *)
Definition with_coordinates (new : cell * cell) (r : row) : row :=
  <["lon" := snd new]> (<["lat" := fst new]> r).

(** What one round of the loop of [update_coordinates] does to a row. *)
Definition update_row_for (m : list (cell * (cell * cell))) (sid : cell)
    (r : row) : row :=
  match dict_get m sid with
  | Some new =>
      if cell_eqb (cell_at "station_id" r) sid then with_coordinates new r else r
  | None => r
  end.

(** The daily table that one round of the loop of [convert_hourly_to_daily]
    computes for the station [sid] from the (coerced) table [t]. *)
Definition daily_table (t : DataFrame) (value_col time_col : string)
    (sid : cell) : outcome DataFrame :=
  match getitem t "station_id" with
  | Raise e => Raise e
  | Return ids =>
      match set_index (loc_mask t (series_eq ids sid)) time_col with
      | Raise e => Raise e
      | Return indexed =>
          match resample_daily_mean indexed value_col with
          | Raise e => Raise e
          | Return daily => Return (setitem_const daily "station_id" sid)
          end
      end
  end.

(** The rows of a table that belong to the station [sid]. *)
Definition station_rows (t : DataFrame) (sid : cell) : list row :=
  List.filter (fun r => cell_eqb (cell_at "station_id" r) sid) (rows t).

Definition time_of (c : cell) : Z :=
  match c with CTime t => t | _ => 0%Z end.

Definition value_of (c : cell) : option Q :=
  match c with CNum q => Some q | _ => None end.

(** The observations of a station: time stamp and value, row by row. *)
Definition station_obs (t : DataFrame) (value_col time_col : string)
    (sid : cell) : list (Z * option Q) :=
  map (fun r => (time_of (cell_at time_col r), value_of (cell_at value_col r)))
    (station_rows t sid).



(** The number of distinct calendar days among observations. *)
Definition distinct_days (obs : list (Z * option Q)) : nat :=
  length (remove_dups (map (fun o => day_of (fst o)) obs)).

(** The row of the daily table of station [sid] for the day [d]. *)
Definition daily_row (value_col time_col : string) (sid : cell)
    (obs : list (Z * option Q)) (d : Z) : row :=
  <["station_id" := sid]>
    (<[value_col := mean (values_on d obs)]> {[time_col := CTime (d * ns_per_day)]}).

(** The value a data variable holds at time step [t] for the position
    [idx] of the other dimensions; a variable without the time dimension
    holds one value for all time steps. *)
Definition observation (time_dim : string) (a : DataArray) (idx : list nat)
    (t : nat) : cell :=
  match axis_of time_dim (dims a) with
  | Some k => values a (insert_axis k t idx)
  | None => values a idx
  end.

Section Vocabulary.
Context `{Libraries}.

(** A dataset is valid for [preprocess_swe] when the array library can
    flatten it and the levels of a composite index can become columns. *)
Definition valid_swe (ds : Dataset) : Prop :=
  exists df, to_dataframe ds = Return df
             /\ (is_multiindex df = true -> exists df', reset_index df = Return df').

(** For [preprocess_precip] the [time] column, when there is one, has to be
    coercible as well. *)
Definition flattened (ds : Dataset) (df : DataFrame) : Prop :=
  exists df0, to_dataframe ds = Return df0
              /\ (if is_multiindex df0 then reset_index df0 = Return df
                  else df = df0).

Definition valid_precip (ds : Dataset) : Prop :=
  exists df, flattened ds df
             /\ (has_column df "time" = true ->
                 exists col, pd_to_datetime (map (cell_at "time") (rows df)) = Return col).

(** The three checks of [spatial_join], as the caller sees them. *)
Definition join_precondition_violated (points_gdf polygons_gdf : GeoDataFrame)
  : Prop :=
  (exists r, r ∈ rows (frame points_gdf) /\ is_point (geometry_of r) = false)
  \/ (exists r, r ∈ rows (frame polygons_gdf)
                /\ is_polygonal (geometry_of r) = false)
  \/ crs points_gdf ≠ crs polygons_gdf.

(** The polygon [extract_stations_in_basin] selects: the geometry of the
    first row of the basin table whose [Station_ID] is the requested one. *)
Definition basin_polygon (basin_shapefile : GeoDataFrame) (basin_id : string)
  : option cell :=
  geometry_of <$>
    head (List.filter (fun r => cell_eqb (cell_at "Station_ID" r) (CStr basin_id))
            (rows (frame basin_shapefile))).

(** Containment of a station in the basin polygon [g]: for a positive
    buffer, of the station re-projected to the metric system EPSG:3763 in
    the re-projected polygon grown by [buffer_km * 1000] metres; otherwise
    of the station as it is in the polygon as it is. *)
Definition station_in_basin (stations basin_shapefile : GeoDataFrame)
    (g : cell) (buffer_km : Q) (r : row) : bool :=
  if Qpositive buffer_km then
    match crs stations, crs basin_shapefile with
    | Some from_s, Some from_b =>
        within_cell (transform_cell from_s 3763 (geometry_of r))
          (buffer_cell (transform_cell from_b 3763 g) (buffer_km * 1000))
    | _, _ => false
    end
  else within_cell (geometry_of r) g.

(** The property of [assess_data_availability] as the specification words
    it, for every data variable alike: a station without a missing
    observation reads exactly 100 at each of its retained positions. *)
Definition full_availability_claim (data : Dataset)
    (time_dim station_dim : string) (w : World) : Prop :=
  forall (w' : World) (av : Dataset) (T i j s : nat) (name : string)
         (a a' : DataArray),
    dim_size data time_dim = Some T ->
    (0 < T)%nat ->
    assess_data_availability data time_dim station_dim w = (w', Return av) ->
    data_vars data !! i = Some (name, a) ->
    data_vars av !! i = Some (name, a') ->
    axis_of station_dim (dims a') = Some j ->
    (forall idx t, idx !! j = Some s -> (t < T)%nat ->
                   notnull (observation time_dim a idx t) = true) ->
    forall idx, idx !! j = Some s ->
                exists q, values a' idx = CNum q /\ (q == 100)%Q.


End Vocabulary.

(** ** Vocabulary of the further statements *)

(** A computation that touches no object and tells the tracker anything
    but to close. *)
Definition quiet {A} (m : Py A) : Prop :=
  forall w, exists events,
    heap (fst (m w)) = heap w
    /\ progress (fst (m w)) = progress w ++ events
    /\ TrackerClose ∉ events.

(** The discipline of a function whose whole body stands in the [try]: it
    touches no object; when it returns the tracker has not been closed;
    when it raises, it raises the runtime error with the given prefix, and
    closing the tracker is the last thing it did. *)
Definition wrapped {A} (prefix : string) (m : Py A) : Prop :=
  forall w w' o,
    m w = (w', o) ->
    heap w' = heap w
    /\ exists events,
         progress w' = progress w ++ events
         /\ match o with
            | Return _ => TrackerClose ∉ events
            | Raise e =>
                (exists cause, e = RuntimeError (prefix +:+ str cause))
                /\ exists before,
                     events = before ++ [TrackerClose] /\ TrackerClose ∉ before
            end.

(** The failure of a call whose body raised [cause]: the runtime error of
    the function, its message the prefix followed by the text of the
    cause, raised right after the tracker was closed, no object touched. *)
Definition reports {A} (prefix : string) (cause : exn) (m : Py A) (w : World)
  : Prop :=
  exists before,
    m w = (mkWorld (heap w) (progress w ++ before ++ [TrackerClose]),
           Raise (RuntimeError (prefix +:+ str cause)))
    /\ TrackerClose ∉ before.

(** A call whose body fails with [failure], if with anything: it then
    reports this very exception; a body without failure returns. *)
Definition fails_exactly {A} (prefix : string) (failure : option exn)
    (m : Py A) : Prop :=
  forall w,
    match failure with
    | Some cause => reports prefix cause m w
    | None => exists w' r, m w = (w', Return r)
    end.

Definition failure_of {A} (o : outcome A) : option exn :=
  match o with
  | Raise e => Some e
  | Return _ => None
  end.

Section Failures.
Context `{Libraries} `{PointLibrary}.

(** The exception the body of each function raises, if any: the one of the
    first step that fails, the steps taken in the order of the code. *)
Definition swe_failure (swe_data : Dataset) : option exn :=
  match to_dataframe swe_data with
  | Raise e => Some e
  | Return df => if is_multiindex df then failure_of (reset_index df) else None
  end.

Definition precip_failure (precip_data : Dataset) : option exn :=
  match to_dataframe precip_data with
  | Raise e => Some e
  | Return df0 =>
      match (if is_multiindex df0 then reset_index df0 else Return df0) with
      | Raise e => Some e
      | Return df =>
          if has_column df "time"
          then failure_of (pd_to_datetime (map (cell_at "time") (rows df)))
          else None
      end
  end.

Definition filter_failure (data : object) (stations_list : list cell)
  : option exn :=
  match data with
  | ODataFrame df =>
      if has_column df "station_id" then None
      else Some (ValueError "DataFrame does not contain 'station_id' column")
  | ODataset ds => failure_of (sel_station_id ds stations_list)
  | OOther => Some (TypeError "Data must be a pandas DataFrame or xarray Dataset")
  end.

Definition availability_failure (data : Dataset) (time_dim : string)
  : option exn :=
  match dim_size data time_dim with
  | Some _ => None
  | None =>
      Some (ValueError ("Dataset does not contain the dimensions: " +:+ time_dim))
  end.

Definition extract_failure (stations basin_shapefile : GeoDataFrame)
    (basin_id : string) (buffer_km : Q) : option exn :=
  match select_basin basin_shapefile basin_id with
  | Raise e => Some e
  | Return basin =>
      match first_geometry basin with
      | Raise e => Some e
      | Return _ =>
          if Qpositive buffer_km then
            match to_crs basin 3763 with
            | Raise e => Some e
            | Return basin_crs_conversion =>
                match to_crs stations 3763 with
                | Raise e => Some e
                | Return _ =>
                    let basin_buffer :=
                      gdf_buffer basin_crs_conversion (buffer_km * 1000) in
                    match iloc0 (geoms basin_buffer) with
                    | Raise e => Some e
                    | Return _ => failure_of (series_to_crs basin_buffer 4326)
                    end
                end
            end
          else None
      end
  end.

Definition convert_failure (df : DataFrame) (lon_col lat_col : string)
  : option exn :=
  if negb (has_column df lon_col) || negb (has_column df lat_col)
  then Some (ValueError ("DataFrame must contain '" +:+ lon_col
                         +:+ "' and '" +:+ lat_col +:+ "' columns"))
  else failure_of (map_outcome (fun xy => point_of (fst xy) (snd xy))
                     (zip (map (cell_at lon_col) (rows df))
                        (map (cell_at lat_col) (rows df)))).

Definition join_failure (points_gdf polygons_gdf : GeoDataFrame)
    (how op : string) : option exn :=
  if negb (forallb is_point (map geometry_of (rows (frame points_gdf))))
  then Some (ValueError "points_gdf must contain only Point geometries")
  else if negb (forallb is_polygonal
                  (map geometry_of (rows (frame polygons_gdf))))
  then Some (ValueError
               "polygons_gdf must contain only Polygon or MultiPolygon geometries")
  else if bool_decide (crs points_gdf ≠ crs polygons_gdf)
  then Some (ValueError "Coordinate systems of points and polygons must match")
  else failure_of (sjoin points_gdf polygons_gdf how op).

End Failures.

(** The station id of the row is one of the listed ids. *)
Definition listed (stations_list : list cell) (r : row) : bool :=
  existsb (cell_same (cell_at "station_id" r)) stations_list.

(** The count a variable reports at a position. *)
Definition counted (time_dim : string) (T : nat) (a : DataArray)
    (idx : list nat) : nat :=
  match axis_of time_dim (dims a) with
  | Some _ => count_notnull T (observation time_dim a idx)
  | None => if notnull (values a idx) then 1%nat else 0%nat
  end.

(** What the statements on points ask of the geometry library: of two
    numbers it makes the point with these coordinates; whatever it is
    given, it makes nothing but points. *)
Definition makes_points `{PointLibrary} : Prop :=
  forall x y : Q, point_of (CNum x) (CNum y) = Return (CGeom (Point x y)).

Definition makes_only_points `{PointLibrary} : Prop :=
  forall (x y c : cell), point_of x y = Return c -> is_point c = true.

(** The point of a row that has a number in both coordinate columns. *)
Definition point_cell (lon_col lat_col : string) (r : row) : cell :=
  match cell_at lon_col r, cell_at lat_col r with
  | CNum x, CNum y => CGeom (Point x y)
  | _, _ => CNaN
  end.

Definition has_coordinates (lon_col lat_col : string) (r : row) : Prop :=
  exists x y, cell_at lon_col r = CNum x /\ cell_at lat_col r = CNum y.

(** What [spatial_join] requires of its two collections. *)
Definition joinable (points_gdf polygons_gdf : GeoDataFrame) : Prop :=
  forallb is_point (map geometry_of (rows (frame points_gdf))) = true
  /\ forallb is_polygonal (map geometry_of (rows (frame polygons_gdf))) = true
  /\ crs points_gdf = crs polygons_gdf.

Section ShapeVocabulary.
Context `{Libraries} `{PointLibrary}.

(** What one round of the loop of [filter_data_within_shape] decides for
    the station [sid] of the flattened table [df]. *)
Definition station_choice (shape : GeoDataFrame) (df : DataFrame) (sid : cell)
  : outcome (option DataFrame) :=
  match getitem df "station_id" with
  | Raise e => Raise e
  | Return ids =>
      let station_data := loc_mask df (series_eq ids sid) in
      match getitem station_data "lon" with
      | Raise e => Raise e
      | Return lons =>
          match iloc0 lons with
          | Raise e => Raise e
          | Return lon0 =>
              match getitem station_data "lat" with
              | Raise e => Raise e
              | Return lats =>
                  match iloc0 lats with
                  | Raise e => Raise e
                  | Return lat0 =>
                      match point_of lon0 lat0 with
                      | Raise e => Raise e
                      | Return point =>
                          match iloc0 (map geometry_of (rows (frame shape))) with
                          | Raise e => Raise e
                          | Return shape0 =>
                              Return (if within_cell point shape0
                                      then Some station_data else None)
                          end
                      end
                  end
              end
          end
      end
  end.


End ShapeVocabulary.

(** The array library accepts the replacement pair: it has something to
    store for the latitude in an array of the element type of [lat], and
    for the longitude in one of the element type of [lon]. *)
Definition stored_as `{Libraries} (lat lon : DataArray) (new : cell * cell)
  : Prop :=
  (exists la, cast_element lat (fst new) = Return la)
  /\ (exists lo, cast_element lon (snd new) = Return lo).

(** The row after the table variant of [update_coordinates]. *)
Definition updated_row (m : list (cell * (cell * cell))) (r : row) : row :=
  match dict_get m (cell_at "station_id" r) with
  | Some new => with_coordinates new r
  | None => r
  end.

(** * A small implementation of the libraries, and example data

    Coordinates of every reference system but EPSG:3763 are read as
    kilometres on a plane, those of EPSG:3763 as metres; containment and
    buffering work on bounding boxes; a number is coerced to the date-time
    that many nanoseconds after the epoch. *)
Module Example.

Definition metres_per_unit (epsg : Z) : Q :=
  if (epsg =? 3763)%Z then 1%Q else 1000%Q.

Definition scale_point (k : Q) (p : Q * Q) : Q * Q :=
  (Qred (fst p * k), Qred (snd p * k)).

Definition reproject (from to : Z) (g : Geometry) : Geometry :=
  let k := (metres_per_unit from / metres_per_unit to)%Q in
  match g with
  | Point x y => Point (Qred (x * k)) (Qred (y * k))
  | LineString pts => LineString (map (scale_point k) pts)
  | Polygon shell => Polygon (map (scale_point k) shell)
  | MultiPolygon parts => MultiPolygon (map (map (scale_point k)) parts)
  end.

Definition Qlt_bool (a b : Q) : bool := negb (Qle_bool b a).

Definition Qsmaller (a b : Q) : Q := if Qle_bool a b then a else b.

Definition Qlarger (a b : Q) : Q := if Qle_bool a b then b else a.

(** The bounding box of a ring: west, east, south, north. *)
Definition bbox (shell : list (Q * Q)) : option (Q * Q * Q * Q) :=
  match shell with
  | [] => None
  | p :: ps =>
      Some (fold_right Qsmaller (fst p) (map fst ps),
            fold_right Qlarger (fst p) (map fst ps),
            fold_right Qsmaller (snd p) (map snd ps),
            fold_right Qlarger (snd p) (map snd ps))
  end.

Definition inside_box (x y : Q) (shell : list (Q * Q)) : bool :=
  match bbox shell with
  | Some (west, east, south, north) =>
      Qlt_bool west x && Qlt_bool x east && Qlt_bool south y && Qlt_bool y north
  | None => false
  end.

Definition within_box (g other : Geometry) : bool :=
  match g, other with
  | Point x y, Polygon shell => inside_box x y shell
  | Point x y, MultiPolygon parts => existsb (inside_box x y) parts
  | _, _ => false
  end.

Definition grow (d : Q) (shell : list (Q * Q)) : list (Q * Q) :=
  match bbox shell with
  | Some (west, east, south, north) =>
      [(west - d, south - d); (east + d, south - d);
       (east + d, north + d); (west - d, north + d)]%Q
  | None => []
  end.

Definition buffer_box (g : Geometry) (d : Q) : Geometry :=
  match g with
  | Point x y => Polygon (grow d [(x, y)])
  | LineString pts => Polygon (grow d pts)
  | Polygon shell => Polygon (grow d shell)
  | MultiPolygon parts => MultiPolygon (map (grow d) parts)
  end.

Definition coerce_datetime (c : cell) : outcome Z :=
  match c with
  | CTime ns => Return ns
  | CNum q => Return (Qfloor q)
  | _ => Raise (ValueError "Unknown datetime string format")
  end.

(** All positions of an array of the given shape, last axis fastest. *)
Fixpoint positions (shape : list nat) : list (list nat) :=
  match shape with
  | [] => [[]]
  | n :: shape' =>
      flat_map (fun i => map (cons i) (positions shape')) (seq 0 n)
  end.

Definition project (axes : list string) (idx : list nat) (a : DataArray)
  : list nat :=
  map (fun d => default 0%nat (axis_of d axes ≫= fun i => idx !! i)) (dims a).

(** One row per position of the dataset; the positions along the
    dimensions form the composite index. *)
Definition flatten (ds : Dataset) : outcome DataFrame :=
  match sizes ds with
  | [] => Raise (ValueError "no valid index for a 0-dimensional object")
  | _ =>
      let axes := map fst (sizes ds) in
      let vars := data_vars ds ++ coords ds in
      Return (mkDataFrame axes (map fst vars)
                (map (fun idx =>
                        list_to_map
                          (zip axes (map cell_of_nat idx)
                           ++ map (fun p => (fst p, values (snd p) (project axes idx (snd p))))
                                vars))
                   (positions (map snd (sizes ds)))))
  end.

Definition join_within (points polygons : GeoDataFrame) (how op : string)
  : outcome GeoDataFrame :=
  Return (mkGeoDataFrame
            (mkDataFrame (index_names (frame points)) (columns (frame points))
               (List.filter
                  (fun r =>
                     existsb (fun p => match geometry_of r, geometry_of p with
                                       | CGeom g, CGeom o => within_box g o
                                       | _, _ => false
                                       end)
                       (rows (frame polygons)))
                  (rows (frame points))))
            (crs points)).

(** Every array holds floating-point numbers: a number or a missing value
    is stored as it is, anything else is refused. *)
Definition store_float (a : DataArray) (c : cell) : outcome cell :=
  match c with
  | CNum q => Return (CNum q)
  | CNaN => Return CNaN
  | _ => Raise (ValueError "could not convert string to float")
  end.

Definition lib : Libraries := {|
  to_datetime_scalar := coerce_datetime;
  to_dataframe := flatten;
  sel_station_id := fun ds _ => Return ds;
  within := within_box;
  buffer := buffer_box;
  transform := reproject;
  sjoin := join_within;
  cast_element := store_float
|}.

Definition empty_world : World := mkWorld [] [].

(** Snow water equivalent of two stations at two time steps (station 1
    lacks the second one), and the latitude of each station. *)
Definition snw : DataArray :=
  mkDataArray ["time"; "station_id"]
    (fun idx => match idx with
                | 1%nat :: 1%nat :: _ => CNaN
                | _ => CNum 120
                end).

Definition lat : DataArray :=
  mkDataArray ["station_id"] (fun _ => CNum 51).

Definition canswe : Dataset :=
  mkDataset [("time", 2%nat); ("station_id", 2%nat)]
    [("snw", snw); ("lat", lat)] [].

Definition hour : Z := 3600000000000.

Definition reading (sid : string) (time : Z) (swe : Q) : row :=
  <["swe" := CNum swe]> (<["time" := CNum (inject_Z time)]> {[ "station_id" := CStr sid ]}).

(** Station A is read on the first and on the third day, station B twice
    on the first day. *)
Definition hourly : DataFrame :=
  mkDataFrame [] ["station_id"; "time"; "swe"]
    [reading "A" (1 * hour) 2;
     reading "B" (12 * hour) 10;
     reading "A" (51 * hour) 4;
     reading "B" (18 * hour) 20].

Definition hourly_world : World := mkWorld [ODataFrame hourly] [].

Definition located (sid : string) (la lo : Q) : row :=
  <["lon" := CNum lo]> (<["lat" := CNum la]> {[ "station_id" := CStr sid ]}).

Definition located_stations : DataFrame :=
  mkDataFrame [] ["station_id"; "lat"; "lon"]
    [located "A" 50 (-115); located "B" 52 (-113); located "A" 50 (-115)].

Definition new_coordinates : DataFrame :=
  mkDataFrame [] ["station_id"; "New_Lat"; "New_Lon"]
    [<["New_Lon" := CNum (-114)]>
       (<["New_Lat" := CNum 51]> {[ "station_id" := CStr "A" ]})].

Definition coordinates_world : World :=
  mkWorld [ODataFrame located_stations; ODataFrame new_coordinates] [].

Definition station_point (sid : string) (x y : Q) : row :=
  <["geometry" := CGeom (Point x y)]> {[ "station_id" := CStr sid ]}.

(** Three stations and one square basin, both in NAD83 (EPSG:4269). *)
Definition stations : GeoDataFrame :=
  mkGeoDataFrame
    (mkDataFrame [] ["station_id"; "geometry"]
       [station_point "A" 5 5; station_point "B" 12 5; station_point "C" 30 30])
    (Some 4269%Z).

Definition basins : GeoDataFrame :=
  mkGeoDataFrame
    (mkDataFrame [] ["Station_ID"; "geometry"]
       [<["geometry" := CGeom (Polygon [(0, 0); (10, 0); (10, 10); (0, 10)]%Q)]>
          {[ "Station_ID" := CStr "05BB001" ]}])
    (Some 4269%Z).

(** A collection that holds a line next to a point. *)
Definition roads : GeoDataFrame :=
  mkGeoDataFrame
    (mkDataFrame [] ["station_id"; "geometry"]
       [station_point "A" 5 5;
        <["geometry" := CGeom (LineString [(0, 0); (1, 1)]%Q)]>
          {[ "station_id" := CStr "R" ]}])
    (Some 4269%Z).

(** A table that names its stations in a column [site]. *)
Definition unnamed_table : DataFrame :=
  mkDataFrame [] ["site"; "swe"]
    [<["swe" := CNum 3]> {[ "site" := CStr "A" ]}].

(** The same stations without a reference system. *)
Definition untagged_stations : GeoDataFrame :=
  mkGeoDataFrame (frame stations) None.

(** A network of two stations along a dimension [station]: the name and
    the position of each are coordinates of the dataset, the snow water
    equivalent is read at two time steps.  Station A lies in the square
    basin, station B east of it. *)
Definition station_names : DataArray :=
  mkDataArray ["station"]
    (fun idx => match idx with
                | 0%nat :: _ => CStr "A"
                | _ => CStr "B"
                end).

Definition northing : DataArray :=
  mkDataArray ["station"] (fun _ => CNum 5).

Definition easting : DataArray :=
  mkDataArray ["station"]
    (fun idx => match idx with
                | 0%nat :: _ => CNum 5
                | _ => CNum 12
                end).

Definition depth : DataArray :=
  mkDataArray ["station"; "time"] (fun _ => CNum 120).

Definition network : Dataset :=
  mkDataset [("station", 2%nat); ("time", 2%nat)]
    [("snw", depth)]
    [("station_id", station_names); ("lat", northing); ("lon", easting)].

Definition network_world : World :=
  mkWorld [ODataset network; ODataFrame new_coordinates] [].

(** A table of readings without any reading. *)
Definition no_readings : DataFrame :=
  mkDataFrame [] ["station_id"; "time"; "swe"] [].

Definition no_readings_world : World := mkWorld [ODataFrame no_readings] [].

(** New coordinates that name station A twice. *)
Definition repeated_coordinates : DataFrame :=
  mkDataFrame [] ["station_id"; "New_Lat"; "New_Lon"]
    [<["New_Lon" := CNum (-114)]>
       (<["New_Lat" := CNum 51]> {[ "station_id" := CStr "A" ]});
     <["New_Lon" := CNum (-110)]>
       (<["New_Lat" := CNum 49]> {[ "station_id" := CStr "A" ]})].

Definition repeated_world : World :=
  mkWorld [ODataFrame located_stations; ODataFrame repeated_coordinates] [].

Definition other_world : World := mkWorld [OOther] [].

(** Points are made of two numbers; anything else is refused. *)
Definition point_of_numbers (x y : cell) : outcome cell :=
  match x, y with
  | CNum qx, CNum qy => Return (CGeom (Point qx qy))
  | _, _ => Raise (TypeError "must be real number")
  end.

Definition points : PointLibrary := {| point_of := point_of_numbers |}.

End Example.

(** * Tactics *)

(** Unfolds one run of a function of the module down to its steps. *)
Ltac run_py :=
  unfold bind, try_except, lift, ret, raise, ProgressTracker, tracker_update,
    tracker_close, tell; cbn [fst snd heap progress].

(** Closes [ev ∉ events] for an explicit list of other events. *)
Ltac not_announced :=
  let Hn := fresh "Hn" in
  intros ? Hn;
  repeat (apply elem_of_cons in Hn as [Hn | Hn]; [discriminate Hn |]);
  apply elem_of_nil in Hn; exact Hn.

(** Decides membership of a name in an explicit list of names. *)
Ltac decide_elem :=
  first [ apply (proj1 (bool_decide_eq_true _)); reflexivity
        | apply (proj1 (bool_decide_eq_false _)); reflexivity ].

(** Names the value of a call on the example data. *)
Ltac evaluate call H :=
  let v := eval vm_compute in call in
  assert (H : call = v) by (vm_compute; reflexivity).

(** * Properties *)

Lemma Forall_map_insert2 (k1 k2 : string) (v1 v2 : cell) (rs : list row) :
  k1 ≠ k2 ->
  Forall (fun r : row => r !! k1 = Some v1 /\ r !! k2 = Some v2)
    (map (fun r : row => <[k2 := v2]> (<[k1 := v1]> r)) rs).
Proof.
  intros Hne. apply Forall_forall. intros r Hin.
  apply list_elem_of_fmap in Hin as (r0 & -> & _).
  split.
  - rewrite lookup_insert_ne by congruence. apply lookup_insert_eq.
  - apply lookup_insert_eq.
Qed.

Lemma rows_metadata (df : DataFrame) (source : string) :
  Forall (fun r : row => r !! "data_source" = Some (CStr source)
                         /\ r !! "units" = Some (CStr "mm"))
    (rows (setitem_const (setitem_const df "data_source" (CStr source))
             "units" (CStr "mm"))).
Proof.
  cbn [rows setitem_const]. rewrite map_map.
  apply Forall_map_insert2. discriminate.
Qed.

Section Properties.
Context `{Libraries}.

Lemma lookup_map {A B} (f : A -> B) (xs : list A) (i : nat) :
  map f xs !! i = f <$> xs !! i.
Proof. exact (list_lookup_fmap f xs i). Qed.

Lemma flatten_step_run (df0 df : DataFrame) (w : World) :
  (if is_multiindex df0 then reset_index df0 = Return df else df = df0) ->
  (if is_multiindex df0 then lift (reset_index df0) else ret df0) w = (w, Return df).
Proof.
  destruct (is_multiindex df0); [intros -> | intros ->]; reflexivity.
Qed.

Lemma preprocess_swe_run (ds : Dataset) (df : DataFrame) (w : World) :
  flattened ds df ->
  exists w',
    preprocess_swe ds w =
      (w', Return (setitem_const (setitem_const df "data_source" (CStr "SWE"))
                     "units" (CStr "mm"))).
Proof.
  intros (df0 & Hflat & Hshape). unfold preprocess_swe.
  unfold bind at 1. unfold ProgressTracker, tell. unfold try_except.
  unfold bind at 1. unfold tracker_update at 1, tell.
  unfold bind at 1. unfold lift at 1. rewrite Hflat.
  unfold bind at 1. unfold tracker_update at 1, tell.
  unfold bind at 1. rewrite (flatten_step_run df0 df _ Hshape).
  run_py. eauto.
Qed.

Lemma preprocess_precip_run (ds : Dataset) (df : DataFrame) (w : World) :
  flattened ds df ->
  (has_column df "time" = true ->
   exists col, pd_to_datetime (map (cell_at "time") (rows df)) = Return col) ->
  exists w' df1,
    preprocess_precip ds w =
      (w', Return (setitem_const
                     (setitem_const df1 "data_source" (CStr "Precipitation"))
                     "units" (CStr "mm")))
    /\ if has_column df "time"
       then exists col,
              pd_to_datetime (map (cell_at "time") (rows df)) = Return col
              /\ df1 = setitem df "time" col
       else df1 = df.
Proof.
  intros (df0 & Hflat & Hshape) Htime. unfold preprocess_precip.
  unfold bind at 1. unfold ProgressTracker, tell. unfold try_except.
  unfold bind at 1. unfold tracker_update at 1, tell.
  unfold bind at 1. unfold lift at 1. rewrite Hflat.
  unfold bind at 1. unfold tracker_update at 1, tell.
  unfold bind at 1. rewrite (flatten_step_run df0 df _ Hshape).
  unfold bind at 1. unfold tracker_update at 1, tell.
  unfold bind at 1.
  destruct (has_column df "time") eqn:Hcol.
  - destruct (Htime eq_refl) as (col & Hcoerce).
    unfold getitem. rewrite Hcol. run_py. rewrite Hcoerce. cbn.
    eexists _, _. split; [reflexivity |]. eauto.
  - run_py. eexists _, _. split; reflexivity.
Qed.

Lemma zip_with_insert_lookup (c : string) (rs : list row) (vs : list cell)
    (i : nat) (r : row) :
  length vs = length rs ->
  rs !! i = Some r ->
  exists v, vs !! i = Some v
            /\ zip_with (fun (r : row) v => <[c := v]> r) rs vs !! i
               = Some (<[c := v]> r).
Proof.
  revert vs i. induction rs as [| r0 rs IH]; intros [| v vs] i Hlen Hr;
    try discriminate.
  destruct i as [| i]; cbn in *.
  - injection Hr as <-. eauto.
  - apply IH; [lia | exact Hr].
Qed.

Lemma valid_swe_flattened (ds : Dataset) :
  valid_swe ds -> exists flat, flattened ds flat.
Proof.
  intros (df0 & Hflat & Hreset). unfold flattened.
  destruct (is_multiindex df0) eqn:Hmulti.
  - destruct (Hreset eq_refl) as (df1 & Hdf1).
    exists df1, df0. rewrite Hmulti. auto.
  - exists df0, df0. rewrite Hmulti. auto.
Qed.

(** C7: for every valid dataset [preprocess_swe] returns the flattened
    dataset with the two metadata columns appended: the index and the
    columns are those of the flattened table, [data_source] and [units]
    added after them (a column of the flattened table that bears one of
    these names keeps its place and is overwritten); the rows are the rows
    of the flattened table, one for one and in their order, with
    [data_source] set to "SWE" and [units] to "mm", so every row has
    [data_source] equal to "SWE" and [units] equal to "mm".
    [preprocess_precip] does the same with "Precipitation": the same index
    and columns, as many rows as the flattened table, every cell but those
    of [data_source], [units] and [time] as it was, and every row with
    [data_source] "Precipitation" and [units] "mm". *)
Theorem preprocess_metadata_columns (ds : Dataset) (w : World) :
  (valid_swe ds ->
   exists w' df flat,
     flattened ds flat
     /\ preprocess_swe ds w = (w', Return df)
     /\ index_names df = index_names flat
     /\ columns df = add_column (add_column (columns flat) "data_source") "units"
     /\ rows df
        = map (fun r : row =>
                 <["units" := CStr "mm"]> (<["data_source" := CStr "SWE"]> r))
            (rows flat)
     /\ Forall (fun r : row => r !! "data_source" = Some (CStr "SWE")
                               /\ r !! "units" = Some (CStr "mm")) (rows df))
  /\
  (valid_precip ds ->
   exists w' df flat,
     flattened ds flat
     /\ preprocess_precip ds w = (w', Return df)
     /\ index_names df = index_names flat
     /\ columns df = add_column (add_column (columns flat) "data_source") "units"
     /\ length (rows df) = length (rows flat)
     /\ (forall (i : nat) (r : row),
           rows flat !! i = Some r ->
           exists r' : row,
             rows df !! i = Some r'
             /\ forall k : string,
                  k ≠ "data_source" -> k ≠ "units" -> k ≠ "time" ->
                  r' !! k = r !! k)
     /\ Forall (fun r : row => r !! "data_source" = Some (CStr "Precipitation")
                               /\ r !! "units" = Some (CStr "mm")) (rows df)).
Proof.
  split.
  - intros Hvalid. destruct (valid_swe_flattened ds Hvalid) as (flat & Hflat).
    destruct (preprocess_swe_run ds flat w Hflat) as (w' & Hrun).
    eexists w', _, flat. split; [exact Hflat |]. split; [exact Hrun |].
    split; [reflexivity |]. split; [reflexivity |].
    split; [cbn [rows setitem_const]; apply map_map | apply rows_metadata].
  - intros (flat & Hflat & Htime).
    destruct (preprocess_precip_run ds flat w Hflat Htime)
      as (w' & df1 & Hrun & Hdf1).
    eexists w', _, flat. split; [exact Hflat |]. split; [exact Hrun |].
    assert (Hshape : index_names df1 = index_names flat
                     /\ columns df1 = columns flat
                     /\ length (rows df1) = length (rows flat)
                     /\ forall (i : nat) (r : row),
                          rows flat !! i = Some r ->
                          exists r1 : row,
                            rows df1 !! i = Some r1
                            /\ forall k : string, k ≠ "time" -> r1 !! k = r !! k).
    { destruct (has_column flat "time") eqn:Hcol.
      - destruct Hdf1 as (col & Hcoerce & ->).
        assert (Hlen : length col = length (rows flat)).
        { rewrite <- (length_map (cell_at "time") (rows flat)).
          clear -Hcoerce. unfold pd_to_datetime in Hcoerce.
          revert col Hcoerce.
          induction (map (cell_at "time") (rows flat)) as [| c cs IH];
            intros col; cbn.
          - intros [= <-]. reflexivity.
          - destruct (to_datetime_scalar c); [| discriminate].
            destruct (map_outcome _ cs) as [col' |] eqn:Hrest; [| discriminate].
            intros [= <-]. cbn. f_equal. apply IH. reflexivity. }
        split; [reflexivity |]. split.
        { cbn. unfold add_column.
          rewrite bool_decide_eq_true_2; [reflexivity |].
          exact (bool_decide_eq_true_1 _ Hcol). }
        split; [cbn; rewrite length_zip_with; lia |].
        intros i r Hr. cbn [rows setitem].
        destruct (zip_with_insert_lookup "time" _ _ i r Hlen Hr) as (v & _ & Hzip).
        rewrite Hzip. eexists. split; [reflexivity |].
        intros k Hk. apply lookup_insert_ne. apply not_eq_sym. exact Hk.
      - subst df1. repeat split; eauto. }
    destruct Hshape as (Hindex & Hcolumns & Hlength & Hcells).
    split; [exact Hindex |].
    split; [cbn [columns setitem_const]; rewrite Hcolumns; reflexivity |].
    split; [cbn [rows setitem_const]; rewrite !length_map; exact Hlength |].
    split; [| apply rows_metadata].
    intros i r Hr. destruct (Hcells i r Hr) as (r1 & Hr1 & Hsame).
    cbn [rows setitem_const]. rewrite !lookup_map, Hr1. cbn.
    eexists. split; [reflexivity |].
    intros k Hk1 Hk2 Hk3.
    rewrite !lookup_insert_ne by (apply not_eq_sym; assumption).
    apply Hsame. exact Hk3.
Qed.

(** C4: a table without a [station_id] column makes [filter_stations] fail
    at once: the precondition error is raised right after the validation
    step is announced and reaches the caller wrapped in the module's
    runtime error; the step that returns the filtered data is never
    reached and no object is created or changed. *)
Theorem filter_stations_missing_column (df : DataFrame)
    (stations_list : list cell) (w : World) :
  "station_id" ∉ columns df ->
  filter_stations (ODataFrame df) stations_list w =
    (mkWorld (heap w)
       (progress w ++ [TrackerStart 2 "Filtering stations" "steps";
                       TrackerUpdate 1 "Validating input data";
                       TrackerClose]),
     Raise (RuntimeError
              ("Error during station filtering: "
               +:+ str (ValueError "DataFrame does not contain 'station_id' column")))).
Proof.
  intros Hmissing. unfold filter_stations. run_py.
  unfold has_column. rewrite bool_decide_eq_false_2 by exact Hmissing.
  cbn. rewrite <- !app_assoc. reflexivity.
Qed.

Lemma forallb_false_of_elem {A} (f : A -> bool) (g : row -> A) (rs : list row) (r : row) :
  r ∈ rs -> f (g r) = false -> forallb f (map g rs) = false.
Proof.
  intros Hin Hf. destruct (forallb f (map g rs)) eqn:Hall; [| reflexivity].
  rewrite forallb_forall in Hall.
  assert (Hr : f (g r) = true) by (apply Hall, in_map, list_elem_of_In, Hin).
  congruence.
Qed.

(** C8: when the first collection holds a geometry that is not a point, or
    the second one that is neither polygon nor multipolygon, or the two
    reference systems differ, [spatial_join] raises; the step "Executing
    spatial join", which precedes the join, is never announced, no object
    is created or changed and no joined table is returned. *)
Theorem spatial_join_rejects (points_gdf polygons_gdf : GeoDataFrame)
    (how op : string) (w : World) :
  join_precondition_violated points_gdf polygons_gdf ->
  exists msg events,
    spatial_join points_gdf polygons_gdf how op w =
      (mkWorld (heap w) (progress w ++ events), Raise (RuntimeError msg))
    /\ forall n, TrackerUpdate n "Executing spatial join" ∉ events.
Proof.
  intros Hbad. unfold spatial_join. run_py.
  destruct (forallb is_point (map geometry_of (rows (frame points_gdf)))) eqn:Hpts.
  - destruct (forallb is_polygonal (map geometry_of (rows (frame polygons_gdf))))
      eqn:Hpoly.
    + destruct Hbad as [(r & Hin & Hr) | [(r & Hin & Hr) | Hcrs]].
      * rewrite (forallb_false_of_elem _ _ _ _ Hin Hr) in Hpts. discriminate.
      * rewrite (forallb_false_of_elem _ _ _ _ Hin Hr) in Hpoly. discriminate.
      * rewrite bool_decide_eq_true_2 by exact Hcrs. cbn.
        eexists _, [_; _; _; _]. rewrite <- !app_assoc. split; [reflexivity |].
        not_announced.
    + cbn. eexists _, [_; _; _]. rewrite <- !app_assoc. split; [reflexivity |].
      not_announced.
  - cbn. eexists _, [_; _; _]. rewrite <- !app_assoc. split; [reflexivity |].
    not_announced.
Qed.

(** *** Station extraction *)

Lemma boolean_index_map {A} (f : A -> bool) (xs : list A) :
  boolean_index xs (map f xs) = List.filter f xs.
Proof.
  induction xs as [| x xs IH]; [reflexivity |].
  cbn. destruct (f x); rewrite IH; reflexivity.
Qed.

Lemma geometry_of_to_crs (from to : Z) (r : row) :
  geometry_of (match r !! "geometry" with
               | Some c => <["geometry" := transform_cell from to c]> r
               | None => r
               end) = transform_cell from to (geometry_of r).
Proof.
  unfold geometry_of, cell_at. destruct (r !! "geometry") as [c |] eqn:Hr.
  - rewrite lookup_insert_eq. reflexivity.
  - rewrite Hr. reflexivity.
Qed.

(** What a call that returns has computed, step by step. *)
Lemma extract_stations_in_basin_inv (stations basin_shapefile : GeoDataFrame)
    (basin_id : string) (buffer_km : Q) (w w' : World)
    (res : GeoDataFrame) (buf : int_or_series) :
  extract_stations_in_basin stations basin_shapefile basin_id buffer_km w
    = (w', Return (res, buf)) ->
  exists basin g mask,
    select_basin basin_shapefile basin_id = Return basin
    /\ first_geometry basin = Return g
    /\ res = mkGeoDataFrame
               (setitem_const (loc_mask (frame stations) mask) "basin" (CStr basin_id))
               (crs stations)
    /\ if Qpositive buffer_km then
         exists basin_conv stations_conv buffer0 out,
           to_crs basin 3763 = Return basin_conv
           /\ to_crs stations 3763 = Return stations_conv
           /\ iloc0 (geoms (gdf_buffer basin_conv (buffer_km * 1000))) = Return buffer0
           /\ series_to_crs (gdf_buffer basin_conv (buffer_km * 1000)) 4326 = Return out
           /\ mask = gdf_within stations_conv buffer0
           /\ buf = Series out
       else mask = gdf_within stations g /\ buf = Int 0.
Proof.
  unfold extract_stations_in_basin. run_py.
  destruct (select_basin basin_shapefile basin_id) as [basin | e] eqn:Hsel;
    [| intros [= ]].
  destruct (first_geometry basin) as [g | e] eqn:Hgeom; [| intros [= ]].
  destruct (Qpositive buffer_km) eqn:Hpos.
  - run_py.
    destruct (to_crs basin 3763) as [bc | e] eqn:Hbc; [| intros [= ]].
    destruct (to_crs stations 3763) as [sc | e] eqn:Hsc; [| intros [= ]].
    destruct (iloc0 (geoms (gdf_buffer bc (buffer_km * 1000)))) as [b0 | e] eqn:Hb0;
      [| intros [= ]].
    destruct (series_to_crs (gdf_buffer bc (buffer_km * 1000)) 4326) as [out | e]
      eqn:Hout; [| intros [= ]].
    cbn. intros [= _ <- <-].
    exists basin, g, (gdf_within sc b0).
    do 3 (split; [first [reflexivity | assumption] |]).
    exists bc, sc, b0, out. auto 10.
  - cbn. intros [= _ <- <-].
    exists basin, g, (gdf_within stations g).
    do 3 (split; [first [reflexivity | assumption] |]). auto.
Qed.

(** C2: whenever [extract_stations_in_basin] returns, its second component
    is exactly the integer 0 if [buffer_km] is 0, and a series of
    geometries, hence not 0, if [buffer_km] is positive. *)
Theorem extract_second_component (stations basin_shapefile : GeoDataFrame)
    (basin_id : string) (buffer_km : Q) (w w' : World)
    (res : GeoDataFrame) (buf : int_or_series) :
  extract_stations_in_basin stations basin_shapefile basin_id buffer_km w
    = (w', Return (res, buf)) ->
  ((buffer_km == 0)%Q -> buf = Int 0)
  /\ ((0 < buffer_km)%Q -> (exists s, buf = Series s) /\ buf ≠ Int 0).
Proof.
  intros Hrun.
  apply extract_stations_in_basin_inv in Hrun
    as (basin & g & mask & _ & _ & _ & Hbranch).
  unfold Qpositive in Hbranch. split.
  - intros Hzero.
    destruct (Qle_bool buffer_km 0) eqn:Hle; cbn in Hbranch.
    + apply Hbranch.
    + assert (Hle' : Qle_bool buffer_km 0 = true)
        by (apply Qle_bool_iff; rewrite Hzero; apply Qle_refl).
      congruence.
  - intros Hpos.
    destruct (Qle_bool buffer_km 0) eqn:Hle; cbn in Hbranch.
    + apply Qle_bool_iff in Hle. exfalso. apply (Qlt_not_le _ _ Hpos Hle).
    + destruct Hbranch as (bc & sc & b0 & out & _ & _ & _ & _ & _ & ->).
      split; [eauto | discriminate].
Qed.

(** With a positive buffer the returned series is tagged EPSG:4326, whatever
    reference system the two collections came in. *)
Lemma buffer_series_crs (stations basin_shapefile : GeoDataFrame)
    (basin_id : string) (buffer_km : Q) (w w' : World)
    (res : GeoDataFrame) (s : GeoSeries) :
  extract_stations_in_basin stations basin_shapefile basin_id buffer_km w
    = (w', Return (res, Series s)) ->
  series_crs s = Some 4326%Z.
Proof.
  intros Hrun.
  apply extract_stations_in_basin_inv in Hrun
    as (basin & g & mask & _ & _ & _ & Hbranch).
  destruct (Qpositive buffer_km).
  - destruct Hbranch as (bc & sc & b0 & out & _ & _ & _ & Hout & _ & [= ->]).
    unfold series_to_crs in Hout.
    destruct (series_crs (gdf_buffer bc (buffer_km * 1000))); [| discriminate].
    injection Hout as <-. reflexivity.
  - destruct Hbranch as [_ [= ]].
Qed.

Lemma select_basin_rows (basin_shapefile basin : GeoDataFrame) (basin_id : string) :
  select_basin basin_shapefile basin_id = Return basin ->
  rows (frame basin)
  = List.filter (fun r => cell_eqb (cell_at "Station_ID" r) (CStr basin_id))
      (rows (frame basin_shapefile))
  /\ crs basin = crs basin_shapefile.
Proof.
  unfold select_basin, getitem.
  destruct (has_column (frame basin_shapefile) "Station_ID"); [| discriminate].
  intros [= <-]. cbn. split; [| reflexivity].
  unfold series_eq. rewrite map_map. apply boolean_index_map.
Qed.

(** C9: whenever [extract_stations_in_basin] returns, the rows of its first
    component are exactly the station rows that the containment predicate
    places in the selected basin polygon (grown by [buffer_km * 1000]
    metres when [buffer_km] is positive, as it is otherwise), each with the
    new [basin] column: every returned station is inside and no station
    outside is returned. *)
Theorem extract_stations_within (stations basin_shapefile : GeoDataFrame)
    (basin_id : string) (buffer_km : Q) (w w' : World)
    (res : GeoDataFrame) (buf : int_or_series) :
  extract_stations_in_basin stations basin_shapefile basin_id buffer_km w
    = (w', Return (res, buf)) ->
  exists g,
    basin_polygon basin_shapefile basin_id = Some g
    /\ forall r : row,
         r ∈ rows (frame res) <->
         exists r0 : row,
           r0 ∈ rows (frame stations)
           /\ station_in_basin stations basin_shapefile g buffer_km r0 = true
           /\ r = <["basin" := CStr basin_id]> r0.
Proof.
  intros Hrun.
  apply extract_stations_in_basin_inv in Hrun
    as (basin & g & mask & Hsel & Hgeom & -> & Hbranch).
  apply select_basin_rows in Hsel as [Hrows Hcrs].
  unfold first_geometry in Hgeom.
  destruct (rows (frame basin)) as [| b bs] eqn:Hbasin; [discriminate |].
  cbn in Hgeom.
  destruct (has_column (frame basin) "geometry"); [| discriminate].
  injection Hgeom as <-.
  exists (geometry_of b). split.
  { unfold basin_polygon. rewrite <- Hrows. reflexivity. }
  assert (Hmask : mask = map (station_in_basin stations basin_shapefile
                                (geometry_of b) buffer_km)
                           (rows (frame stations))).
  { unfold station_in_basin. destruct (Qpositive buffer_km).
    - destruct Hbranch as (bc & sc & b0 & out & Hbc & Hsc & Hb0 & _ & -> & _).
      unfold to_crs in Hbc, Hsc. rewrite Hcrs in Hbc.
      destruct (crs basin_shapefile) as [from_b |]; [| discriminate].
      destruct (crs stations) as [from_s |]; [| discriminate].
      injection Hbc as <-. injection Hsc as <-.
      cbn in Hb0. rewrite Hbasin in Hb0. cbn in Hb0. injection Hb0 as <-.
      unfold gdf_within. cbn. rewrite map_map.
      apply map_ext. intros r. rewrite !geometry_of_to_crs. reflexivity.
    - destruct Hbranch as [-> _]. reflexivity. }
  intros r. cbn. rewrite Hmask, boolean_index_map.
  rewrite list_elem_of_fmap. split.
  - intros (r0 & -> & Hin). apply list_elem_of_In, filter_In in Hin as [Hin Hok].
    exists r0. rewrite list_elem_of_In. auto.
  - intros (r0 & Hin & Hok & ->). exists r0. split; [reflexivity |].
    apply list_elem_of_In, filter_In. rewrite <- list_elem_of_In. auto.
Qed.

(** The call returns as soon as the basin table has the two columns and a
    row for the requested basin and, for a positive buffer, both
    collections carry a reference system. *)
Lemma extract_stations_in_basin_returns (stations basin_shapefile : GeoDataFrame)
    (basin_id : string) (buffer_km : Q) (w : World) (g : cell) :
  "Station_ID" ∈ columns (frame basin_shapefile) ->
  "geometry" ∈ columns (frame basin_shapefile) ->
  basin_polygon basin_shapefile basin_id = Some g ->
  (Qpositive buffer_km = true ->
   is_Some (crs stations) /\ is_Some (crs basin_shapefile)) ->
  exists w' res buf,
    extract_stations_in_basin stations basin_shapefile basin_id buffer_km w
      = (w', Return (res, buf)).
Proof.
  intros Hid Hgeom Hbasin Hcrs.
  unfold basin_polygon in Hbasin.
  destruct (List.filter _ (rows (frame basin_shapefile))) as [| b bs] eqn:Hrows;
    [discriminate |].
  unfold extract_stations_in_basin. run_py.
  unfold select_basin, getitem, has_column.
  rewrite bool_decide_eq_true_2 by exact Hid.
  unfold first_geometry, has_column. cbn [frame rows loc_mask columns crs].
  unfold series_eq. rewrite map_map, boolean_index_map, Hrows.
  cbn [iloc0]. rewrite bool_decide_eq_true_2 by exact Hgeom.
  destruct (Qpositive buffer_km).
  - destruct (Hcrs eq_refl) as [[from_s Hs] [from_b Hb]].
    run_py. unfold to_crs. cbn [crs frame rows loc_mask]. rewrite Hs, Hb.
    cbn [frame rows gdf_buffer geoms]. rewrite boolean_index_map, Hrows.
    cbn. eauto.
  - cbn. eauto.
Qed.

(** *** Availability *)

Lemma filter_none {A} (f : A -> bool) (xs : list A) :
  (forall x, In x xs -> f x = false) -> List.filter f xs = [].
Proof.
  induction xs as [| x xs IH]; intros Hnone; [reflexivity |].
  cbn. rewrite (Hnone x) by (left; reflexivity).
  apply IH. intros y Hy. apply Hnone. right. exact Hy.
Qed.

Lemma count_notnull_all (T : nat) (elem : nat -> cell) :
  (forall t, (t < T)%nat -> notnull (elem t) = true) ->
  count_notnull T elem = T.
Proof.
  intros Hall. unfold count_notnull.
  rewrite forallb_filter_id; [apply length_seq |].
  apply forallb_forall. intros t Ht. apply in_seq in Ht. apply Hall. lia.
Qed.

Lemma count_notnull_none (T : nat) (elem : nat -> cell) :
  (forall t, (t < T)%nat -> isnull (elem t) = true) ->
  count_notnull T elem = 0%nat.
Proof.
  intros Hnone. unfold count_notnull. rewrite filter_none; [reflexivity |].
  intros t Ht. apply in_seq in Ht. unfold notnull. rewrite Hnone by lia.
  reflexivity.
Qed.

Lemma percent_full (T : nat) :
  (0 < T)%nat ->
  (inject_Z (Z.of_nat T) / inject_Z (Z.of_nat T) * 100 == 100)%Q.
Proof.
  intros HT. unfold Qdiv. rewrite Qmult_inv_r; [apply Qmult_1_l |].
  intros Hzero. unfold Qeq in Hzero. cbn in Hzero. lia.
Qed.

Lemma percent_empty (T : nat) :
  (inject_Z (Z.of_nat 0) / inject_Z (Z.of_nat T) * 100 == 0)%Q.
Proof. unfold Qdiv. cbn. rewrite !Qmult_0_l. reflexivity. Qed.

(** The count of a variable, in terms of its observations. *)
Lemma count_var_values (time_dim : string) (T : nat) (a : DataArray)
    (idx : list nat) :
  (0 < T)%nat ->
  (is_Some (axis_of time_dim (dims a)) ->
   (forall t, (t < T)%nat -> notnull (observation time_dim a idx t) = true) ->
   values (count_var time_dim T a) idx = cell_of_nat T)
  /\ ((forall t, (t < T)%nat -> isnull (observation time_dim a idx t) = true) ->
      values (count_var time_dim T a) idx = cell_of_nat 0).
Proof.
  intros HT. unfold observation, count_var.
  destruct (axis_of time_dim (dims a)) as [k |]; cbn; split.
  - intros _ Hall. rewrite count_notnull_all by exact Hall. reflexivity.
  - intros Hnone. rewrite count_notnull_none by exact Hnone. reflexivity.
  - intros [k Hk]. discriminate.
  - intros Hnone. unfold notnull. rewrite (Hnone 0%nat HT). reflexivity.
Qed.

(** C5 (as the code has it): for a dataset whose time dimension has [T > 0]
    steps, [assess_data_availability] returns a dataset with one variable
    per data variable.  In a variable that has the time dimension, every
    retained position of a station without a missing observation holds
    exactly 100; in any variable, every retained position of a station
    with only missing observations holds exactly 0. *)
Theorem availability_of_station (data : Dataset) (time_dim station_dim : string)
    (w : World) (T i : nat) (name : string) (a : DataArray) :
  dim_size data time_dim = Some T ->
  (0 < T)%nat ->
  data_vars data !! i = Some (name, a) ->
  exists w' av a',
    assess_data_availability data time_dim station_dim w = (w', Return av)
    /\ data_vars av !! i = Some (name, a')
    /\ forall j s : nat,
         axis_of station_dim (dims a') = Some j ->
         (is_Some (axis_of time_dim (dims a)) ->
          (forall idx t, idx !! j = Some s -> (t < T)%nat ->
                         notnull (observation time_dim a idx t) = true) ->
          forall idx, idx !! j = Some s ->
                      exists q, values a' idx = CNum q /\ (q == 100)%Q)
         /\ ((forall idx t, idx !! j = Some s -> (t < T)%nat ->
                            isnull (observation time_dim a idx t) = true) ->
             forall idx, idx !! j = Some s ->
                         exists q, values a' idx = CNum q /\ (q == 0)%Q).
Proof.
  intros Hsize HT Hvar.
  unfold assess_data_availability. run_py.
  unfold ds_count, ds_len. rewrite Hsize. cbn.
  eexists _, _, _. split; [reflexivity |]. split.
  { unfold ds_map. cbn [data_vars]. rewrite !lookup_map, Hvar. reflexivity. }
  cbn. intros j s _. split.
  - intros Htime Hall idx Hidx.
    destruct (count_var_values time_dim T a idx HT) as [Hfull _].
    rewrite Hfull by (auto; intros t Ht; apply Hall; assumption).
    destruct T as [| T']; [lia |]. cbn [cell_of_nat cell_div cell_mul].
    eexists. split; [reflexivity |]. apply percent_full. lia.
  - intros Hnone idx Hidx.
    destruct (count_var_values time_dim T a idx HT) as [_ Hempty].
    rewrite Hempty by (intros t Ht; apply Hnone; assumption).
    destruct T as [| T']; [lia |]. cbn [cell_of_nat cell_div cell_mul].
    eexists. split; [reflexivity |]. apply percent_empty.
Qed.

(** *** Coordinate update *)

Lemma cell_eqb_sym (a b : cell) : cell_eqb a b = cell_eqb b a.
Proof.
  destruct a, b; cbn; try reflexivity.
  - apply bool_decide_ext. split; congruence.
  - apply eq_true_iff_eq. rewrite !Qeq_bool_iff. split; intros Hq; symmetry; exact Hq.
  - apply Z.eqb_sym.
Qed.

Lemma cell_eqb_trans (a b c : cell) :
  cell_eqb a b = true -> cell_eqb b c = true -> cell_eqb a c = true.
Proof.
  destruct a, b; cbn; try discriminate; destruct c; cbn; try discriminate.
  - rewrite !bool_decide_eq_true. congruence.
  - rewrite !Qeq_bool_iff. intros Hab Hbc. rewrite Hab. exact Hbc.
  - rewrite !Z.eqb_eq. congruence.
Qed.

(** Equal keys select the same entries. *)
Lemma cell_eqb_congr (k a b : cell) :
  cell_eqb a b = true -> cell_eqb k a = cell_eqb k b.
Proof.
  intros Hab. destruct (cell_eqb k a) eqn:Hka.
  - symmetry. exact (cell_eqb_trans _ _ _ Hka Hab).
  - destruct (cell_eqb k b) eqn:Hkb; [| reflexivity].
    rewrite cell_eqb_sym in Hab.
    rewrite (cell_eqb_trans _ _ _ Hkb Hab) in Hka. discriminate.
Qed.

Lemma cell_eqb_notnull (a b : cell) : cell_eqb a b = true -> isnull a = false.
Proof. destruct a, b; cbn; congruence. Qed.

Lemma cell_same_eqb (a b : cell) :
  isnull a = false -> cell_same a b = cell_eqb a b.
Proof. intros Ha. unfold cell_same. rewrite Ha. cbn. apply orb_false_r. Qed.

Lemma dict_get_congr (m : list (cell * (cell * cell))) (a b : cell) :
  cell_eqb a b = true -> dict_get m a = dict_get m b.
Proof.
  intros Hab. unfold dict_get. f_equal.
  induction m as [| p m IH]; [reflexivity |].
  cbn. rewrite (cell_eqb_congr (fst p) a b Hab), IH. reflexivity.
Qed.

Lemma cell_eqb_refl_l (a b : cell) : cell_eqb a b = true -> cell_eqb b b = true.
Proof.
  intros Hab. apply (cell_eqb_trans b a b); [| exact Hab].
  rewrite cell_eqb_sym. exact Hab.
Qed.

(** Every value of a series is among its distinct values. *)
Lemma unique_covers (xs : list cell) (x : cell) :
  cell_same x x = true ->
  In x xs -> exists y, In y (unique xs) /\ cell_same y x = true.
Proof.
  intros Hrefl. induction xs as [| x0 xs IH]; [intros [] |].
  intros [-> | Hin].
  - exists x. split; [left; reflexivity | exact Hrefl].
  - destruct (IH Hin) as (y & Hy & Hsame).
    cbn. destruct (cell_same x0 y) eqn:Hx0.
    + exists x0. split; [left; reflexivity |].
      unfold cell_same in *.
      destruct (cell_eqb y x) eqn:Hyx.
      * destruct (cell_eqb x0 y) eqn:Hx0y.
        -- rewrite (cell_eqb_trans _ _ _ Hx0y Hyx). reflexivity.
        -- cbn in Hx0. apply andb_true_iff in Hx0 as [_ Hy0].
           rewrite (cell_eqb_notnull _ _ Hyx) in Hy0. discriminate.
      * cbn in Hsame. apply andb_true_iff in Hsame as [Hynull Hxnull].
        destruct (cell_eqb x0 y) eqn:Hx0y.
        -- rewrite cell_eqb_sym in Hx0y.
           rewrite (cell_eqb_notnull _ _ Hx0y) in Hynull. discriminate.
        -- cbn in Hx0. apply andb_true_iff in Hx0 as [Hx0null _].
           rewrite Hx0null, Hxnull. apply orb_true_r.
    + exists y. split; [| exact Hsame].
      right. apply filter_In. split; [exact Hy |]. rewrite Hx0. reflexivity.
Qed.

Lemma zip_with_map2 {A B C D} (h : B -> C -> D) (g : A -> B) (f : A -> C)
    (xs : list A) :
  zip_with h (map g xs) (map f xs) = map (fun x => h (g x) (f x)) xs.
Proof.
  induction xs as [| x xs IH]; [reflexivity |]. cbn. rewrite IH. reflexivity.
Qed.

Lemma add_column_present (cs : list string) (c : string) :
  c ∈ cs -> add_column cs c = cs.
Proof. intros Hc. unfold add_column. rewrite bool_decide_eq_true_2; done. Qed.

Lemma frame_at_run (l : loc) (t : DataFrame) (w : World) :
  heap w !! l = Some (ODataFrame t) -> frame_at l w = (w, Return t).
Proof. intros Hl. unfold frame_at, deref, bind. rewrite Hl. reflexivity. Qed.

Lemma frame_eta (t : DataFrame) :
  mkDataFrame (index_names t) (columns t) (rows t) = t.
Proof. destruct t. reflexivity. Qed.

(** Both assignments of one round, on a table that has the two columns. *)
Lemma set_coordinates_rows (t : DataFrame) (sid : cell) (new : cell * cell) :
  "lat" ∈ columns t -> "lon" ∈ columns t ->
  loc_setitem
    (loc_setitem t (series_eq (map (cell_at "station_id") (rows t)) sid)
       "lat" (fst new))
    (series_eq (map (cell_at "station_id") (rows t)) sid) "lon" (snd new)
  = mkDataFrame (index_names t) (columns t)
      (map (fun r => if cell_eqb (cell_at "station_id" r) sid
                     then with_coordinates new r else r) (rows t)).
Proof.
  intros Hlat Hlon. unfold loc_setitem, has_column. cbn.
  rewrite !(add_column_present _ "lat") by exact Hlat.
  rewrite !(add_column_present _ "lon") by exact Hlon.
  rewrite !bool_decide_eq_true_2 by assumption.
  f_equal. unfold series_eq. rewrite map_map.
  rewrite <- (map_id (rows t)) at 1. rewrite zip_with_map2.
  rewrite zip_with_map2. apply map_ext. intros r. cbn.
  destruct (cell_eqb (cell_at "station_id" r) sid); reflexivity.
Qed.

Lemma update_station_run (data : loc) (m : list (cell * (cell * cell)))
    (n_stations : nat) (p : nat * cell) (t : DataFrame) (w : World) :
  heap w !! data = Some (ODataFrame t) ->
  "station_id" ∈ columns t -> "lat" ∈ columns t -> "lon" ∈ columns t ->
  update_station data m n_stations p w =
    (mkWorld
       (<[data := ODataFrame (mkDataFrame (index_names t) (columns t)
                                (map (update_row_for m (snd p)) (rows t)))]> (heap w))
       (progress w ++ [TrackerUpdate 1
                         (station_message "Updated coordinates for station "
                            (fst p) n_stations)]),
     Return tt).
Proof.
  intros Hdata Hsid Hlat Hlon.
  pose proof (lookup_lt_Some _ _ _ Hdata) as Hbound.
  unfold update_station, update_row_for.
  destruct (dict_get m (snd p)) as [new |].
  - unfold getitem_at, loc_setitem_at.
    unfold bind at 1 2 3. rewrite (frame_at_run _ _ _ Hdata).
    unfold lift, getitem, has_column. rewrite bool_decide_eq_true_2 by exact Hsid.
    unfold bind at 1 2. rewrite (frame_at_run _ _ _ Hdata).
    unfold store at 1. cbn [heap progress].
    unfold bind at 1.
    erewrite frame_at_run
      by (cbn [heap]; apply list_lookup_insert_eq; exact Hbound).
    unfold store, tracker_update, tell, bind. cbn [heap progress].
    rewrite list_insert_insert_eq.
    rewrite set_coordinates_rows by assumption. reflexivity.
  - run_py. rewrite map_id, frame_eta, list_insert_id by exact Hdata.
    reflexivity.
Qed.

Lemma update_loop_run (data : loc) (m : list (cell * (cell * cell)))
    (n_stations : nat) (ids : list cell) :
  forall (k : nat) (t : DataFrame) (w : World),
    heap w !! data = Some (ODataFrame t) ->
    "station_id" ∈ columns t -> "lat" ∈ columns t -> "lon" ∈ columns t ->
    exists events,
      for_each (zip (seq k (length ids)) ids) (update_station data m n_stations) w =
        (mkWorld
           (<[data := ODataFrame
                        (mkDataFrame (index_names t) (columns t)
                           (map (fun r => fold_left (fun r sid => update_row_for m sid r)
                                            ids r) (rows t)))]> (heap w))
           (progress w ++ events),
         Return tt).
Proof.
  induction ids as [| sid ids IH]; intros k t w Hdata Hsid Hlat Hlon.
  - exists []. cbn. rewrite map_id, frame_eta, list_insert_id by exact Hdata.
    rewrite app_nil_r. destruct w. reflexivity.
  - cbn [length seq zip zip_with for_each].
    unfold bind. rewrite (update_station_run _ _ _ _ t) by assumption.
    match goal with |- context [for_each _ _ ?w1] => set (w1' := w1) end.
    destruct (IH (S k) (mkDataFrame (index_names t) (columns t)
                          (map (update_row_for m sid) (rows t))) w1')
      as (events & ->); try assumption.
    { subst w1'. cbn [heap]. apply list_lookup_insert_eq.
      exact (lookup_lt_Some _ _ _ Hdata). }
    eexists (_ :: events). subst w1'. cbn [heap progress index_names columns rows snd].
    rewrite list_insert_insert_eq, map_map, <- app_assoc. reflexivity.
Qed.

Lemma with_coordinates_idem (new : cell * cell) (r : row) :
  with_coordinates new (with_coordinates new r) = with_coordinates new r.
Proof.
  unfold with_coordinates. apply map_eq. intros k.
  rewrite !lookup_insert. repeat case_decide; reflexivity.
Qed.

Lemma with_coordinates_station (new : cell * cell) (r : row) :
  cell_at "station_id" (with_coordinates new r) = cell_at "station_id" r.
Proof.
  unfold cell_at, with_coordinates. rewrite !lookup_insert_ne by discriminate.
  reflexivity.
Qed.

(** The whole loop, seen from one row: the row is rewritten when its own
    station id has an entry and is visited, and not touched otherwise. *)
Lemma fold_update_row (m : list (cell * (cell * cell))) (ids : list cell) :
  forall r : row,
    fold_left (fun r sid => update_row_for m sid r) ids r
    = match dict_get m (cell_at "station_id" r) with
      | Some new =>
          if existsb (cell_eqb (cell_at "station_id" r)) ids
          then with_coordinates new r else r
      | None => r
      end.
Proof.
  induction ids as [| sid ids IH]; intros r.
  - cbn. destruct (dict_get m (cell_at "station_id" r)); reflexivity.
  - cbn [fold_left existsb]. rewrite IH. unfold update_row_for.
    destruct (cell_eqb (cell_at "station_id" r) sid) eqn:Heq.
    + rewrite <- (dict_get_congr m _ _ Heq).
      destruct (dict_get m (cell_at "station_id" r)) as [new |] eqn:Hget.
      * rewrite with_coordinates_station, Hget, with_coordinates_idem.
        cbn. destruct (existsb _ ids); reflexivity.
      * rewrite Hget. reflexivity.
    + destruct (dict_get m sid), (dict_get m (cell_at "station_id" r));
        reflexivity.
Qed.

Lemma coord_map_of_rows (c : DataFrame) (id_col lat_col lon_col : string)
    (m : list (cell * (cell * cell))) :
  coord_map_of c id_col lat_col lon_col = Return m ->
  m = map (fun u => (cell_at id_col u, (cell_at lat_col u, cell_at lon_col u)))
        (rows c)
  /\ is_unique (map (cell_at id_col) (rows c)) = true.
Proof.
  unfold coord_map_of, set_index.
  destruct (has_column c id_col); [| discriminate].
  destruct (has_column _ lat_col); [| discriminate].
  destruct (has_column _ lon_col); [| discriminate].
  cbn [rows negb].
  destruct (is_unique (map (cell_at id_col) (rows c))); [| discriminate].
  cbn. intros [= <-]. split; reflexivity.
Qed.

Lemma existsb_same_of_eqb (k : cell) (ks : list cell) (k' : cell) :
  In k' ks -> cell_eqb k k' = true -> existsb (cell_same k) ks = true.
Proof.
  intros Hin Heq. apply existsb_exists. exists k'. split; [exact Hin |].
  unfold cell_same. rewrite Heq. reflexivity.
Qed.

(** With distinct ids, the entry found for an id is the entry of every row
    of the update table that carries this id. *)
Lemma dict_get_entry {U} (key : U -> cell) (val : U -> cell * cell)
    (us : list U) (u : U) (s : cell) :
  is_unique (map key us) = true ->
  In u us -> cell_eqb (key u) s = true ->
  dict_get (map (fun u => (key u, val u)) us) s = Some (val u).
Proof.
  unfold dict_get. induction us as [| x xs IH]; intros Huniq Hin Heq; [destruct Hin |].
  cbn in Huniq. apply andb_true_iff in Huniq as [Hfresh Huniq].
  cbn. destruct (cell_eqb (key x) s) eqn:Hx.
  - destruct Hin as [-> | Hin]; [reflexivity |].
    assert (Hdup : existsb (cell_same (key x)) (map key xs) = true).
    { apply (existsb_same_of_eqb _ _ (key u)); [apply in_map, Hin |].
      apply (cell_eqb_trans _ s); [exact Hx |].
      rewrite cell_eqb_sym. exact Heq. }
    rewrite Hdup in Hfresh. discriminate.
  - destruct Hin as [-> | Hin]; [congruence |]. apply IH; assumption.
Qed.

Lemma dict_get_absent {U} (key : U -> cell) (val : U -> cell * cell)
    (us : list U) (s : cell) :
  (forall u, In u us -> cell_eqb (key u) s = false) ->
  dict_get (map (fun u => (key u, val u)) us) s = None.
Proof.
  unfold dict_get. induction us as [| x xs IH]; intros Hnone; [reflexivity |].
  cbn. rewrite (Hnone x) by (left; reflexivity).
  apply IH. intros u Hu. apply Hnone. right. exact Hu.
Qed.

Lemma visited_station (ids : list cell) (s : cell) :
  cell_eqb s s = true -> In s ids ->
  existsb (cell_eqb s) (unique ids) = true.
Proof.
  intros Hrefl Hin.
  destruct (unique_covers ids s) as (y & Hy & Hsame); [| exact Hin |].
  { unfold cell_same. rewrite Hrefl. reflexivity. }
  apply existsb_exists. exists y. split; [exact Hy |].
  rewrite cell_eqb_sym.
  unfold cell_same in Hsame. apply orb_true_iff in Hsame as [Heq | Hnull];
    [exact Heq |].
  apply andb_true_iff in Hnull as [_ Hnull].
  rewrite (cell_eqb_notnull _ _ Hrefl) in Hnull. discriminate.
Qed.

(** C3: on a table that has the columns [station_id], [lat] and [lon], with
    an update table from which the lookup can be built, the table variant
    of [update_coordinates] returns the very object it was given, changed
    in place: row by row, a row whose station id is the id of a row of the
    update table gets exactly that row's replacement latitude and longitude
    and keeps every other cell, and a row whose station id is not in the
    update table is unchanged. *)
Theorem update_coordinates_in_place (data coordinates_df : loc)
    (id_col lat_col lon_col : string) (w : World) (t c : DataFrame)
    (m : list (cell * (cell * cell))) :
  heap w !! data = Some (ODataFrame t) ->
  heap w !! coordinates_df = Some (ODataFrame c) ->
  coord_map_of c id_col lat_col lon_col = Return m ->
  "station_id" ∈ columns t -> "lat" ∈ columns t -> "lon" ∈ columns t ->
  exists w' t',
    update_coordinates data coordinates_df id_col lat_col lon_col w
      = (w', Return data)
    /\ heap w' = <[data := ODataFrame t']> (heap w)
    /\ index_names t' = index_names t
    /\ columns t' = columns t
    /\ length (rows t') = length (rows t)
    /\ forall (i : nat) (r : row),
         rows t !! i = Some r ->
         exists r' : row,
           rows t' !! i = Some r'
           /\ (forall u : row,
                 u ∈ rows c ->
                 cell_eqb (cell_at id_col u) (cell_at "station_id" r) = true ->
                 r' !! "lat" = Some (cell_at lat_col u)
                 /\ r' !! "lon" = Some (cell_at lon_col u)
                 /\ forall k : string, k ≠ "lat" -> k ≠ "lon" -> r' !! k = r !! k)
           /\ ((forall u : row,
                  u ∈ rows c ->
                  cell_eqb (cell_at id_col u) (cell_at "station_id" r) = false) ->
               r' = r).
Proof.
  intros Hdata Hcoords Hmap Hsid Hlat Hlon.
  destruct (coord_map_of_rows _ _ _ _ _ Hmap) as [Hm Huniq].
  destruct (update_loop_run data m
              (length (unique (map (cell_at "station_id") (rows t))))
              (unique (map (cell_at "station_id") (rows t))) 0 t
              (mkWorld (heap w)
                 (progress w ++
                  [TrackerStart
                     (length (unique (map (cell_at "station_id") (rows t))))
                     "Updating coordinates" "stations"])))
    as (events & Hloop); try assumption.
  cbn [heap progress] in Hloop.
  eexists _, (mkDataFrame (index_names t) (columns t)
                (map (fun r => fold_left (fun r sid => update_row_for m sid r)
                                 (unique (map (cell_at "station_id") (rows t))) r)
                   (rows t))).
  split.
  { unfold update_coordinates. unfold bind at 1. unfold deref. rewrite Hdata.
    unfold bind at 1. rewrite (frame_at_run _ _ _ Hcoords).
    unfold bind at 1. unfold lift at 1. rewrite Hmap.
    unfold getitem_at. unfold bind at 1 2. rewrite (frame_at_run _ _ _ Hdata).
    unfold lift, getitem, has_column. rewrite bool_decide_eq_true_2 by exact Hsid.
    unfold bind at 1. unfold ProgressTracker, tell.
    unfold try_except, bind, enumerate. rewrite Hloop. reflexivity. }
  cbn [heap index_names columns rows].
  split; [reflexivity |]. split; [reflexivity |]. split; [reflexivity |].
  split; [apply length_map |].
  intros i r Hr. rewrite lookup_map, Hr. cbn.
  eexists. split; [reflexivity |].
  rewrite fold_update_row. split.
  - intros u Hu Heq. apply list_elem_of_In in Hu.
    rewrite Hm, (dict_get_entry _ _ _ u) by assumption.
    rewrite visited_station.
    + unfold with_coordinates. cbn [fst snd].
      split; [| split].
      * rewrite lookup_insert_ne by discriminate. apply lookup_insert_eq.
      * apply lookup_insert_eq.
      * intros k Hk1 Hk2. rewrite !lookup_insert_ne by congruence. reflexivity.
    + exact (cell_eqb_refl_l _ _ Heq).
    + apply in_map, list_elem_of_In, list_elem_of_lookup. eauto.
  - intros Hnone. rewrite Hm, dict_get_absent; [reflexivity |].
    intros u Hu. apply Hnone, list_elem_of_In, Hu.
Qed.

(** *** Daily resampling *)

Lemma daily_of_station_run (df : loc) (value_col time_col : string)
    (n_stations : nat) (p : nat * cell) (t : DataFrame) (w : World) :
  heap w !! df = Some (ODataFrame t) ->
  daily_of_station df value_col time_col n_stations p w =
    match daily_table t value_col time_col (snd p) with
    | Return daily =>
        (mkWorld (heap w)
           (progress w ++ [TrackerUpdate 1
                             (station_message "Processed station " (fst p) n_stations)]),
         Return daily)
    | Raise e => (w, Raise e)
    end.
Proof.
  intros Hdf. unfold daily_of_station, daily_table.
  unfold bind at 1. rewrite (frame_at_run _ _ _ Hdf). run_py.
  destruct (getitem t "station_id") as [ids | e]; [| reflexivity].
  destruct (set_index _ time_col) as [indexed | e]; [| reflexivity].
  destruct (resample_daily_mean indexed value_col); reflexivity.
Qed.

(** The loop reads the table and reports progress; it changes no object. *)
Lemma daily_loop_run (df : loc) (value_col time_col : string) (n_stations : nat)
    (t : DataFrame) (ids : list cell) :
  forall (k : nat) (w : World),
    heap w !! df = Some (ODataFrame t) ->
    exists events,
      map_py (daily_of_station df value_col time_col n_stations)
        (zip (seq k (length ids)) ids) w
      = (mkWorld (heap w) (progress w ++ events),
         map_outcome (daily_table t value_col time_col) ids).
Proof.
  induction ids as [| sid ids IH]; intros k w Hdf.
  - exists []. cbn. rewrite app_nil_r. destruct w. reflexivity.
  - cbn [length seq zip zip_with map_py map_outcome].
    unfold bind at 1. rewrite (daily_of_station_run _ _ _ _ _ t) by exact Hdf.
    cbn [snd fst].
    destruct (daily_table t value_col time_col sid) as [daily | e].
    + cbv beta iota. unfold bind at 1.
      match goal with |- context [map_py _ _ ?w1] => set (w1' := w1) end.
      destruct (IH (S k) w1') as (events & Hrun); [exact Hdf |].
      rewrite Hrun. subst w1'. cbn [heap progress].
      eexists (_ :: events). rewrite <- app_assoc.
      destruct (map_outcome _ ids); reflexivity.
    + exists []. rewrite app_nil_r. destruct w. reflexivity.
Qed.

(** The run of [convert_hourly_to_daily] once the time column is coerced:
    the caller's table holds the coerced column whatever happens next, and
    a daily table, when there is one, is a new object. *)
Lemma convert_hourly_to_daily_run (df : loc) (value_col time_col : string)
    (w : World) (t : DataFrame) (col : list cell) :
  heap w !! df = Some (ODataFrame t) ->
  time_col ∈ columns t ->
  pd_to_datetime (map (cell_at time_col) (rows t)) = Return col ->
  let t1 := setitem t time_col col in
  let heap1 := <[df := ODataFrame t1]> (heap w) in
  exists events,
    convert_hourly_to_daily df value_col time_col w =
      match getitem t1 "station_id" with
      | Raise e => (mkWorld heap1 (progress w), Raise e)
      | Return ids =>
          match map_outcome (daily_table t1 value_col time_col) (unique ids) with
          | Raise e =>
              (mkWorld heap1 (progress w ++ events),
               Raise (RuntimeError
                        ("Error during hourly to daily conversion: " +:+ str e)))
          | Return daily_data =>
              match pd_concat daily_data with
              | Raise e =>
                  (mkWorld heap1 (progress w ++ events),
                   Raise (RuntimeError
                            ("Error during hourly to daily conversion: " +:+ str e)))
              | Return result =>
                  (mkWorld (heap1 ++ [ODataFrame result]) (progress w ++ events),
                   Return (length (heap w)))
              end
          end
      end.
Proof.
  intros Hdf Htime Hcol t1 heap1.
  assert (Hdf1 : heap1 !! df = Some (ODataFrame t1)).
  { apply list_lookup_insert_eq. exact (lookup_lt_Some _ _ _ Hdf). }
  unfold convert_hourly_to_daily, getitem_at, setitem_at.
  unfold bind at 1 2. rewrite (frame_at_run _ _ _ Hdf).
  unfold lift at 1, getitem at 1, has_column.
  rewrite bool_decide_eq_true_2 by exact Htime.
  unfold bind at 1. unfold lift at 1. rewrite Hcol.
  unfold bind at 1 2. rewrite (frame_at_run _ _ _ Hdf).
  unfold store. cbn [heap progress]. fold t1. fold heap1.
  unfold bind at 1 2. erewrite frame_at_run by exact Hdf1.
  unfold lift at 1.
  destruct (getitem t1 "station_id") as [ids | e]; [| exists []; reflexivity].
  unfold bind at 1. unfold ProgressTracker, tell. cbn [heap progress].
  unfold try_except, enumerate.
  destruct (daily_loop_run df value_col time_col (length (unique ids)) t1
              (unique ids) 0
              (mkWorld heap1
                 (progress w ++ [TrackerStart (length (unique ids))
                                   "Converting hourly to daily data" "stations"]))
              Hdf1) as (events & Hrun).
  unfold bind at 1. rewrite Hrun. cbn [heap progress].
  destruct (map_outcome _ (unique ids)) as [daily_data | e].
  - unfold bind, lift, alloc. cbn [heap progress].
    destruct (pd_concat daily_data) as [result | e].
    + eexists (_ :: events). rewrite <- app_assoc.
      unfold heap1. rewrite length_insert. reflexivity.
    + unfold tracker_close, tell, raise. cbn [heap progress].
      eexists (_ :: events ++ [_]). rewrite <- !app_assoc. reflexivity.
  - unfold tracker_close, tell, raise, bind. cbn [heap progress].
    eexists (_ :: events ++ [_]). rewrite <- !app_assoc. reflexivity.
Qed.

Lemma map_outcome_Forall2 {A B} (f : A -> outcome B) (xs : list A) (ys : list B) :
  map_outcome f xs = Return ys -> Forall2 (fun x y => f x = Return y) xs ys.
Proof.
  revert ys. induction xs as [| x xs IH]; intros ys; cbn.
  - intros [= <-]. constructor.
  - destruct (f x) as [y |] eqn:Hfx; [| discriminate].
    destruct (map_outcome f xs) as [ys' |]; [| discriminate].
    intros [= <-]. constructor; [exact Hfx | apply IH; reflexivity].
Qed.

(** A coerced column has one date-time per cell of the column. *)
Lemma pd_to_datetime_cells (s col : list cell) :
  pd_to_datetime s = Return col ->
  Forall2 (fun _ c' => exists ns, c' = CTime ns) s col.
Proof.
  intros Hcol. apply map_outcome_Forall2 in Hcol.
  induction Hcol as [| c c' s col Hc _ IH]; constructor; [| exact IH].
  destruct (to_datetime_scalar c) as [ns |]; [| discriminate].
  injection Hc as <-. eauto.
Qed.

Lemma setitem_rows (c : string) (rs : list row) (col : list cell)
    (P : cell -> Prop) :
  Forall2 (fun _ v => P v) rs col ->
  Forall (fun r' : row => exists v, r' !! c = Some v /\ P v)
    (zip_with (fun (r : row) v => <[c := v]> r) rs col).
Proof.
  induction 1 as [| r v rs col Hv _ IH]; cbn; constructor; [| exact IH].
  exists v. split; [apply lookup_insert_eq | exact Hv].
Qed.

(** C10: when the time column exists and can be coerced,
    [convert_hourly_to_daily] overwrites it with date-times in the caller's
    own table.  The change is made before the stations are processed: it is
    there whether the call then returns or raises; a daily table that is
    returned is another, new object. *)
Theorem convert_hourly_to_daily_mutates (df : loc) (value_col time_col : string)
    (w : World) (t : DataFrame) (col : list cell) :
  heap w !! df = Some (ODataFrame t) ->
  time_col ∈ columns t ->
  pd_to_datetime (map (cell_at time_col) (rows t)) = Return col ->
  exists w' out,
    convert_hourly_to_daily df value_col time_col w = (w', out)
    /\ heap w' !! df = Some (ODataFrame (setitem t time_col col))
    /\ length (rows (setitem t time_col col)) = length (rows t)
    /\ Forall (fun r' : row => exists v, r' !! time_col = Some v
                                          /\ exists ns, v = CTime ns)
         (rows (setitem t time_col col))
    /\ forall result : loc,
         out = Return result ->
         result ≠ df /\ heap w !! result = None /\ is_Some (heap w' !! result).
Proof.
  intros Hdf Htime Hcol.
  pose proof (lookup_lt_Some _ _ _ Hdf) as Hbound.
  pose proof (pd_to_datetime_cells _ _ Hcol) as Hcells.
  assert (Hlen : length col = length (rows t)).
  { apply Forall2_length in Hcells. rewrite length_map in Hcells. lia. }
  assert (Hrows : Forall2 (fun (_ : row) v => exists ns, v = CTime ns) (rows t) col).
  { clear -Hcells. remember (map (cell_at time_col) (rows t)) as s eqn:Hs.
    revert Hs. generalize (rows t) as rs.
    induction Hcells as [| c c' s col Hc _ IH]; intros [| r rs] Hs;
      try discriminate; constructor; [exact Hc |].
    apply IH. injection Hs as _ Hs. exact Hs. }
  destruct (convert_hourly_to_daily_run df value_col time_col w t col Hdf Htime Hcol)
    as (events & Hrun).
  cbv zeta in Hrun. rewrite Hrun.
  set (t1 := setitem t time_col col).
  assert (Hdf1 : <[df := ODataFrame t1]> (heap w) !! df = Some (ODataFrame t1))
    by (apply list_lookup_insert_eq; exact Hbound).
  assert (Hshape : length (rows t1) = length (rows t)
                   /\ Forall (fun r' : row => exists v, r' !! time_col = Some v
                                                        /\ exists ns, v = CTime ns)
                        (rows t1)).
  { split; [| apply setitem_rows; exact Hrows].
    cbn. rewrite length_zip_with. lia. }
  destruct Hshape as [Hshape1 Hshape2].
  destruct (getitem t1 "station_id") as [ids | e].
  2: { eexists _, _. split; [reflexivity |]. cbn [heap].
       repeat (split; [assumption |]). intros result [= ]. }
  destruct (map_outcome _ (unique ids)) as [daily_data | e].
  2: { eexists _, _. split; [reflexivity |]. cbn [heap].
       repeat (split; [assumption |]). intros result [= ]. }
  destruct (pd_concat daily_data) as [result | e].
  2: { eexists _, _. split; [reflexivity |]. cbn [heap].
       repeat (split; [assumption |]). intros result [= ]. }
  eexists _, _. split; [reflexivity |]. cbn [heap].
  split. { rewrite lookup_app_l by (rewrite length_insert; exact Hbound). exact Hdf1. }
  repeat (split; [assumption |]).
  intros r [= <-]. split; [lia |]. split.
  - apply lookup_ge_None. lia.
  - rewrite lookup_app_r by (rewrite length_insert; lia).
    rewrite length_insert, Nat.sub_diag. eauto.
Qed.




Lemma map_outcome_total {A B} (f : A -> outcome B) (g : A -> B)
    (xs : list A) (ys : list B) :
  (forall x y, f x = Return y -> y = g x) ->
  map_outcome f xs = Return ys -> ys = map g xs.
Proof.
  intros Hfg Hys. apply map_outcome_Forall2 in Hys.
  induction Hys as [| x y xs ys Hxy _ IH]; [reflexivity |].
  cbn. rewrite (Hfg x y Hxy), IH. reflexivity.
Qed.

Lemma zip_map2 {A B C} (f : A -> B) (g : A -> C) (xs : list A) :
  zip (map f xs) (map g xs) = map (fun x => (f x, g x)) xs.
Proof. unfold zip. apply zip_with_map2. Qed.

(** The daily table of a station, in terms of its observations. *)
Lemma daily_table_rows (t : DataFrame) (value_col time_col : string)
    (sid : cell) (daily : DataFrame) :
  daily_table t value_col time_col sid = Return daily ->
  rows daily
  = map (daily_row value_col time_col sid (station_obs t value_col time_col sid))
      (bin_days (station_obs t value_col time_col sid)).
Proof.
  unfold daily_table, getitem.
  destruct (has_column t "station_id"); [| discriminate].
  unfold set_index. destruct (has_column (loc_mask t _) time_col); [| discriminate].
  unfold resample_daily_mean. cbn [index_names rows loc_mask].
  unfold series_eq. rewrite map_map, boolean_index_map. fold (station_rows t sid).
  destruct (map_outcome (fun r => timestamp (cell_at time_col r)) (station_rows t sid))
    as [ts |] eqn:Hts; [| discriminate].
  destruct (has_column _ value_col); [| discriminate].
  destruct (map_outcome (fun r => numeric (cell_at value_col r)) (station_rows t sid))
    as [vs |] eqn:Hvs; [| discriminate].
  intros [= <-]. cbn [rows setitem_const]. rewrite map_map.
  apply (map_outcome_total _ (fun r => time_of (cell_at time_col r))) in Hts.
  2: { intros r y. destruct (cell_at time_col r); cbn; congruence. }
  apply (map_outcome_total _ (fun r => value_of (cell_at value_col r))) in Hvs.
  2: { intros r y. destruct (cell_at value_col r); cbn; congruence. }
  subst ts vs. rewrite zip_map2. reflexivity.
Qed.








Lemma pd_concat_rows (frames : list DataFrame) (result : DataFrame) :
  pd_concat frames = Return result -> rows result = concat (map rows frames).
Proof.
  unfold pd_concat. destruct frames; [discriminate |]. intros [= <-]. reflexivity.
Qed.

(** A call that returns has found its time column and coerced it. *)
Lemma convert_hourly_to_daily_returns_inv (df : loc) (value_col time_col : string)
    (w w' : World) (out : loc) (t : DataFrame) :
  heap w !! df = Some (ODataFrame t) ->
  convert_hourly_to_daily df value_col time_col w = (w', Return out) ->
  time_col ∈ columns t
  /\ exists col, pd_to_datetime (map (cell_at time_col) (rows t)) = Return col.
Proof.
  intros Hdf. unfold convert_hourly_to_daily, getitem_at.
  unfold bind at 1 2. rewrite (frame_at_run _ _ _ Hdf).
  unfold lift at 1, getitem at 1, has_column.
  destruct (decide (time_col ∈ columns t)) as [Hin | Hout].
  - rewrite bool_decide_eq_true_2 by exact Hin.
    unfold bind at 1. unfold lift at 1.
    destruct (pd_to_datetime (map (cell_at time_col) (rows t))) as [col | e];
      [eauto | discriminate].
  - rewrite bool_decide_eq_false_2 by exact Hout. discriminate.
Qed.


End Properties.

(** * Further properties of the module *)

(** ** The discipline of the tracker and of the errors *)

Lemma quiet_ret {A} (a : A) : quiet (ret a).
Proof.
  intros w. exists []. cbn. rewrite app_nil_r. split; [| split]; try reflexivity.
  apply not_elem_of_nil.
Qed.

Lemma quiet_raise {A} (e : exn) : quiet (@raise A e).
Proof.
  intros w. exists []. cbn. rewrite app_nil_r. split; [| split]; try reflexivity.
  apply not_elem_of_nil.
Qed.

Lemma quiet_lift {A} (o : outcome A) : quiet (lift o).
Proof.
  intros w. exists []. cbn. rewrite app_nil_r. split; [| split]; try reflexivity.
  apply not_elem_of_nil.
Qed.

Lemma quiet_update (n : nat) (message : string) : quiet (tracker_update n message).
Proof.
  intros w. eexists [_]. cbn. split; [| split]; try reflexivity.
  intros Hin. apply list_elem_of_singleton in Hin. discriminate.
Qed.

Lemma quiet_start (total : nat) (desc unit_ : string) :
  quiet (ProgressTracker total desc unit_).
Proof.
  intros w. eexists [_]. cbn. split; [| split]; try reflexivity.
  intros Hin. apply list_elem_of_singleton in Hin. discriminate.
Qed.

Lemma quiet_bind {A B} (m : Py A) (k : A -> Py B) :
  quiet m -> (forall a, quiet (k a)) -> quiet (bind m k).
Proof.
  intros Hm Hk w. destruct (Hm w) as (ev1 & Hh1 & Hp1 & Hc1).
  unfold bind. destruct (m w) as [w1 [a | e]]; cbn in *.
  - destruct (Hk a w1) as (ev2 & Hh2 & Hp2 & Hc2).
    exists (ev1 ++ ev2). rewrite Hh2, Hp2, Hh1, Hp1, app_assoc.
    split; [| split]; try reflexivity.
    rewrite elem_of_app. tauto.
  - exists ev1. auto.
Qed.

(** Proves a straight-line body quiet, case by case. *)
Ltac quiet_steps :=
  repeat first
    [ apply quiet_ret | apply quiet_raise | apply quiet_lift
    | apply quiet_update | apply quiet_start
    | apply quiet_bind; [| intros ?]
    | match goal with
      | |- quiet (if ?b then _ else _) => destruct b
      | |- quiet (match ?x with _ => _ end) => destruct x
      end ].

Lemma wrapped_try {A} (prefix : string) (total : nat) (desc unit_ : string)
    (body : Py A) :
  quiet body ->
  wrapped prefix
    (ProgressTracker total desc unit_ ;;
     try_except body
       (fun e => tracker_close ;; raise (RuntimeError (prefix +:+ str e)))).
Proof.
  intros Hbody w w' o.
  unfold bind at 1. unfold ProgressTracker, tell.
  set (w1 := mkWorld (heap w) (progress w ++ [TrackerStart total desc unit_])).
  destruct (Hbody w1) as (ev2 & Hh2 & Hp2 & Hc2).
  assert (Hstart : TrackerClose ∉ [TrackerStart total desc unit_]).
  { intros Hin. apply list_elem_of_singleton in Hin. discriminate. }
  unfold try_except. destruct (body w1) as [w2 [a | e]]; cbn in *.
  - intros [= <- <-]. split; [exact Hh2 |].
    exists ([TrackerStart total desc unit_] ++ ev2).
    rewrite Hp2, app_assoc. split; [reflexivity |].
    rewrite elem_of_app. tauto.
  - unfold bind, tracker_close, tell, raise. cbn. intros [= <- <-]. cbn.
    split; [exact Hh2 |].
    exists (([TrackerStart total desc unit_] ++ ev2) ++ [TrackerClose]).
    rewrite Hp2, !app_assoc. split; [reflexivity |].
    split; [eauto |]. exists ([TrackerStart total desc unit_] ++ ev2).
    split; [reflexivity |]. rewrite elem_of_app. tauto.
Qed.

(** Closes [TrackerClose ∉ before] for an explicit list of other events. *)
Ltac never_closed :=
  let Hn := fresh "Hn" in
  intros Hn;
  repeat (apply elem_of_cons in Hn as [Hn | Hn]; [discriminate Hn |]);
  apply elem_of_nil in Hn; exact Hn.

(** Closes a goal [reports prefix cause m w] or [exists w' r, m w = ...]
    once the run of [m] has been computed. *)
Ltac reported :=
  cbn; rewrite <- ?app_assoc; cbn [app];
  first
    [ eexists _, _; reflexivity
    | eexists [_]; split; [reflexivity | never_closed]
    | eexists [_; _]; split; [reflexivity | never_closed]
    | eexists [_; _; _]; split; [reflexivity | never_closed]
    | eexists [_; _; _; _]; split; [reflexivity | never_closed]
    | eexists [_; _; _; _; _]; split; [reflexivity | never_closed] ].

Section Discipline.
Context `{Libraries} `{PointLibrary}.

Lemma preprocess_swe_fails (ds : Dataset) :
  fails_exactly "Error during SWE preprocessing: " (swe_failure ds)
    (preprocess_swe ds).
Proof.
  intros w. unfold swe_failure, reports, preprocess_swe. run_py.
  destruct (to_dataframe ds) as [df0 | e]; [| reported].
  destruct (is_multiindex df0); [| reported].
  destruct (reset_index df0) as [df | e]; cbn [failure_of]; reported.
Qed.

Lemma preprocess_precip_fails (ds : Dataset) :
  fails_exactly "Error during precipitation preprocessing: " (precip_failure ds)
    (preprocess_precip ds).
Proof.
  intros w. unfold precip_failure, reports, preprocess_precip, getitem. run_py.
  destruct (to_dataframe ds) as [df0 | e]; [| reported].
  destruct (is_multiindex df0).
  - destruct (reset_index df0) as [df | e]; [| reported].
    destruct (has_column df "time"); [| reported].
    cbn [fst snd].
    destruct (pd_to_datetime _) as [col | e]; cbn [failure_of]; reported.
  - cbn [fst snd]. destruct (has_column df0 "time"); [| reported].
    cbn [fst snd].
    destruct (pd_to_datetime _) as [col | e]; cbn [failure_of]; reported.
Qed.

Lemma filter_stations_fails (data : object) (stations_list : list cell) :
  fails_exactly "Error during station filtering: "
    (filter_failure data stations_list) (filter_stations data stations_list).
Proof.
  intros w. unfold filter_failure, reports, filter_stations, getitem. run_py.
  destruct data as [df | ds |].
  - destruct (has_column df "station_id"); reported.
  - destruct (sel_station_id ds stations_list); cbn [failure_of]; reported.
  - reported.
Qed.

Lemma assess_data_availability_fails (data : Dataset)
    (time_dim station_dim : string) :
  fails_exactly "Error during data availability assessment: "
    (availability_failure data time_dim)
    (assess_data_availability data time_dim station_dim).
Proof.
  intros w.
  unfold availability_failure, reports, assess_data_availability, ds_count, ds_len.
  run_py. destruct (dim_size data time_dim); reported.
Qed.

(** X1: the functions on tables and arrays whose whole body stands in the
    [try] ([preprocess_swe], [preprocess_precip], [filter_stations],
    [assess_data_availability]) change no object, and a call that returns
    has not closed the tracker.  A call fails exactly when a step of its
    body fails - the flattening, the reset of the index, the coercion of
    the time column; the column check, the selection, the type of the
    data; the count along a dimension the dataset does not have - and it
    then raises the runtime error of the function whose message is the
    prefix followed by the text of that very exception, after closing the
    tracker as its last step. *)
Theorem table_errors_are_wrapped :
  ((forall ds, wrapped "Error during SWE preprocessing: " (preprocess_swe ds))
   /\ (forall ds,
         wrapped "Error during precipitation preprocessing: "
           (preprocess_precip ds))
   /\ (forall data stations_list,
         wrapped "Error during station filtering: "
           (filter_stations data stations_list))
   /\ (forall data time_dim station_dim,
         wrapped "Error during data availability assessment: "
           (assess_data_availability data time_dim station_dim)))
  /\ (forall ds,
        fails_exactly "Error during SWE preprocessing: " (swe_failure ds)
          (preprocess_swe ds))
  /\ (forall ds,
        fails_exactly "Error during precipitation preprocessing: "
          (precip_failure ds) (preprocess_precip ds))
  /\ (forall data stations_list,
        fails_exactly "Error during station filtering: "
          (filter_failure data stations_list)
          (filter_stations data stations_list))
  /\ (forall data time_dim station_dim,
        fails_exactly "Error during data availability assessment: "
          (availability_failure data time_dim)
          (assess_data_availability data time_dim station_dim)).
Proof.
  split.
  - repeat match goal with |- _ /\ _ => split end;
      intros; unfold preprocess_swe, preprocess_precip, filter_stations,
        assess_data_availability; apply wrapped_try; quiet_steps.
  - split; [exact preprocess_swe_fails |].
    split; [exact preprocess_precip_fails |].
    split; [exact filter_stations_fails |].
    exact assess_data_availability_fails.
Qed.

Lemma extract_stations_in_basin_fails (stations basin_shapefile : GeoDataFrame)
    (basin_id : string) (buffer_km : Q) :
  fails_exactly "Error during station extraction: "
    (extract_failure stations basin_shapefile basin_id buffer_km)
    (extract_stations_in_basin stations basin_shapefile basin_id buffer_km).
Proof.
  intros w. unfold extract_failure, reports, extract_stations_in_basin. run_py.
  destruct (select_basin basin_shapefile basin_id) as [basin | e]; [| reported].
  destruct (first_geometry basin) as [g | e]; [| reported].
  destruct (Qpositive buffer_km); [| reported].
  cbn [fst snd].
  destruct (to_crs basin 3763) as [basin_conv | e]; [| reported].
  destruct (to_crs stations 3763) as [stations_conv | e]; [| reported].
  cbv zeta.
  destruct (iloc0 (geoms _)) as [buffer0 | e]; [| reported].
  destruct (series_to_crs _ 4326) as [out | e]; cbn [failure_of]; reported.
Qed.

Lemma convert_to_geodataframe_fails (df : DataFrame) (lon_col lat_col : string)
    (crs_code : Z) :
  fails_exactly "Error during GeoDataFrame conversion: "
    (convert_failure df lon_col lat_col)
    (convert_to_geodataframe df lon_col lat_col crs_code).
Proof.
  intros w. unfold convert_failure, reports, convert_to_geodataframe, getitem.
  run_py.
  destruct (has_column df lon_col); [| reported].
  destruct (has_column df lat_col); [| reported].
  cbn [negb orb fst snd].
  destruct (map_outcome _ _) as [geometry | e]; cbn [failure_of]; reported.
Qed.

Lemma spatial_join_fails (points_gdf polygons_gdf : GeoDataFrame)
    (how op : string) :
  fails_exactly "Error during spatial join: "
    (join_failure points_gdf polygons_gdf how op)
    (spatial_join points_gdf polygons_gdf how op).
Proof.
  intros w. unfold join_failure, reports, spatial_join. run_py.
  destruct (forallb is_point _); [| reported].
  destruct (forallb is_polygonal _); [| reported].
  cbn [negb fst snd].
  destruct (bool_decide (crs points_gdf ≠ crs polygons_gdf)); [reported |].
  cbn [fst snd].
  destruct (sjoin points_gdf polygons_gdf how op); cbn [failure_of]; reported.
Qed.

(** X2: the same discipline holds for the geospatial functions whose whole
    body stands in the [try] ([extract_stations_in_basin],
    [convert_to_geodataframe], [spatial_join]): no object changed, the
    tracker not closed by a call that returns; a call fails exactly when a
    step of its body fails - the selection of the basin, its first
    geometry, a re-projection; the column check, the making of a point;
    one of the three checks of the join, the join itself - and it then
    raises the runtime error of the function whose message is the prefix
    followed by the text of that very exception, after closing the tracker
    as its last step. *)
Theorem geospatial_errors_are_wrapped :
  ((forall stations basin_shapefile basin_id buffer_km,
      wrapped "Error during station extraction: "
        (extract_stations_in_basin stations basin_shapefile basin_id buffer_km))
   /\ (forall df lon_col lat_col crs,
         wrapped "Error during GeoDataFrame conversion: "
           (convert_to_geodataframe df lon_col lat_col crs))
   /\ (forall points_gdf polygons_gdf how op,
         wrapped "Error during spatial join: "
           (spatial_join points_gdf polygons_gdf how op)))
  /\ (forall stations basin_shapefile basin_id buffer_km,
        fails_exactly "Error during station extraction: "
          (extract_failure stations basin_shapefile basin_id buffer_km)
          (extract_stations_in_basin stations basin_shapefile basin_id buffer_km))
  /\ (forall df lon_col lat_col crs,
        fails_exactly "Error during GeoDataFrame conversion: "
          (convert_failure df lon_col lat_col)
          (convert_to_geodataframe df lon_col lat_col crs))
  /\ (forall points_gdf polygons_gdf how op,
        fails_exactly "Error during spatial join: "
          (join_failure points_gdf polygons_gdf how op)
          (spatial_join points_gdf polygons_gdf how op)).
Proof.
  split.
  - repeat match goal with |- _ /\ _ => split end;
      intros; unfold extract_stations_in_basin, convert_to_geodataframe,
        spatial_join; apply wrapped_try; quiet_steps.
  - split; [exact extract_stations_in_basin_fails |].
    split; [exact convert_to_geodataframe_fails |].
    exact spatial_join_fails.
Qed.

End Discipline.

Section Filtering.
Context `{Libraries}.

(** ** Filtering by station *)

Lemma filter_stations_table_run (df : DataFrame) (stations_list : list cell)
    (w : World) :
  "station_id" ∈ columns df ->
  filter_stations (ODataFrame df) stations_list w =
    (mkWorld (heap w)
       (progress w ++ [TrackerStart 2 "Filtering stations" "steps";
                       TrackerUpdate 1 "Validating input data";
                       TrackerUpdate 1 "Returning filtered data"]),
     Return (ODataFrame
               (mkDataFrame (index_names df) (columns df)
                  (List.filter (listed stations_list) (rows df))))).
Proof.
  intros Hcol. unfold filter_stations. run_py.
  unfold getitem, has_column. rewrite bool_decide_eq_true_2 by exact Hcol.
  cbn. unfold loc_mask, isin. rewrite map_map, boolean_index_map, <- !app_assoc.
  reflexivity.
Qed.

Lemma filter_filter {A} (f g : A -> bool) (xs : list A) :
  List.filter g (List.filter f xs) = List.filter (fun x => f x && g x) xs.
Proof.
  induction xs as [| x xs IH]; [reflexivity |].
  cbn. destruct (f x); cbn; [destruct (g x) |]; rewrite IH; reflexivity.
Qed.

(** X3: on a table that has a [station_id] column [filter_stations]
    returns a table with the same columns that holds exactly the rows
    whose id is in the list, in their order; filtering that table by a
    second list leaves exactly the rows whose id is in both lists. *)
Theorem filter_stations_composes (df : DataFrame) (first second : list cell)
    (w : World) :
  "station_id" ∈ columns df ->
  exists w1 w2 once twice,
    filter_stations (ODataFrame df) first w = (w1, Return (ODataFrame once))
    /\ filter_stations (ODataFrame once) second w1 = (w2, Return (ODataFrame twice))
    /\ columns once = columns df
    /\ columns twice = columns df
    /\ rows once = List.filter (listed first) (rows df)
    /\ rows twice = List.filter (fun r => listed first r && listed second r) (rows df).
Proof.
  intros Hcol. eexists _, _, _, _.
  split; [apply filter_stations_table_run, Hcol |].
  split; [apply filter_stations_table_run, Hcol |].
  cbn. rewrite filter_filter. auto.
Qed.

End Filtering.

Section Extraction.
Context `{Libraries}.

(** ** Edge cases of the station extraction *)

(** X4: when the basin table has no row for the requested basin, the call
    fails at its first step: the index error of taking the first match is
    wrapped into the runtime error, the tracker is closed, and neither the
    buffer nor the stations are looked at. *)
Theorem extract_unknown_basin (stations basin_shapefile : GeoDataFrame)
    (basin_id : string) (buffer_km : Q) (w : World) :
  "Station_ID" ∈ columns (frame basin_shapefile) ->
  (forall r : row,
     r ∈ rows (frame basin_shapefile) ->
     cell_eqb (cell_at "Station_ID" r) (CStr basin_id) = false) ->
  extract_stations_in_basin stations basin_shapefile basin_id buffer_km w =
    (mkWorld (heap w)
       (progress w ++ [TrackerStart 3 "Extracting stations in basin" "steps";
                       TrackerUpdate 1 "Extracting basin geometry";
                       TrackerClose]),
     Raise (RuntimeError
              ("Error during station extraction: "
               +:+ str (IndexError "single positional indexer is out-of-bounds")))).
Proof.
  intros Hcol Hnone. unfold extract_stations_in_basin. run_py.
  unfold select_basin, getitem, has_column.
  rewrite bool_decide_eq_true_2 by exact Hcol.
  unfold first_geometry. cbn [frame rows loc_mask].
  unfold series_eq. rewrite map_map, boolean_index_map.
  rewrite filter_none by (intros r Hr; apply Hnone, list_elem_of_In, Hr).
  cbn. rewrite <- !app_assoc. reflexivity.
Qed.

(** X5: with a buffer of zero or less the reference system of the basin
    table plays no part: the call does the same whatever that tag is; and
    what comes second in the result is the integer 0, for a negative
    buffer too. *)
Theorem extract_unbuffered_ignores_crs (stations basin_shapefile : GeoDataFrame)
    (basin_id : string) (buffer_km : Q) (w : World) :
  (buffer_km <= 0)%Q ->
  (forall tag : option Z,
     extract_stations_in_basin stations
       (mkGeoDataFrame (frame basin_shapefile) tag) basin_id buffer_km w
     = extract_stations_in_basin stations basin_shapefile basin_id buffer_km w)
  /\ (forall w' res buf,
        extract_stations_in_basin stations basin_shapefile basin_id buffer_km w
          = (w', Return (res, buf)) ->
        buf = Int 0).
Proof.
  intros Hle.
  assert (Hpos : Qpositive buffer_km = false).
  { unfold Qpositive. apply negb_false_iff, Qle_bool_iff, Hle. }
  split.
  - intros tag. unfold extract_stations_in_basin. run_py.
    unfold select_basin. cbn [frame crs].
    destruct (getitem (frame basin_shapefile) "Station_ID") as [ids | e];
      [| reflexivity].
    unfold first_geometry. cbn [frame]. rewrite Hpos. reflexivity.
  - intros w' res buf Hrun.
    apply extract_stations_in_basin_inv in Hrun
      as (basin & g & mask & _ & _ & _ & Hbranch).
    rewrite Hpos in Hbranch. apply Hbranch.
Qed.

Lemma extract_stations_in_basin_wrapped (stations basin_shapefile : GeoDataFrame)
    (basin_id : string) (buffer_km : Q) :
  wrapped "Error during station extraction: "
    (extract_stations_in_basin stations basin_shapefile basin_id buffer_km).
Proof. unfold extract_stations_in_basin. apply wrapped_try. quiet_steps. Qed.

Lemma boolean_index_sublist {A} (xs : list A) (mask : list bool) :
  boolean_index xs mask `sublist_of` xs.
Proof.
  revert mask. induction xs as [| x xs IH]; intros [| [] mask]; cbn;
    try apply sublist_nil_l.
  - apply sublist_skip, IH.
  - apply sublist_cons, IH.
Qed.

(** X6: the collection that is returned carries the reference system and
    the columns of the stations (and [basin]); its rows are station rows in
    their original order, unchanged but for the [basin] cell, which holds
    the requested id in every row - also when the containment was tested
    on re-projected copies. *)
Theorem extract_result_shape (stations basin_shapefile : GeoDataFrame)
    (basin_id : string) (buffer_km : Q) (w w' : World)
    (res : GeoDataFrame) (buf : int_or_series) :
  extract_stations_in_basin stations basin_shapefile basin_id buffer_km w
    = (w', Return (res, buf)) ->
  crs res = crs stations
  /\ columns (frame res) = add_column (columns (frame stations)) "basin"
  /\ heap w' = heap w
  /\ exists kept : list row,
       kept `sublist_of` rows (frame stations)
       /\ rows (frame res) = map (fun r : row => <["basin" := CStr basin_id]> r) kept.
Proof.
  intros Hrun.
  assert (Hheap : heap w' = heap w)
    by exact (proj1 (extract_stations_in_basin_wrapped _ _ _ _ _ _ _ Hrun)).
  apply extract_stations_in_basin_inv in Hrun
    as (basin & g & mask & _ & _ & -> & _).
  cbn. repeat (split; [first [reflexivity | assumption] |]).
  exists (boolean_index (rows (frame stations)) mask).
  split; [apply boolean_index_sublist | reflexivity].
Qed.

(** X7: a positive buffer needs the reference system of the stations: on
    stations without one the call never returns, it fails with the runtime
    error. *)
Theorem extract_buffer_needs_crs (stations basin_shapefile : GeoDataFrame)
    (basin_id : string) (buffer_km : Q) (w : World) :
  (0 < buffer_km)%Q ->
  crs stations = None ->
  exists w' msg,
    extract_stations_in_basin stations basin_shapefile basin_id buffer_km w
      = (w', Raise (RuntimeError msg)).
Proof.
  intros Hpos Hnaive.
  assert (Hq : Qpositive buffer_km = true).
  { unfold Qpositive. apply negb_true_iff.
    destruct (Qle_bool buffer_km 0) eqn:Hle; [| reflexivity].
    apply Qle_bool_iff in Hle. exfalso. exact (Qlt_not_le _ _ Hpos Hle). }
  unfold extract_stations_in_basin. run_py.
  destruct (select_basin basin_shapefile basin_id) as [basin | e]; [| cbn; eauto].
  destruct (first_geometry basin) as [g | e]; [| cbn; eauto].
  rewrite Hq. run_py.
  destruct (to_crs basin 3763) as [bc | e]; [| cbn; eauto].
  unfold to_crs at 1. rewrite Hnaive. cbn. eauto.
Qed.

End Extraction.

Section Availability.
Context `{Libraries}.

(** ** Range of the availability *)

Lemma count_notnull_le (T : nat) (elem : nat -> cell) :
  (count_notnull T elem <= T)%nat.
Proof.
  unfold count_notnull.
  etransitivity; [apply List.filter_length_le | rewrite length_seq; lia].
Qed.

Lemma percent_range (n T : nat) :
  (0 < T)%nat -> (n <= T)%nat ->
  (0 <= inject_Z (Z.of_nat n) / inject_Z (Z.of_nat T) * 100 <= 100)%Q.
Proof.
  intros HT Hn.
  assert (Hpos : (0 < inject_Z (Z.of_nat T))%Q)
    by (rewrite <- (Zlt_Qlt 0); lia).
  assert (Hlow : (0 <= inject_Z (Z.of_nat n) / inject_Z (Z.of_nat T))%Q).
  { apply Qle_shift_div_l; [exact Hpos |]. rewrite Qmult_0_l.
    rewrite <- (Zle_Qle 0). lia. }
  assert (Hhigh : (inject_Z (Z.of_nat n) / inject_Z (Z.of_nat T) <= 1)%Q).
  { apply Qle_shift_div_r; [exact Hpos |]. rewrite Qmult_1_l.
    rewrite <- Zle_Qle. lia. }
  split.
  - apply Qmult_le_0_compat; [exact Hlow | discriminate].
  - rewrite <- (Qmult_1_l 100) at 2. apply Qmult_le_compat_r; [exact Hhigh | discriminate].
Qed.

Lemma count_var_counted (time_dim : string) (T : nat) (a : DataArray)
    (idx : list nat) :
  values (count_var time_dim T a) idx = cell_of_nat (counted time_dim T a idx).
Proof.
  unfold count_var, counted, observation.
  destruct (axis_of time_dim (dims a)); reflexivity.
Qed.

Lemma counted_le (time_dim : string) (T : nat) (a : DataArray) (idx : list nat) :
  (0 < T)%nat -> (counted time_dim T a idx <= T)%nat.
Proof.
  intros HT. unfold counted. destruct (axis_of time_dim (dims a)).
  - apply count_notnull_le.
  - destruct (notnull (values a idx)); lia.
Qed.

Lemma dim_size_dropped (sizes : list (string * nat)) (d : string) :
  List.find (fun p => bool_decide (fst p = d))
    (List.filter (fun p => negb (bool_decide (fst p = d))) sizes) = None.
Proof.
  induction sizes as [| p sizes IH]; [reflexivity |].
  cbn. destruct (bool_decide (fst p = d)) eqn:Hp; cbn; [exact IH |].
  rewrite Hp. exact IH.
Qed.

Lemma percent_mono (n1 n2 T : nat) :
  (n1 <= n2)%nat ->
  (inject_Z (Z.of_nat n1) / inject_Z (Z.of_nat T) * 100
   <= inject_Z (Z.of_nat n2) / inject_Z (Z.of_nat T) * 100)%Q.
Proof.
  intros Hn. apply Qmult_le_compat_r; [| discriminate].
  unfold Qdiv. apply Qmult_le_compat_r.
  - rewrite <- Zle_Qle. lia.
  - apply Qinv_le_0_compat. rewrite <- (Zle_Qle 0). lia.
Qed.

(** X8: for a dataset whose time dimension has [T > 0] steps
    [assess_data_availability] returns a dataset without the time
    dimension, with the data variables under their names and in their
    order; every element of every variable is a number, never missing,
    between 0 and 100; and in a variable that has the time dimension the
    availability follows the number of non-missing observations along
    time: a position with at least as many of them as another has an
    availability at least as high. *)
Theorem availability_is_percentage (data : Dataset) (time_dim station_dim : string)
    (w : World) (T : nat) :
  dim_size data time_dim = Some T ->
  (0 < T)%nat ->
  exists w' av,
    assess_data_availability data time_dim station_dim w = (w', Return av)
    /\ dim_size av time_dim = None
    /\ map fst (data_vars av) = map fst (data_vars data)
    /\ forall (i : nat) (name : string) (a : DataArray),
         data_vars data !! i = Some (name, a) ->
         exists a',
           data_vars av !! i = Some (name, a')
           /\ (forall idx : list nat,
                 exists q, values a' idx = CNum q /\ (0 <= q <= 100)%Q)
           /\ (is_Some (axis_of time_dim (dims a)) ->
               forall (idx1 idx2 : list nat) (q1 q2 : Q),
                 values a' idx1 = CNum q1 ->
                 values a' idx2 = CNum q2 ->
                 (count_notnull T (observation time_dim a idx1)
                  <= count_notnull T (observation time_dim a idx2))%nat ->
                 (q1 <= q2)%Q).
Proof.
  intros Hsize HT.
  unfold assess_data_availability. run_py.
  unfold ds_count, ds_len. rewrite Hsize. cbn.
  eexists _, _. split; [reflexivity |]. split; [| split].
  - unfold dim_size, ds_map. cbn [sizes]. rewrite dim_size_dropped. reflexivity.
  - unfold ds_map. cbn [data_vars]. rewrite !map_map. reflexivity.
  - intros i name a Hvar. unfold ds_map. cbn [data_vars].
    rewrite !lookup_map, Hvar. cbn.
    eexists. split; [reflexivity |]. cbn.
    destruct T as [| T']; [lia |]. split.
    + intros idx. rewrite count_var_counted.
      pose proof (counted_le time_dim (S T') a idx HT) as Hle.
      eexists. split; [reflexivity |]. apply percent_range; lia.
    + intros [k Hk] idx1 idx2 q1 q2. rewrite !count_var_counted.
      unfold counted. rewrite Hk. cbn [cell_of_nat cell_div cell_mul].
      intros [= <-] [= <-] Hcount. apply percent_mono. exact Hcount.
Qed.

End Availability.

Section Joining.
Context `{Libraries} `{PointLibrary}.

(** ** Point collections and the spatial join *)

Lemma spatial_join_run (points_gdf polygons_gdf : GeoDataFrame)
    (how op : string) (w : World) :
  joinable points_gdf polygons_gdf ->
  exists events,
    spatial_join points_gdf polygons_gdf how op w =
      match sjoin points_gdf polygons_gdf how op with
      | Return r => (mkWorld (heap w) (progress w ++ events), Return r)
      | Raise e =>
          (mkWorld (heap w) (progress w ++ events ++ [TrackerClose]),
           Raise (RuntimeError ("Error during spatial join: " +:+ str e)))
      end.
Proof.
  intros (Hpts & Hpoly & Hcrs). unfold spatial_join. run_py.
  rewrite Hpts, Hpoly. cbn.
  rewrite bool_decide_eq_false_2 by (intros Hne; apply Hne, Hcrs). cbn.
  destruct (sjoin points_gdf polygons_gdf how op) as [r | e]; cbn.
  - eexists [_; _; _; _; _]. rewrite <- !app_assoc. reflexivity.
  - eexists [_; _; _; _]. rewrite <- !app_assoc. reflexivity.
Qed.

(** X9: [spatial_join] returns a table exactly when its three
    requirements hold and the join of the library, called with the two
    collections, the join type and the predicate as given, returns that
    table. *)
Theorem spatial_join_returns_iff (points_gdf polygons_gdf : GeoDataFrame)
    (how op : string) (w : World) (joined : GeoDataFrame) :
  (exists w', spatial_join points_gdf polygons_gdf how op w = (w', Return joined))
  <-> joinable points_gdf polygons_gdf
      /\ sjoin points_gdf polygons_gdf how op = Return joined.
Proof.
  split.
  - intros (w' & Hrun).
    assert (Hok : joinable points_gdf polygons_gdf).
    { revert Hrun. unfold spatial_join, joinable. run_py.
      destruct (forallb is_point _); [| discriminate].
      destruct (forallb is_polygonal _); [| discriminate].
      cbn. destruct (bool_decide (crs points_gdf ≠ crs polygons_gdf)) eqn:Hcrs;
        [discriminate |].
      intros _. apply bool_decide_eq_false in Hcrs.
      repeat split. destruct (decide (crs points_gdf = crs polygons_gdf)); tauto. }
    split; [exact Hok |].
    destruct (spatial_join_run _ _ how op w Hok) as (events & Hrun').
    rewrite Hrun' in Hrun.
    destruct (sjoin points_gdf polygons_gdf how op); congruence.
  - intros (Hok & Hjoin).
    destruct (spatial_join_run _ _ how op w Hok) as (events & Hrun).
    rewrite Hjoin in Hrun. eauto.
Qed.

Lemma points_of_rows (lon_col lat_col : string) (rs : list row) :
  makes_points ->
  Forall (has_coordinates lon_col lat_col) rs ->
  map_outcome (fun xy => point_of (fst xy) (snd xy))
    (zip (map (cell_at lon_col) rs) (map (cell_at lat_col) rs))
  = Return (map (point_cell lon_col lat_col) rs).
Proof.
  intros Hpoint.
  induction 1 as [| r rs (x & y & Hx & Hy) _ IH]; [reflexivity |].
  cbn. rewrite IH. unfold point_cell. rewrite Hx, Hy, Hpoint. reflexivity.
Qed.

Lemma zip_with_insert_map (c : string) (g : row -> cell) (rs : list row) :
  zip_with (fun (r : row) v => <[c := v]> r) rs (map g rs)
  = map (fun r : row => <[c := g r]> r) rs.
Proof.
  induction rs as [| r rs IH]; [reflexivity |]. cbn. rewrite IH. reflexivity.
Qed.

(** X10: with a geometry library that makes of two numbers the point with
    these coordinates, on a table that has the two coordinate columns,
    with a number in both for every row, [convert_to_geodataframe]
    returns a collection with the given reference system, the columns of
    the table and [geometry], and row for row the cells of the table with
    the point whose x is the longitude and whose y is the latitude. *)
Theorem convert_to_geodataframe_points (df : DataFrame) (lon_col lat_col : string)
    (crs_code : Z) (w : World) :
  makes_points ->
  lon_col ∈ columns df ->
  lat_col ∈ columns df ->
  Forall (has_coordinates lon_col lat_col) (rows df) ->
  exists w' gdf,
    convert_to_geodataframe df lon_col lat_col crs_code w = (w', Return gdf)
    /\ crs gdf = Some crs_code
    /\ columns (frame gdf) = add_column (columns df) "geometry"
    /\ length (rows (frame gdf)) = length (rows df)
    /\ forall (i : nat) (r : row),
         rows df !! i = Some r ->
         exists x y,
           cell_at lon_col r = CNum x
           /\ cell_at lat_col r = CNum y
           /\ rows (frame gdf) !! i = Some (<["geometry" := CGeom (Point x y)]> r).
Proof.
  intros Hpoint Hlon Hlat Hnum. unfold convert_to_geodataframe. run_py.
  unfold getitem, has_column. rewrite !bool_decide_eq_true_2 by assumption.
  cbn. rewrite (points_of_rows _ _ _ Hpoint Hnum). cbn.
  eexists _, _. split; [reflexivity |]. cbn [crs frame columns rows setitem].
  rewrite zip_with_insert_map.
  split; [reflexivity |]. split; [reflexivity |].
  split; [apply length_map |].
  intros i r Hr. rewrite lookup_map, Hr. cbn.
  rewrite Forall_forall in Hnum.
  destruct (Hnum r) as (x & y & Hx & Hy).
  { apply list_elem_of_lookup. eauto. }
  exists x, y. unfold point_cell. rewrite Hx, Hy. auto.
Qed.

Lemma map_outcome_points (xys : list (cell * cell)) (geometry : list cell) :
  makes_only_points ->
  map_outcome (fun xy => point_of (fst xy) (snd xy)) xys = Return geometry ->
  Forall (fun g => is_point g = true) geometry.
Proof.
  intros Hpoint Hgeo. apply map_outcome_Forall2 in Hgeo.
  induction Hgeo as [| [x y] g xys geometry Hg _ IH]; constructor; [| exact IH].
  exact (Hpoint x y g Hg).
Qed.

(** X11: the geometry library making nothing but points, a collection
    that [convert_to_geodataframe] has returned always passes the point
    check of [spatial_join]: joined with polygons in the same reference
    system, the outcome is the one of the library's join. *)
Theorem converted_table_joins (df : DataFrame) (lon_col lat_col : string)
    (crs_code : Z) (polygons_gdf : GeoDataFrame) (how op : string)
    (w w1 : World) (gdf : GeoDataFrame) :
  makes_only_points ->
  convert_to_geodataframe df lon_col lat_col crs_code w = (w1, Return gdf) ->
  forallb is_polygonal (map geometry_of (rows (frame polygons_gdf))) = true ->
  crs polygons_gdf = Some crs_code ->
  joinable gdf polygons_gdf
  /\ forall joined,
       sjoin gdf polygons_gdf how op = Return joined ->
       exists w2, spatial_join gdf polygons_gdf how op w1 = (w2, Return joined).
Proof.
  intros Hpoint Hconv Hpoly Hcrs.
  assert (Hok : joinable gdf polygons_gdf).
  { revert Hconv. unfold convert_to_geodataframe. run_py.
    destruct (negb (has_column df lon_col) || negb (has_column df lat_col));
      [discriminate |].
    cbn. destruct (getitem df lon_col) as [lons |]; [| discriminate].
    destruct (getitem df lat_col) as [lats |]; [| discriminate].
    destruct (map_outcome _ (zip lons lats)) as [geometry |] eqn:Hgeo;
      [| discriminate].
    cbn. intros [= _ <-]. split; [| split; [exact Hpoly | cbn; congruence]].
    apply (map_outcome_points _ _ Hpoint) in Hgeo. cbn.
    apply forallb_forall. intros g Hg. apply in_map_iff in Hg as (r & <- & Hr).
    revert Hr. clear -Hgeo. generalize (rows df) as rs.
    induction Hgeo as [| g0 geometry Hg0 _ IH]; intros [| r0 rs]; cbn;
      [intros [] | intros [] | intros [] |].
    intros [<- | Hr]; [| exact (IH _ Hr)].
    unfold geometry_of, cell_at. rewrite lookup_insert_eq. exact Hg0. }
  split; [exact Hok |]. intros joined Hjoin.
  destruct (spatial_join_run _ _ how op w1 Hok) as (events & Hrun).
  rewrite Hjoin in Hrun. eauto.
Qed.

End Joining.

Section WithinShapeProperties.
Context `{Libraries} `{PointLibrary}.

(** ** Filtering by a shape *)

Lemma rows_if_within_run (shape : GeoDataFrame) (df : DataFrame)
    (n_stations : nat) (p : nat * cell) (w : World) :
  rows_if_within shape df n_stations p w =
    match station_choice shape df (snd p) with
    | Return choice =>
        (mkWorld (heap w)
           (progress w ++ [TrackerUpdate 1
                             (station_message "Processed station " (fst p) n_stations)]),
         Return choice)
    | Raise e => (w, Raise e)
    end.
Proof.
  unfold rows_if_within, station_choice. run_py.
  destruct (getitem df "station_id") as [ids |]; [| reflexivity].
  destruct (getitem _ "lon") as [lons |]; [| reflexivity].
  destruct (iloc0 lons); [| reflexivity].
  destruct (getitem _ "lat") as [lats |]; [| reflexivity].
  destruct (iloc0 lats); [| reflexivity].
  destruct (point_of _ _); [| reflexivity].
  destruct (iloc0 (map geometry_of _)); reflexivity.
Qed.

Lemma within_loop_run (shape : GeoDataFrame) (df : DataFrame) (n_stations : nat)
    (ids : list cell) :
  forall (k : nat) (w : World),
    exists events,
      (TrackerClose ∉ events)
      /\ map_py (rows_if_within shape df n_stations) (zip (seq k (length ids)) ids) w
         = (mkWorld (heap w) (progress w ++ events),
            map_outcome (station_choice shape df) ids).
Proof.
  induction ids as [| sid ids IH]; intros k w.
  - exists []. split; [apply not_elem_of_nil |].
    cbn. rewrite app_nil_r. destruct w. reflexivity.
  - cbn [length seq zip zip_with map_py map_outcome].
    unfold bind at 1. rewrite rows_if_within_run. cbn [snd fst].
    destruct (station_choice shape df sid) as [choice | e].
    + cbv beta iota. unfold bind at 1.
      match goal with |- context [map_py _ _ ?w1] => set (w1' := w1) end.
      destruct (IH (S k) w1') as (events & Hclose & Hrun).
      rewrite Hrun. subst w1'. cbn [heap progress].
      eexists (_ :: events). split; cycle 1.
      * rewrite <- app_assoc. destruct (map_outcome _ ids); reflexivity.
      * intros Hin. apply elem_of_cons in Hin as [Hin | Hin];
          [discriminate | exact (Hclose Hin)].
    + exists []. split; [apply not_elem_of_nil |].
      rewrite app_nil_r. destruct w. reflexivity.
Qed.

Lemma filter_data_within_shape_run (dataset : Dataset) (shape : GeoDataFrame)
    (df : DataFrame) (w : World) :
  to_dataframe dataset = Return df ->
  "station_id" ∈ columns df ->
  exists events,
    filter_data_within_shape dataset shape w =
      match map_outcome (station_choice shape df)
              (unique (map (cell_at "station_id") (rows df))) with
      | Return kept =>
          (mkWorld (heap w) (progress w ++ events),
           Return (match omap id kept with
                   | [] => mkDataFrame [] [] []
                   | first :: more =>
                       mkDataFrame []
                         (fold_left (fun cs d => fold_left add_column (columns d) cs)
                            (first :: more) [])
                         (concat (map rows (first :: more)))
                   end))
      | Raise e =>
          (mkWorld (heap w) (progress w ++ events ++ [TrackerClose]),
           Raise (RuntimeError ("Error during data filtering: " +:+ str e)))
      end.
Proof.
  intros Hflat Hcol. unfold filter_data_within_shape.
  unfold bind at 1. unfold lift at 1. rewrite Hflat.
  unfold bind at 1. unfold lift at 1, getitem at 1, has_column.
  rewrite bool_decide_eq_true_2 by exact Hcol.
  set (ids := unique (map (cell_at "station_id") (rows df))).
  unfold bind at 1. unfold ProgressTracker, tell. unfold try_except, enumerate.
  destruct (within_loop_run shape df (length ids) ids 0
              (mkWorld (heap w)
                 (progress w ++ [TrackerStart (length ids)
                                   "Filtering stations within shape" "stations"])))
    as (events & _ & Hrun).
  unfold bind at 1. rewrite Hrun. cbn [heap progress].
  destruct (map_outcome (station_choice shape df) ids) as [kept | e].
  - eexists (_ :: events). rewrite <- app_assoc.
    destruct (omap id kept); reflexivity.
  - unfold bind, tracker_close, tell, raise. cbn [heap progress].
    eexists (_ :: events). rewrite <- !app_assoc. reflexivity.
Qed.




Lemma fold_add_column_same (cs : list string) :
  forall acc, (forall c, c ∈ cs -> c ∈ acc) -> fold_left add_column cs acc = acc.
Proof.
  induction cs as [| c cs IH]; intros acc Hsub; [reflexivity |].
  cbn. rewrite add_column_present by (apply Hsub; left).
  apply IH. intros c' Hc'. apply Hsub. right. exact Hc'.
Qed.

(** The columns of a concatenation of tables that all have the columns
    [cs], without repetition. *)
Lemma concat_columns (cs : list string) (frames : list DataFrame) :
  fold_left add_column cs [] = cs ->
  Forall (fun d => columns d = cs) frames ->
  frames ≠ [] ->
  fold_left (fun acc d => fold_left add_column (columns d) acc) frames [] = cs.
Proof.
  intros Hcs Hall Hne. destruct Hall as [| d frames Hd Hall]; [congruence |].
  cbn. rewrite Hd, Hcs. clear Hne Hd.
  induction Hall as [| d' frames Hd' _ IH]; [reflexivity |].
  cbn. rewrite Hd', fold_add_column_same by auto. exact IH.
Qed.


End WithinShapeProperties.

Section WithinShapeFailures.
Context `{Libraries} `{PointLibrary}.

Lemma cell_eqb_null_r (a b : cell) : isnull b = true -> cell_eqb a b = false.
Proof. destruct b; try discriminate. destruct a; reflexivity. Qed.

Lemma map_outcome_raises {A B} (f : A -> outcome B) (xs : list A) (x : A) :
  In x xs -> (exists e, f x = Raise e) -> exists e, map_outcome f xs = Raise e.
Proof.
  induction xs as [| x0 xs IH]; [intros [] |].
  intros [-> | Hin] Hx; cbn.
  - destruct Hx as (e & ->). eauto.
  - destruct (f x0); [| eauto].
    destruct (IH Hin Hx) as (e & ->). eauto.
Qed.

Lemma station_choice_null (shape : GeoDataFrame) (df : DataFrame) (sid : cell) :
  isnull sid = true -> exists e, station_choice shape df sid = Raise e.
Proof.
  intros Hnull. unfold station_choice, getitem.
  destruct (has_column df "station_id"); [| eauto].
  unfold loc_mask, series_eq. cbn [columns rows index_names].
  rewrite map_map, boolean_index_map.
  rewrite filter_none by (intros r _; apply cell_eqb_null_r, Hnull).
  destruct (has_column _ "lon"); cbn; eauto.
Qed.

(** X13: two ways in which [filter_data_within_shape] fails.  When the
    flattened table has no [station_id] column (the flattening has put the
    station in the index, say), the key error escapes as it is, before the
    tracker is started.  When some row has a missing station id, the call
    ends in the runtime error: the missing id is one of the distinct ids,
    no row compares equal to it, and taking the first record fails. *)
Theorem filter_data_within_shape_failures (dataset : Dataset)
    (shape : GeoDataFrame) (df : DataFrame) (w : World) :
  to_dataframe dataset = Return df ->
  ("station_id" ∉ columns df ->
   filter_data_within_shape dataset shape w = (w, Raise (KeyError "station_id")))
  /\ ("station_id" ∈ columns df ->
      (exists r : row, r ∈ rows df /\ isnull (cell_at "station_id" r) = true) ->
      exists w' msg,
        filter_data_within_shape dataset shape w = (w', Raise (RuntimeError msg))).
Proof.
  intros Hflat. split.
  - intros Hout. unfold filter_data_within_shape.
    unfold bind at 1. unfold lift at 1. rewrite Hflat.
    unfold bind at 1. unfold lift at 1, getitem at 1, has_column.
    rewrite bool_decide_eq_false_2 by exact Hout. reflexivity.
  - intros Hcol (r & Hr & Hnull).
    destruct (filter_data_within_shape_run dataset shape df w Hflat Hcol)
      as (events & ->).
    destruct (unique_covers (map (cell_at "station_id") (rows df))
                (cell_at "station_id" r)) as (y & Hy & Hsame).
    { unfold cell_same. rewrite Hnull. apply orb_true_r. }
    { apply in_map, list_elem_of_In, Hr. }
    assert (Hynull : isnull y = true).
    { unfold cell_same in Hsame.
      rewrite (cell_eqb_null_r _ _ Hnull) in Hsame. cbn in Hsame.
      apply andb_true_iff in Hsame. tauto. }
    destruct (map_outcome_raises (station_choice shape df) _ y Hy
                (station_choice_null shape df y Hynull)) as (e & ->).
    eauto.
Qed.

End WithinShapeFailures.

Section CoordinateUpdate.
Context `{Libraries}.

(** ** Coordinate update: repetition and early failures *)

Lemma updated_row_idem (m : list (cell * (cell * cell))) (r : row) :
  updated_row m (updated_row m r) = updated_row m r.
Proof.
  unfold updated_row.
  destruct (dict_get m (cell_at "station_id" r)) as [new |] eqn:Hget.
  - rewrite with_coordinates_station, Hget. apply with_coordinates_idem.
  - rewrite Hget. reflexivity.
Qed.

Lemma updated_row_station (m : list (cell * (cell * cell))) (r : row) :
  cell_at "station_id" (updated_row m r) = cell_at "station_id" r.
Proof.
  unfold updated_row. destruct (dict_get m (cell_at "station_id" r));
    [apply with_coordinates_station | reflexivity].
Qed.

(** The run of the table variant, with the table it leaves behind. *)
Lemma update_coordinates_table_run (data coordinates_df : loc)
    (id_col lat_col lon_col : string) (w : World) (t c : DataFrame)
    (m : list (cell * (cell * cell))) :
  heap w !! data = Some (ODataFrame t) ->
  heap w !! coordinates_df = Some (ODataFrame c) ->
  coord_map_of c id_col lat_col lon_col = Return m ->
  "station_id" ∈ columns t -> "lat" ∈ columns t -> "lon" ∈ columns t ->
  exists events,
    update_coordinates data coordinates_df id_col lat_col lon_col w =
      (mkWorld
         (<[data := ODataFrame (mkDataFrame (index_names t) (columns t)
                                  (map (updated_row m) (rows t)))]> (heap w))
         (progress w ++ events),
       Return data).
Proof.
  intros Hdata Hcoords Hmap Hsid Hlat Hlon.
  destruct (update_loop_run data m
              (length (unique (map (cell_at "station_id") (rows t))))
              (unique (map (cell_at "station_id") (rows t))) 0 t
              (mkWorld (heap w)
                 (progress w ++
                  [TrackerStart
                     (length (unique (map (cell_at "station_id") (rows t))))
                     "Updating coordinates" "stations"])))
    as (events & Hloop); try assumption.
  cbn [heap progress] in Hloop.
  exists (TrackerStart (length (unique (map (cell_at "station_id") (rows t))))
            "Updating coordinates" "stations" :: events).
  unfold update_coordinates. unfold bind at 1. unfold deref. rewrite Hdata.
  unfold bind at 1. rewrite (frame_at_run _ _ _ Hcoords).
  unfold bind at 1. unfold lift at 1. rewrite Hmap.
  unfold getitem_at. unfold bind at 1 2. rewrite (frame_at_run _ _ _ Hdata).
  unfold lift, getitem, has_column. rewrite bool_decide_eq_true_2 by exact Hsid.
  unfold bind at 1. unfold ProgressTracker, tell.
  unfold try_except, bind, enumerate. rewrite Hloop.
  rewrite <- app_assoc. cbn [app].
  replace (map (updated_row m) (rows t))
    with (map (fun r => fold_left (fun r sid => update_row_for m sid r)
                          (unique (map (cell_at "station_id") (rows t))) r)
            (rows t)); [reflexivity |].
  apply map_ext_in. intros r Hr. rewrite fold_update_row. unfold updated_row.
  destruct (dict_get m (cell_at "station_id" r)) as [new |] eqn:Hget;
    [| reflexivity].
  rewrite visited_station; [reflexivity | | apply in_map, Hr].
  unfold dict_get in Hget.
  destruct (List.find _ m) as [p |] eqn:Hfind; [| discriminate].
  apply find_some in Hfind as [_ Heq]. exact (cell_eqb_refl_l _ _ Heq).
Qed.

(** X14: updating a table twice from the same update table (another
    object than the table) gives what updating it once gives: the second
    call returns the same object and leaves every row as the first call
    left it. *)
Theorem update_coordinates_twice (data coordinates_df : loc)
    (id_col lat_col lon_col : string) (w : World) (t c : DataFrame)
    (m : list (cell * (cell * cell))) :
  data ≠ coordinates_df ->
  heap w !! data = Some (ODataFrame t) ->
  heap w !! coordinates_df = Some (ODataFrame c) ->
  coord_map_of c id_col lat_col lon_col = Return m ->
  "station_id" ∈ columns t -> "lat" ∈ columns t -> "lon" ∈ columns t ->
  exists w1 w2,
    update_coordinates data coordinates_df id_col lat_col lon_col w
      = (w1, Return data)
    /\ update_coordinates data coordinates_df id_col lat_col lon_col w1
       = (w2, Return data)
    /\ heap w2 = heap w1.
Proof.
  intros Hne Hdata Hcoords Hmap Hsid Hlat Hlon.
  pose proof (lookup_lt_Some _ _ _ Hdata) as Hbound.
  destruct (update_coordinates_table_run data coordinates_df id_col lat_col lon_col
              w t c m Hdata Hcoords Hmap Hsid Hlat Hlon) as (events & Hrun).
  match type of Hrun with
  | _ = (?w0, _) =>
      destruct (update_coordinates_table_run data coordinates_df id_col lat_col
                  lon_col w0
                  (mkDataFrame (index_names t) (columns t)
                     (map (updated_row m) (rows t))) c m) as (events' & Hrun');
        try assumption
  end.
  { cbn [heap]. apply list_lookup_insert_eq. exact Hbound. }
  { cbn [heap]. rewrite list_lookup_insert_ne by exact Hne. exact Hcoords. }
  eexists _, _. split; [exact Hrun |]. split; [exact Hrun' |].
  cbn [heap index_names columns rows].
  rewrite list_insert_insert_eq, map_map.
  do 3 f_equal. apply map_ext. intros r. apply updated_row_idem.
Qed.

(** X15: two failures of [update_coordinates] happen before its [try] and
    reach the caller as they are, with no object changed and the tracker
    not started: the type error for data that is neither table nor
    dataset, and, for a table, the value error of an update table in which
    a station id occurs twice. *)
Theorem update_coordinates_early_failures (data coordinates_df : loc)
    (id_col lat_col lon_col : string) (w : World) :
  (heap w !! data = Some OOther ->
   update_coordinates data coordinates_df id_col lat_col lon_col w =
     (w, Raise (TypeError "Data must be a pandas DataFrame or xarray Dataset")))
  /\ (forall t c : DataFrame,
        heap w !! data = Some (ODataFrame t) ->
        heap w !! coordinates_df = Some (ODataFrame c) ->
        id_col ∈ columns c ->
        lat_col ∈ remove_column (columns c) id_col ->
        lon_col ∈ remove_column (columns c) id_col ->
        is_unique (map (cell_at id_col) (rows c)) = false ->
        update_coordinates data coordinates_df id_col lat_col lon_col w =
          (w, Raise (ValueError "DataFrame index must be unique for orient='index'."))).
Proof.
  split.
  - intros Hdata. unfold update_coordinates, bind, deref. rewrite Hdata. reflexivity.
  - intros t c Hdata Hcoords Hid Hlat Hlon Hdup.
    unfold update_coordinates. unfold bind at 1. unfold deref. rewrite Hdata.
    unfold bind at 1. rewrite (frame_at_run _ _ _ Hcoords).
    unfold bind at 1. unfold lift at 1.
    unfold coord_map_of, set_index, has_column.
    rewrite bool_decide_eq_true_2 by exact Hid. cbn [columns rows].
    rewrite !bool_decide_eq_true_2 by assumption. cbn. rewrite Hdup. reflexivity.
Qed.

End CoordinateUpdate.
Section DatasetUpdate.
Context `{Libraries}.

(** ** Coordinate update of a dataset *)

Lemma assign_first_axis_run (ds : Dataset) (a : DataArray) (vals : list nat -> cell)
    (d : string) (rest : list string) (n i : nat) (v stored : cell) :
  dims a = d :: rest ->
  dim_size ds d = Some n ->
  (i < n)%nat ->
  cast_element a v = Return stored ->
  forall min_ndim,
    min_ndim = (if (length (d :: rest) =? 1)%nat then 1%nat else 2%nat) ->
    assign_first_axis ds a vals min_ndim i v =
      Return (fun idx => match idx with
                         | j :: _ => if (j =? i)%nat then stored else vals idx
                         | [] => vals idx
                         end).
Proof.
  intros Hdims Hsize Hi Hcast min_ndim ->. unfold assign_first_axis.
  rewrite Hdims, Hsize.
  replace (length (d :: rest) <? _)%nat with false.
  - cbn -[Nat.ltb]. rewrite (proj2 (Nat.ltb_lt i n) Hi), Hcast. reflexivity.
  - symmetry. apply Nat.ltb_ge. destruct rest as [| d' rest']; cbn; lia.
Qed.

(** The loop of the array variant over the stations at the positions [l]:
    position by position, the two copies hold what was stored for the
    replacement where the station has one and their former element
    elsewhere. *)
Lemma update_arrays_run (ds : Dataset) (ids lat lon : DataArray)
    (m : list (cell * (cell * cell))) (n_stations : nat)
    (d : string) (rest : list string) (n : nat) :
  dims lat = d :: rest ->
  dims lon = d :: rest ->
  dim_size ds d = Some n ->
  forall (l : list nat) (updated : (list nat -> cell) * (list nat -> cell))
         (w : World),
    (forall i, In i l -> (i < n)%nat) ->
    (forall i new, In i l -> dict_get m (values ids [i]) = Some new ->
                   stored_as lat lon new) ->
    exists events updated',
      update_arrays ds lat lon m n_stations
        (map (fun i => (i, Some (values ids [i]))) l) updated w
      = (mkWorld (heap w) (progress w ++ events), Return updated')
      /\ forall (j : nat) (more : list nat),
           match dict_get m (values ids [j]) with
           | Some new =>
               if existsb (Nat.eqb j) l
               then cast_element lat (fst new) = Return (fst updated' (j :: more))
                    /\ cast_element lon (snd new) = Return (snd updated' (j :: more))
               else fst updated' (j :: more) = fst updated (j :: more)
                    /\ snd updated' (j :: more) = snd updated (j :: more)
           | None =>
               fst updated' (j :: more) = fst updated (j :: more)
               /\ snd updated' (j :: more) = snd updated (j :: more)
           end.
Proof.
  intros Hlat Hlon Hsize.
  induction l as [| i l IH]; intros updated w Hbound Hcast.
  - exists [], updated. cbn. rewrite app_nil_r. split; [destruct w; reflexivity |].
    intros j more. destruct (dict_get m (values ids [j])); auto.
  - cbn [map update_arrays].
    assert (Hi : (i < n)%nat) by (apply Hbound; left; reflexivity).
    assert (Hstep : exists updated1,
      (match dict_get m (values ids [i]) with
       | Some new =>
           la <- lift (assign_first_axis ds lat (fst updated)
                         (if (length (dims lat) =? 1)%nat then 1%nat else 2%nat)
                         i (fst new)) ;;
           lo <- lift (assign_first_axis ds lon (snd updated)
                         (if (length (dims lat) =? 1)%nat then 1%nat else 2%nat)
                         i (snd new)) ;;
           ret (la, lo)
       | None => ret updated
       end) w = (w, Return updated1)
      /\ forall (j : nat) (more : list nat),
           match dict_get m (values ids [i]) with
           | Some new =>
               if (j =? i)%nat
               then cast_element lat (fst new) = Return (fst updated1 (j :: more))
                    /\ cast_element lon (snd new) = Return (snd updated1 (j :: more))
               else fst updated1 (j :: more) = fst updated (j :: more)
                    /\ snd updated1 (j :: more) = snd updated (j :: more)
           | None =>
               fst updated1 (j :: more) = fst updated (j :: more)
               /\ snd updated1 (j :: more) = snd updated (j :: more)
           end).
    { destruct (dict_get m (values ids [i])) as [new |] eqn:Hget.
      - destruct (Hcast i new (or_introl eq_refl) Hget)
          as ((la & Hla) & (lo & Hlo)).
        run_py.
        rewrite (assign_first_axis_run ds lat _ d rest n i _ la Hlat Hsize Hi Hla)
          by (rewrite Hlat; reflexivity).
        rewrite (assign_first_axis_run ds lon _ d rest n i _ lo Hlon Hsize Hi Hlo)
          by (rewrite Hlat; reflexivity).
        eexists. split; [reflexivity |]. intros j more. cbn.
        destruct (j =? i)%nat; auto.
      - exists updated. split; [reflexivity | auto]. }
    destruct Hstep as (updated1 & Hrun1 & Hspec1).
    unfold bind at 1. rewrite Hrun1. cbv beta iota.
    unfold bind at 1. unfold tracker_update, tell. cbv beta iota.
    match goal with |- context [update_arrays _ _ _ _ _ _ _ ?w1] =>
      destruct (IH updated1 w1) as (events & updated' & Hrun & Hspec)
    end.
    { intros i' Hi'. apply Hbound. right. exact Hi'. }
    { intros i' new Hi'. apply Hcast. right. exact Hi'. }
    rewrite Hrun. cbn [heap progress].
    eexists (_ :: events), updated'. rewrite <- app_assoc.
    split; [reflexivity |].
    intros j more. specialize (Hspec j more). specialize (Hspec1 j more).
    cbn [existsb].
    destruct (Nat.eqb_spec j i) as [-> | Hne].
    + cbn [orb]. destruct (dict_get m (values ids [i])) as [new |]; [| intuition congruence].
      destruct (existsb (Nat.eqb i) l); [exact Hspec |].
      destruct Hspec as [-> ->]. exact Hspec1.
    + cbn [orb]. destruct (dict_get m (values ids [j])) as [new |].
      * destruct (existsb (Nat.eqb j) l); [exact Hspec |].
        destruct Hspec as [-> ->].
        destruct (dict_get m (values ids [i])); exact Hspec1.
      * destruct Hspec as [-> ->].
        destruct (dict_get m (values ids [i])); exact Hspec1.
Qed.

Lemma zip_map_r {A B} (f : A -> B) (xs : list A) :
  zip xs (map f xs) = map (fun x => (x, f x)) xs.
Proof.
  induction xs as [| x xs IH]; [reflexivity |]. cbn. f_equal. exact IH.
Qed.

Lemma existsb_eqb_seq (j n : nat) : (j < n)%nat -> existsb (Nat.eqb j) (seq 0 n) = true.
Proof.
  intros Hj. apply existsb_exists. exists j. split; [| apply Nat.eqb_refl].
  apply in_seq. lia.
Qed.

(** X16: the array variant of [update_coordinates], on a dataset whose
    station ids form a one-dimensional array and whose [lat] and [lon]
    arrays have the station dimension as their first axis, the array
    library accepting every replacement it is given to store: the call
    returns the very dataset object it was given, with two arrays assigned
    to it under the names [lat] and [lon]; at every position of a station
    that has an entry in the update table these hold what the array
    library stores for the replacement latitude and longitude in an array
    of the element type of [lat] and of [lon] (the replacement converted
    to that type), whatever the further indices, and at the positions of
    every other station what they held before. *)
Theorem update_coordinates_dataset (data coordinates_df : loc)
    (id_col lat_col lon_col : string) (w : World) (ds : Dataset) (c : DataFrame)
    (m : list (cell * (cell * cell))) (ids lat lon : DataArray)
    (d : string) (rest : list string) (n : nat) :
  heap w !! data = Some (ODataset ds) ->
  heap w !! coordinates_df = Some (ODataFrame c) ->
  coord_map_of c id_col lat_col lon_col = Return m ->
  ds_getitem ds "station_id" = Return ids ->
  ds_getitem ds "lat" = Return lat ->
  ds_getitem ds "lon" = Return lon ->
  dims ids = [d] -> dims lat = d :: rest -> dims lon = d :: rest ->
  dim_size ds d = Some n ->
  (forall j new, (j < n)%nat -> dict_get m (values ids [j]) = Some new ->
                 stored_as lat lon new) ->
  exists w' new_lat new_lon,
    update_coordinates data coordinates_df id_col lat_col lon_col w
      = (w', Return data)
    /\ heap w'
       = <[data := ODataset
                      (ds_setitem
                         (ds_setitem ds "lat" (mkDataArray (dims lat) new_lat))
                         "lon" (mkDataArray (dims lon) new_lon))]> (heap w)
    /\ forall (j : nat) (more : list nat),
         (j < n)%nat ->
         match dict_get m (values ids [j]) with
         | Some new =>
             cast_element lat (fst new) = Return (new_lat (j :: more))
             /\ cast_element lon (snd new) = Return (new_lon (j :: more))
         | None =>
             new_lat (j :: more) = values lat (j :: more)
             /\ new_lon (j :: more) = values lon (j :: more)
         end.
Proof.
  intros Hdata Hcoords Hmap Hids Hlatv Hlonv Hdi Hdlat Hdlon Hsize Hcast.
  unfold update_coordinates. unfold bind at 1. unfold deref. rewrite Hdata.
  unfold bind at 1. rewrite (frame_at_run _ _ _ Hcoords).
  unfold bind at 1. unfold lift at 1. rewrite Hmap.
  unfold bind at 1. unfold lift at 1. rewrite Hids.
  unfold bind at 1. unfold lift at 1. unfold first_axis_items.
  rewrite Hdi, Hsize. cbn [from_option id].
  unfold bind at 1. unfold ProgressTracker, tell.
  unfold try_except.
  unfold bind at 1. unfold lift at 1. rewrite Hlatv.
  unfold bind at 1. unfold lift at 1. rewrite Hlonv.
  unfold enumerate. rewrite length_map, length_seq.
  rewrite zip_map_r.
  unfold bind at 1.
  match goal with |- context [update_arrays _ _ _ _ _ _ ?u ?w1] =>
    destruct (update_arrays_run ds ids lat lon m n d rest n Hdlat Hdlon Hsize
                (seq 0 n) u w1) as (events & updated' & Hrun & Hspec)
  end.
  { intros i Hi. apply in_seq in Hi. lia. }
  { intros i new Hi. apply Hcast. apply in_seq in Hi. lia. }
  rewrite Hrun. cbv beta iota.
  unfold bind, store, ret. cbn [heap progress].
  eexists _, (fst updated'), (snd updated'). split; [reflexivity |].
  split; [reflexivity |].
  intros j more Hj. specialize (Hspec j more).
  rewrite (existsb_eqb_seq j n Hj) in Hspec.
  destruct (dict_get m (values ids [j])); exact Hspec.
Qed.

End DatasetUpdate.

Section ResamplingEdges.
Context `{Libraries}.

(** ** Daily resampling: failures and the shape of the result *)

Lemma add_column_absent (cs : list string) (c : string) :
  c ∉ cs -> add_column cs c = cs ++ [c].
Proof. intros Hc. unfold add_column. rewrite bool_decide_eq_false_2; done. Qed.

Lemma setitem_columns_present (t : DataFrame) (c : string) (vs : list cell) :
  c ∈ columns t -> columns (setitem t c vs) = columns t.
Proof. intros Hc. cbn. apply add_column_present, Hc. Qed.

(** X17: the two key errors of [convert_hourly_to_daily] happen before its
    [try] and reach the caller as they are, the tracker not started.  A
    table without the time column is left as it is.  A table that has the
    time column but no [station_id] column is left with its time column
    already coerced. *)
Theorem convert_hourly_to_daily_key_errors (df : loc) (value_col time_col : string)
    (w : World) (t : DataFrame) :
  heap w !! df = Some (ODataFrame t) ->
  (time_col ∉ columns t ->
   convert_hourly_to_daily df value_col time_col w = (w, Raise (KeyError time_col)))
  /\ (forall col,
        time_col ∈ columns t ->
        pd_to_datetime (map (cell_at time_col) (rows t)) = Return col ->
        "station_id" ∉ columns t ->
        convert_hourly_to_daily df value_col time_col w =
          (mkWorld (<[df := ODataFrame (setitem t time_col col)]> (heap w))
             (progress w),
           Raise (KeyError "station_id"))).
Proof.
  intros Hdf. split.
  - intros Hout. unfold convert_hourly_to_daily, getitem_at.
    unfold bind at 1 2. rewrite (frame_at_run _ _ _ Hdf).
    unfold lift at 1, getitem at 1, has_column.
    rewrite bool_decide_eq_false_2 by exact Hout. reflexivity.
  - intros col Htime Hcol Hsid.
    destruct (convert_hourly_to_daily_run df value_col time_col w t col Hdf Htime Hcol)
      as (events & Hrun).
    cbv zeta in Hrun. rewrite Hrun. unfold getitem, has_column.
    rewrite setitem_columns_present by exact Htime.
    rewrite bool_decide_eq_false_2 by exact Hsid. reflexivity.
Qed.

(** X18: a table without rows cannot be converted: there is no station,
    hence no daily table to concatenate, and the call ends in the runtime
    error - after it has started and closed the tracker. *)
Theorem convert_hourly_to_daily_empty (df : loc) (value_col time_col : string)
    (w : World) (t : DataFrame) :
  heap w !! df = Some (ODataFrame t) ->
  rows t = [] ->
  time_col ∈ columns t ->
  "station_id" ∈ columns t ->
  exists w',
    convert_hourly_to_daily df value_col time_col w =
      (w', Raise (RuntimeError
                    ("Error during hourly to daily conversion: "
                     +:+ str (ValueError "No objects to concatenate"))))
    /\ progress w' = progress w ++ [TrackerStart 0 "Converting hourly to daily data"
                                      "stations";
                                    TrackerClose].
Proof.
  intros Hdf Hrows Htime Hsid.
  assert (Hcol : pd_to_datetime (map (cell_at time_col) (rows t)) = Return [])
    by (rewrite Hrows; reflexivity).
  unfold convert_hourly_to_daily, getitem_at, setitem_at.
  unfold bind at 1 2. rewrite (frame_at_run _ _ _ Hdf).
  unfold lift at 1, getitem at 1, has_column.
  rewrite bool_decide_eq_true_2 by exact Htime.
  unfold bind at 1. unfold lift at 1. rewrite Hcol.
  unfold bind at 1 2. rewrite (frame_at_run _ _ _ Hdf).
  unfold store. cbn [heap progress].
  unfold bind at 1 2. erewrite frame_at_run
    by (cbn [heap]; apply list_lookup_insert_eq; exact (lookup_lt_Some _ _ _ Hdf)).
  unfold lift at 1, getitem, has_column.
  rewrite setitem_columns_present by exact Htime.
  rewrite bool_decide_eq_true_2 by exact Hsid.
  cbn [rows setitem]. rewrite Hrows. cbn.
  eexists. split; [reflexivity |]. cbn. rewrite <- app_assoc. reflexivity.
Qed.

Lemma daily_table_columns (t : DataFrame) (value_col time_col : string)
    (sid : cell) (daily : DataFrame) :
  daily_table t value_col time_col sid = Return daily ->
  columns daily = add_column [time_col; value_col] "station_id"
  /\ index_names daily = [].
Proof.
  unfold daily_table, getitem.
  destruct (has_column t "station_id"); [| discriminate].
  unfold set_index. destruct (has_column (loc_mask t _) time_col); [| discriminate].
  unfold resample_daily_mean. cbn [index_names rows].
  destruct (map_outcome _ _); [| discriminate].
  destruct (has_column _ value_col); [| discriminate].
  destruct (map_outcome _ _); [| discriminate].
  intros [= <-]. split; reflexivity.
Qed.

Lemma daily_tables_columns (t : DataFrame) (value_col time_col : string)
    (ids : list cell) (ds : list DataFrame) :
  Forall2 (fun sid d => daily_table t value_col time_col sid = Return d) ids ds ->
  Forall (fun d => columns d = add_column [time_col; value_col] "station_id") ds.
Proof.
  induction 1 as [| sid d ids ds Hd _ IH]; constructor; [| exact IH].
  apply daily_table_columns in Hd as [Hd _]. exact Hd.
Qed.

Lemma fold_add_three (a b c : string) :
  a ≠ b -> a ≠ c -> b ≠ c -> fold_left add_column [a; b; c] [] = [a; b; c].
Proof.
  intros Hab Hac Hbc. cbn.
  rewrite (add_column_absent [] a) by apply not_elem_of_nil. cbn.
  rewrite (add_column_absent [a] b)
    by (rewrite list_elem_of_singleton; congruence). cbn.
  rewrite (add_column_absent [a; b] c); [reflexivity |].
  rewrite !elem_of_cons, elem_of_nil. intuition congruence.
Qed.

(** X19: the table [convert_hourly_to_daily] returns has the default index
    and exactly three columns, the time, the value and [station_id] (the
    names being distinct): every further column of the input is dropped,
    and so is every row whose station id is missing - a row of the result
    holds nothing but its three cells, and its station id is never
    missing. *)
Theorem convert_hourly_to_daily_shape (df : loc) (value_col time_col : string)
    (w w' : World) (out : loc) (t : DataFrame) :
  heap w !! df = Some (ODataFrame t) ->
  convert_hourly_to_daily df value_col time_col w = (w', Return out) ->
  time_col ≠ value_col -> time_col ≠ "station_id" -> value_col ≠ "station_id" ->
  exists result,
    heap w' !! out = Some (ODataFrame result)
    /\ index_names result = []
    /\ columns result = [time_col; value_col; "station_id"]
    /\ forall r : row,
         r ∈ rows result ->
         (exists ns, r !! time_col = Some (CTime ns))
         /\ is_Some (r !! value_col)
         /\ isnull (cell_at "station_id" r) = false
         /\ forall k : string,
              k ≠ time_col -> k ≠ value_col -> k ≠ "station_id" -> r !! k = None.
Proof.
  intros Hdf Hrun Htv Hts Hvs.
  destruct (convert_hourly_to_daily_returns_inv _ _ _ _ _ _ _ Hdf Hrun)
    as [Htime [col Hcol]].
  pose proof (lookup_lt_Some _ _ _ Hdf) as Hbound.
  destruct (convert_hourly_to_daily_run df value_col time_col w t col Hdf Htime Hcol)
    as (events & Hrun').
  cbv zeta in Hrun'. rewrite Hrun' in Hrun. clear Hrun'.
  set (t1 := setitem t time_col col) in *.
  destruct (getitem t1 "station_id") as [ids |]; [| discriminate].
  destruct (map_outcome _ _) as [daily_data |] eqn:Hdaily in Hrun; [| discriminate].
  destruct (pd_concat daily_data) as [result |] eqn:Hconcat; [| discriminate].
  injection Hrun as <- <-. exists result. cbn [heap].
  apply map_outcome_Forall2 in Hdaily.
  assert (Hcs : add_column [time_col; value_col] "station_id"
                = [time_col; value_col; "station_id"]).
  { apply add_column_absent. intros Hin.
    apply elem_of_cons in Hin as [Heq | Hin]; [congruence |].
    apply list_elem_of_singleton in Hin. congruence. }
  split; [| split; [| split]].
  - rewrite lookup_app_r by (rewrite length_insert; lia).
    rewrite length_insert, Nat.sub_diag. reflexivity.
  - unfold pd_concat in Hconcat. destruct daily_data; [discriminate |].
    injection Hconcat as <-. reflexivity.
  - pose proof (daily_tables_columns _ _ _ _ _ Hdaily) as Hall.
    rewrite Hcs in Hall.
    unfold pd_concat in Hconcat. destruct daily_data as [| d0 more]; [discriminate |].
    injection Hconcat as <-. cbn [columns].
    apply (concat_columns _ (d0 :: more)); [| exact Hall | discriminate].
    apply fold_add_three; congruence.
  - intros r Hr. rewrite (pd_concat_rows _ _ Hconcat) in Hr.
    apply list_elem_of_In, in_concat in Hr as (block & Hblock & Hr).
    apply in_map_iff in Hblock as (d & <- & Hd).
    assert (Hsid : exists sid, daily_table t1 value_col time_col sid = Return d).
    { clear -Hdaily Hd. induction Hdaily as [| sid d' ids' ds Hd' _ IH];
        [destruct Hd |].
      destruct Hd as [<- | Hd]; eauto. }
    destruct Hsid as (sid & Hsid).
    rewrite (daily_table_rows _ _ _ _ _ Hsid) in Hr.
    assert (Hobs : station_obs t1 value_col time_col sid ≠ []).
    { intros Hnil. rewrite Hnil in Hr. destruct Hr. }
    apply in_map_iff in Hr as (day & <- & _).
    unfold daily_row, cell_at. split; [| split; [| split]].
    + exists (day * ns_per_day)%Z.
      do 2 (rewrite lookup_insert_ne by (apply not_eq_sym; assumption)).
      apply lookup_singleton_eq.
    + rewrite lookup_insert_ne by (apply not_eq_sym; assumption).
      rewrite lookup_insert_eq. eauto.
    + rewrite lookup_insert_eq. cbn.
      unfold station_obs, station_rows in Hobs.
      destruct (List.filter _ (rows t1)) as [| r0 rs] eqn:Hrows;
        [exfalso; apply Hobs; reflexivity |].
      assert (Hin : In r0 (List.filter
                             (fun r => cell_eqb (cell_at "station_id" r) sid)
                             (rows t1))) by (rewrite Hrows; left; reflexivity).
      apply filter_In in Hin as [_ Heq].
      rewrite cell_eqb_sym in Heq. exact (cell_eqb_notnull _ _ Heq).
    + intros k Hk1 Hk2 Hk3.
      do 2 (rewrite lookup_insert_ne by (apply not_eq_sym; assumption)).
      apply lookup_singleton_ne, not_eq_sym, Hk1.
Qed.

End ResamplingEdges.

Section Preprocessing.
Context `{Libraries}.

(** ** The two preprocessors side by side *)

(** X20: on a dataset valid for both, [preprocess_swe] and
    [preprocess_precip] return tables with the same columns and as many
    rows as the flattened dataset; row for row the two agree in every cell
    but [data_source] and [time], and with the flattened dataset in every
    cell but [data_source], [units] and, for precipitation, [time].  Only
    [preprocess_precip] coerces the time: where the flattened table has a
    [time] column its rows hold a date-time there. *)
Theorem preprocessors_agree (ds : Dataset) (df : DataFrame) (w : World) :
  flattened ds df ->
  (has_column df "time" = true ->
   exists col, pd_to_datetime (map (cell_at "time") (rows df)) = Return col) ->
  exists w1 w2 swe precip,
    preprocess_swe ds w = (w1, Return swe)
    /\ preprocess_precip ds w = (w2, Return precip)
    /\ columns swe = columns precip
    /\ length (rows swe) = length (rows df)
    /\ length (rows precip) = length (rows df)
    /\ forall (i : nat) (r : row),
         rows df !! i = Some r ->
         exists rs rp : row,
           rows swe !! i = Some rs
           /\ rows precip !! i = Some rp
           /\ (forall k : string,
                 k ≠ "data_source" -> k ≠ "units" -> rs !! k = r !! k)
           /\ (forall k : string,
                 k ≠ "data_source" -> k ≠ "time" -> rp !! k = rs !! k)
           /\ (has_column df "time" = true ->
               exists ns, rp !! "time" = Some (CTime ns)).
Proof.
  intros Hflat Htime.
  destruct (preprocess_swe_run ds df w Hflat) as (w1 & Hswe).
  destruct (preprocess_precip_run ds df w Hflat Htime) as (w2 & df1 & Hprecip & Hdf1).
  eexists _, _, _, _. split; [exact Hswe |]. split; [exact Hprecip |].
  destruct (has_column df "time") eqn:Hcol.
  - destruct Hdf1 as (col & Hcoerce & ->).
    pose proof (pd_to_datetime_cells _ _ Hcoerce) as Hcells.
    assert (Hlen : length col = length (rows df)).
    { apply Forall2_length in Hcells. rewrite length_map in Hcells. lia. }
    split.
    { cbn. rewrite (add_column_present (columns df) "time"); [reflexivity |].
      exact (bool_decide_eq_true_1 _ Hcol). }
    split; [cbn; rewrite !length_map; reflexivity |].
    split.
    { cbn. rewrite !length_map, length_zip_with. lia. }
    intros i r Hr. cbn [rows setitem_const setitem].
    destruct (zip_with_insert_lookup "time" _ _ i r Hlen Hr) as (v & Hv & Hzip).
    rewrite !lookup_map, Hr, Hzip. cbn.
    eexists _, _. split; [reflexivity |]. split; [reflexivity |].
    split; [| split].
    + intros k Hk1 Hk2. rewrite !lookup_insert_ne by (apply not_eq_sym; assumption).
      reflexivity.
    + intros k Hk1 Hk2. rewrite !lookup_insert.
      repeat case_decide; subst; try reflexivity; congruence.
    + intros _. do 2 (rewrite lookup_insert_ne by discriminate).
      rewrite lookup_insert_eq.
      assert (Hctime : exists ns, v = CTime ns).
      { clear -Hcells Hv. revert i Hv.
        induction Hcells as [| c c' s col' Hc _ IH]; intros [| i] Hv;
          try discriminate; cbn in Hv.
        - injection Hv as <-. exact Hc.
        - exact (IH i Hv). }
      destruct Hctime as (ns & ->). eauto.
  - subst df1. split; [reflexivity |].
    split; [cbn; rewrite !length_map; reflexivity |].
    split; [cbn; rewrite !length_map; reflexivity |].
    intros i r Hr. cbn [rows setitem_const].
    rewrite !lookup_map, Hr. cbn.
    eexists _, _. split; [reflexivity |]. split; [reflexivity |].
    split; [| split].
    + intros k Hk1 Hk2. rewrite !lookup_insert_ne by (apply not_eq_sym; assumption).
      reflexivity.
    + intros k Hk1 Hk2. rewrite !lookup_insert.
      repeat case_decide; subst; try reflexivity; congruence.
    + discriminate.
Qed.

End Preprocessing.

(** * The statements on the example data *)

#[local] Existing Instance Example.lib.

Lemma preprocess_metadata_columns_witness :
  (exists w' df flat,
     flattened Example.canswe flat
     /\ preprocess_swe Example.canswe Example.empty_world = (w', Return df)
     /\ index_names df = index_names flat
     /\ columns df = add_column (add_column (columns flat) "data_source") "units"
     /\ rows df
        = map (fun r : row =>
                 <["units" := CStr "mm"]> (<["data_source" := CStr "SWE"]> r))
            (rows flat)
     /\ Forall (fun r : row => r !! "data_source" = Some (CStr "SWE")
                               /\ r !! "units" = Some (CStr "mm")) (rows df))
  /\ (exists w' df flat,
        flattened Example.canswe flat
        /\ preprocess_precip Example.canswe Example.empty_world = (w', Return df)
        /\ index_names df = index_names flat
        /\ columns df = add_column (add_column (columns flat) "data_source") "units"
        /\ length (rows df) = length (rows flat)
        /\ (forall (i : nat) (r : row),
              rows flat !! i = Some r ->
              exists r' : row,
                rows df !! i = Some r'
                /\ forall k : string,
                     k ≠ "data_source" -> k ≠ "units" -> k ≠ "time" ->
                     r' !! k = r !! k)
        /\ Forall (fun r : row => r !! "data_source" = Some (CStr "Precipitation")
                                  /\ r !! "units" = Some (CStr "mm")) (rows df)).
Proof.
  destruct (preprocess_metadata_columns Example.canswe Example.empty_world)
    as [Hswe Hprecip].
  split.
  - apply Hswe. eexists. split; [reflexivity |].
    intros _. eexists. reflexivity.
  - apply Hprecip. eexists. split.
    + eexists. split; reflexivity.
    + intros _. eexists. reflexivity.
Defined.

Lemma filter_stations_missing_column_witness :
  ("station_id" ∉ columns Example.unnamed_table)
  /\ filter_stations (ODataFrame Example.unnamed_table) [CStr "A"] Example.empty_world =
       (mkWorld [] [TrackerStart 2 "Filtering stations" "steps";
                    TrackerUpdate 1 "Validating input data";
                    TrackerClose],
        Raise (RuntimeError
                 "Error during station filtering: DataFrame does not contain 'station_id' column")).
Proof.
  assert (Hmissing : "station_id" ∉ columns Example.unnamed_table) by decide_elem.
  split; [exact Hmissing |].
  exact (filter_stations_missing_column Example.unnamed_table [CStr "A"]
           Example.empty_world Hmissing).
Defined.

Lemma spatial_join_rejects_witness :
  join_precondition_violated Example.roads Example.basins
  /\ exists msg events,
       spatial_join Example.roads Example.basins "inner" "intersects"
         Example.empty_world
       = (mkWorld [] events, Raise (RuntimeError msg))
       /\ forall n, TrackerUpdate n "Executing spatial join" ∉ events.
Proof.
  assert (Hbad : join_precondition_violated Example.roads Example.basins).
  { left. eexists. split.
    - apply list_elem_of_In. right. left. reflexivity.
    - reflexivity. }
  split; [exact Hbad |].
  exact (spatial_join_rejects Example.roads Example.basins "inner" "intersects"
           Example.empty_world Hbad).
Defined.

Lemma extract_second_component_witness :
  exists w' res buf,
    extract_stations_in_basin Example.stations Example.basins "05BB001" 3
      Example.empty_world = (w', Return (res, buf))
    /\ ((3 == 0)%Q -> buf = Int 0)
    /\ ((0 < 3)%Q -> (exists s, buf = Series s) /\ buf ≠ Int 0).
Proof.
  evaluate (extract_stations_in_basin Example.stations Example.basins "05BB001" 3
              Example.empty_world) Hrun.
  eexists _, _, _. split; [exact Hrun |].
  exact (extract_second_component _ _ _ _ _ _ _ _ Hrun).
Defined.

(** C6, on two collections in NAD83 (EPSG:4269) and a buffer of 3 km: the
    call returns a buffer tagged EPSG:4326, not the system the collections
    came in. *)
Lemma extract_buffer_crs_not_original :
  crs Example.stations = Some 4269%Z
  /\ crs Example.basins = Some 4269%Z
  /\ exists w' res s,
       extract_stations_in_basin Example.stations Example.basins "05BB001" 3
         Example.empty_world = (w', Return (res, Series s))
       /\ series_crs s = Some 4326%Z
       /\ series_crs s ≠ crs Example.stations.
Proof.
  split; [reflexivity |]. split; [reflexivity |].
  evaluate (extract_stations_in_basin Example.stations Example.basins "05BB001" 3
              Example.empty_world) Hrun.
  eexists _, _, _. split; [exact Hrun |].
  split; [reflexivity | discriminate].
Qed.

Lemma extract_stations_within_witness :
  exists w' res buf,
    extract_stations_in_basin Example.stations Example.basins "05BB001" 3
      Example.empty_world = (w', Return (res, buf))
    /\ exists g,
         basin_polygon Example.basins "05BB001" = Some g
         /\ forall r : row,
              r ∈ rows (frame res) <->
              exists r0 : row,
                r0 ∈ rows (frame Example.stations)
                /\ station_in_basin Example.stations Example.basins g 3 r0 = true
                /\ r = <["basin" := CStr "05BB001"]> r0.
Proof.
  evaluate (extract_stations_in_basin Example.stations Example.basins "05BB001" 3
              Example.empty_world) Hrun.
  eexists _, _, _. split; [exact Hrun |].
  exact (extract_stations_within _ _ _ _ _ _ _ _ Hrun).
Defined.

Lemma availability_of_station_witness :
  exists w' av a',
    assess_data_availability Example.canswe "time" "station_id"
      Example.empty_world = (w', Return av)
    /\ data_vars av !! 0%nat = Some ("snw", a')
    /\ forall j s : nat,
         axis_of "station_id" (dims a') = Some j ->
         (is_Some (axis_of "time" (dims Example.snw)) ->
          (forall idx t, idx !! j = Some s -> (t < 2)%nat ->
                         notnull (observation "time" Example.snw idx t) = true) ->
          forall idx, idx !! j = Some s ->
                      exists q, values a' idx = CNum q /\ (q == 100)%Q)
         /\ ((forall idx t, idx !! j = Some s -> (t < 2)%nat ->
                            isnull (observation "time" Example.snw idx t) = true) ->
             forall idx, idx !! j = Some s ->
                         exists q, values a' idx = CNum q /\ (q == 0)%Q).
Proof.
  apply (availability_of_station Example.canswe "time" "station_id"
           Example.empty_world 2 0 "snw" Example.snw).
  - reflexivity.
  - lia.
  - reflexivity.
Defined.

(** C5 as it is worded fails on a variable that has no time dimension: with
    two time steps the latitude of a station, which is never missing, is
    reported as 50 percent available. *)
Lemma full_availability_counterexample :
  ~ full_availability_claim Example.canswe "time" "station_id" Example.empty_world.
Proof.
  intros Hclaim.
  destruct (Hclaim
              (fst (assess_data_availability Example.canswe "time" "station_id"
                      Example.empty_world))
              (ds_map (cell_mul 100)
                 (ds_map (cell_div 2)
                    (mkDataset [("station_id", 2%nat)]
                       [("snw", count_var "time" 2 Example.snw);
                        ("lat", count_var "time" 2 Example.lat)] [])))
              2%nat 1%nat 0%nat 0%nat "lat" Example.lat
              (mkDataArray ["station_id"]
                 (fun idx => cell_mul 100
                               (cell_div 2 (values (count_var "time" 2 Example.lat) idx))))
              eq_refl ltac:(lia) eq_refl eq_refl eq_refl eq_refl
              (fun _ _ _ _ => eq_refl) [0%nat] eq_refl)
    as (q & Hq & Hfull).
  cbn in Hq. injection Hq as <-. discriminate Hfull.
Qed.

Lemma update_coordinates_in_place_witness :
  exists w' t',
    update_coordinates 0 1 "station_id" "New_Lat" "New_Lon" Example.coordinates_world
      = (w', Return 0%nat)
    /\ heap w' = <[0%nat := ODataFrame t']> (heap Example.coordinates_world)
    /\ index_names t' = index_names Example.located_stations
    /\ columns t' = columns Example.located_stations
    /\ length (rows t') = length (rows Example.located_stations)
    /\ forall (i : nat) (r : row),
         rows Example.located_stations !! i = Some r ->
         exists r' : row,
           rows t' !! i = Some r'
           /\ (forall u : row,
                 u ∈ rows Example.new_coordinates ->
                 cell_eqb (cell_at "station_id" u) (cell_at "station_id" r) = true ->
                 r' !! "lat" = Some (cell_at "New_Lat" u)
                 /\ r' !! "lon" = Some (cell_at "New_Lon" u)
                 /\ forall k : string, k ≠ "lat" -> k ≠ "lon" -> r' !! k = r !! k)
           /\ ((forall u : row,
                  u ∈ rows Example.new_coordinates ->
                  cell_eqb (cell_at "station_id" u) (cell_at "station_id" r) = false) ->
               r' = r).
Proof.
  apply (update_coordinates_in_place 0 1 "station_id" "New_Lat" "New_Lon"
           Example.coordinates_world Example.located_stations
           Example.new_coordinates [(CStr "A", (CNum 51, CNum (-114)))]).
  - reflexivity.
  - reflexivity.
  - reflexivity.
  - decide_elem.
  - decide_elem.
  - decide_elem.
Defined.

Lemma convert_hourly_to_daily_mutates_witness :
  exists w' out,
    convert_hourly_to_daily 0 "swe" "time" Example.hourly_world = (w', out)
    /\ heap w' !! 0%nat
       = Some (ODataFrame
                 (setitem Example.hourly "time"
                    [CTime (1 * Example.hour); CTime (12 * Example.hour);
                     CTime (51 * Example.hour); CTime (18 * Example.hour)]))
    /\ length (rows (setitem Example.hourly "time"
                       [CTime (1 * Example.hour); CTime (12 * Example.hour);
                        CTime (51 * Example.hour); CTime (18 * Example.hour)]))
       = length (rows Example.hourly)
    /\ Forall (fun r' : row => exists v, r' !! "time" = Some v
                                          /\ exists ns, v = CTime ns)
         (rows (setitem Example.hourly "time"
                  [CTime (1 * Example.hour); CTime (12 * Example.hour);
                   CTime (51 * Example.hour); CTime (18 * Example.hour)]))
    /\ forall result : loc,
         out = Return result ->
         result ≠ 0%nat
         /\ heap Example.hourly_world !! result = None
         /\ is_Some (heap w' !! result).
Proof.
  apply (convert_hourly_to_daily_mutates 0 "swe" "time" Example.hourly_world
           Example.hourly).
  - reflexivity.
  - decide_elem.
  - reflexivity.
Defined.



(** The daily rows of station A in the example: the first day, the day in
    between (no value), the third day. *)
Lemma hourly_example_station_A :
  exists w' out t1 result,
    convert_hourly_to_daily 0 "swe" "time" Example.hourly_world = (w', Return out)
    /\ heap w' !! 0%nat = Some (ODataFrame t1)
    /\ heap w' !! out = Some (ODataFrame result)
    /\ map (fun r : row => (r !! "time", r !! "swe")) (station_rows result (CStr "A"))
       = [(Some (CTime 0), Some (CNum 2));
          (Some (CTime ns_per_day), Some CNaN);
          (Some (CTime (2 * ns_per_day)), Some (CNum 4))]
    /\ distinct_days (station_obs t1 "swe" "time" (CStr "A")) = 2%nat.
Proof.
  evaluate (convert_hourly_to_daily 0 "swe" "time" Example.hourly_world) Hrun.
  eexists _, _, _, _. split; [exact Hrun |].
  split; [reflexivity |]. split; [reflexivity |].
  split; vm_compute; reflexivity.
Qed.

(** The availability of the example dataset: station 0 has every snow
    reading, station 1 one of two; the latitude, a variable without the
    time dimension, reads 50 for both. *)
Lemma availability_example :
  exists w' av,
    assess_data_availability Example.canswe "time" "station_id"
      Example.empty_world = (w', Return av)
    /\ map (fun p => (fst p, dims (snd p),
                      values (snd p) [0%nat], values (snd p) [1%nat]))
         (data_vars av)
       = [("snw", ["station_id"], CNum (200 # 2), CNum (100 # 2));
          ("lat", ["station_id"], CNum (100 # 2), CNum (100 # 2))].
Proof.
  eexists _, _. split; reflexivity.
Qed.

(** * The further properties on the example data *)

#[local] Existing Instance Example.points.

Lemma table_errors_are_wrapped_witness :
  wrapped "Error during station filtering: "
    (filter_stations (ODataFrame Example.unnamed_table) [CStr "A"])
  /\ reports "Error during station filtering: "
       (ValueError "DataFrame does not contain 'station_id' column")
       (filter_stations (ODataFrame Example.unnamed_table) [CStr "A"])
       Example.empty_world
  /\ reports "Error during data availability assessment: "
       (ValueError "Dataset does not contain the dimensions: day")
       (assess_data_availability Example.canswe "day" "station_id")
       Example.empty_world
  /\ exists w' df, preprocess_swe Example.canswe Example.empty_world = (w', Return df).
Proof.
  destruct table_errors_are_wrapped
    as ((_ & _ & Hwrapped & _) & Hswe & _ & Hfilter & Havailability).
  split; [apply Hwrapped |].
  split; [exact (Hfilter (ODataFrame Example.unnamed_table) [CStr "A"]
                   Example.empty_world) |].
  split; [exact (Havailability Example.canswe "day" "station_id"
                   Example.empty_world) |].
  exact (Hswe Example.canswe Example.empty_world).
Defined.

Lemma geospatial_errors_are_wrapped_witness :
  wrapped "Error during GeoDataFrame conversion: "
    (convert_to_geodataframe Example.located_stations "lon" "lat" 4269)
  /\ reports "Error during GeoDataFrame conversion: "
       (ValueError "DataFrame must contain 'lon' and 'lat' columns")
       (convert_to_geodataframe Example.unnamed_table "lon" "lat" 4269)
       Example.empty_world
  /\ reports "Error during spatial join: "
       (ValueError "points_gdf must contain only Point geometries")
       (spatial_join Example.roads Example.basins "inner" "intersects")
       Example.empty_world
  /\ reports "Error during station extraction: "
       (ValueError "Cannot transform naive geometries.  Please set a crs on the object first.")
       (extract_stations_in_basin Example.untagged_stations Example.basins
          "05BB001" 3)
       Example.empty_world.
Proof.
  destruct geospatial_errors_are_wrapped
    as ((_ & Hwrapped & _) & Hextract & Hconvert & Hjoin).
  split; [apply Hwrapped |].
  split; [exact (Hconvert Example.unnamed_table "lon" "lat" 4269%Z
                   Example.empty_world) |].
  split; [exact (Hjoin Example.roads Example.basins "inner" "intersects"
                   Example.empty_world) |].
  exact (Hextract Example.untagged_stations Example.basins "05BB001" 3%Q
           Example.empty_world).
Defined.

Lemma filter_stations_composes_witness :
  exists w1 w2 once twice,
    filter_stations (ODataFrame Example.located_stations) [CStr "A"; CStr "B"]
      Example.empty_world = (w1, Return (ODataFrame once))
    /\ filter_stations (ODataFrame once) [CStr "B"; CStr "C"] w1
       = (w2, Return (ODataFrame twice))
    /\ columns once = columns Example.located_stations
    /\ columns twice = columns Example.located_stations
    /\ rows once
       = List.filter (listed [CStr "A"; CStr "B"]) (rows Example.located_stations)
    /\ rows twice
       = List.filter (fun r => listed [CStr "A"; CStr "B"] r
                               && listed [CStr "B"; CStr "C"] r)
           (rows Example.located_stations).
Proof.
  apply (filter_stations_composes Example.located_stations
           [CStr "A"; CStr "B"] [CStr "B"; CStr "C"] Example.empty_world).
  decide_elem.
Defined.

Lemma extract_unknown_basin_witness :
  extract_stations_in_basin Example.stations Example.basins "08NA002" 3
    Example.empty_world =
    (mkWorld [] [TrackerStart 3 "Extracting stations in basin" "steps";
                 TrackerUpdate 1 "Extracting basin geometry";
                 TrackerClose],
     Raise (RuntimeError
              ("Error during station extraction: "
               +:+ str (IndexError "single positional indexer is out-of-bounds")))).
Proof.
  apply (extract_unknown_basin Example.stations Example.basins "08NA002" 3
           Example.empty_world).
  - decide_elem.
  - intros r Hr.
    apply elem_of_cons in Hr as [-> | Hr]; [reflexivity |].
    apply elem_of_nil in Hr. destruct Hr.
Defined.

Lemma extract_unbuffered_ignores_crs_witness :
  (forall tag : option Z,
     extract_stations_in_basin Example.stations
       (mkGeoDataFrame (frame Example.basins) tag) "05BB001" 0 Example.empty_world
     = extract_stations_in_basin Example.stations Example.basins "05BB001" 0
         Example.empty_world)
  /\ (forall w' res buf,
        extract_stations_in_basin Example.stations Example.basins "05BB001" 0
          Example.empty_world = (w', Return (res, buf)) ->
        buf = Int 0).
Proof.
  apply (extract_unbuffered_ignores_crs Example.stations Example.basins "05BB001" 0
           Example.empty_world).
  apply Qle_refl.
Defined.

Lemma extract_result_shape_witness :
  exists w' res buf,
    extract_stations_in_basin Example.stations Example.basins "05BB001" 3
      Example.empty_world = (w', Return (res, buf))
    /\ crs res = crs Example.stations
    /\ columns (frame res) = add_column (columns (frame Example.stations)) "basin"
    /\ heap w' = heap Example.empty_world
    /\ exists kept : list row,
         kept `sublist_of` rows (frame Example.stations)
         /\ rows (frame res) = map (fun r : row => <["basin" := CStr "05BB001"]> r) kept.
Proof.
  evaluate (extract_stations_in_basin Example.stations Example.basins "05BB001" 3
              Example.empty_world) Hrun.
  eexists _, _, _. split; [exact Hrun |].
  exact (extract_result_shape _ _ _ _ _ _ _ _ Hrun).
Defined.

Lemma extract_buffer_needs_crs_witness :
  exists w' msg,
    extract_stations_in_basin Example.untagged_stations Example.basins "05BB001" 3
      Example.empty_world = (w', Raise (RuntimeError msg)).
Proof.
  apply (extract_buffer_needs_crs Example.untagged_stations Example.basins
           "05BB001" 3 Example.empty_world).
  - reflexivity.
  - reflexivity.
Defined.

Lemma availability_is_percentage_witness :
  exists w' av,
    assess_data_availability Example.canswe "time" "station_id"
      Example.empty_world = (w', Return av)
    /\ dim_size av "time" = None
    /\ map fst (data_vars av) = map fst (data_vars Example.canswe)
    /\ forall (i : nat) (name : string) (a : DataArray),
         data_vars Example.canswe !! i = Some (name, a) ->
         exists a',
           data_vars av !! i = Some (name, a')
           /\ (forall idx : list nat,
                 exists q, values a' idx = CNum q /\ (0 <= q <= 100)%Q)
           /\ (is_Some (axis_of "time" (dims a)) ->
               forall (idx1 idx2 : list nat) (q1 q2 : Q),
                 values a' idx1 = CNum q1 ->
                 values a' idx2 = CNum q2 ->
                 (count_notnull 2 (observation "time" a idx1)
                  <= count_notnull 2 (observation "time" a idx2))%nat ->
                 (q1 <= q2)%Q).
Proof.
  apply (availability_is_percentage Example.canswe "time" "station_id"
           Example.empty_world 2).
  - reflexivity.
  - lia.
Defined.

Lemma spatial_join_returns_iff_witness :
  joinable Example.stations Example.basins
  /\ exists w' joined,
       spatial_join Example.stations Example.basins "inner" "within"
         Example.empty_world = (w', Return joined).
Proof.
  assert (Hjoinable : joinable Example.stations Example.basins).
  { split; [reflexivity |]. split; reflexivity. }
  split; [exact Hjoinable |].
  evaluate (sjoin Example.stations Example.basins "inner" "within") Hjoin.
  destruct (proj2 (spatial_join_returns_iff Example.stations Example.basins
                     "inner" "within" Example.empty_world _)
              (conj Hjoinable Hjoin)) as (w' & Hrun).
  eexists _, _. exact Hrun.
Defined.

Lemma convert_to_geodataframe_points_witness :
  exists w' gdf,
    convert_to_geodataframe Example.located_stations "lon" "lat" 4269
      Example.empty_world = (w', Return gdf)
    /\ crs gdf = Some 4269%Z
    /\ columns (frame gdf) = add_column (columns Example.located_stations) "geometry"
    /\ length (rows (frame gdf)) = length (rows Example.located_stations)
    /\ forall (i : nat) (r : row),
         rows Example.located_stations !! i = Some r ->
         exists x y,
           cell_at "lon" r = CNum x
           /\ cell_at "lat" r = CNum y
           /\ rows (frame gdf) !! i = Some (<["geometry" := CGeom (Point x y)]> r).
Proof.
  apply (convert_to_geodataframe_points Example.located_stations "lon" "lat" 4269
           Example.empty_world).
  - intros x y. reflexivity.
  - decide_elem.
  - decide_elem.
  - repeat constructor; eexists _, _; split; reflexivity.
Defined.

Lemma converted_table_joins_witness :
  exists w1 gdf,
    convert_to_geodataframe Example.located_stations "lon" "lat" 4269
      Example.empty_world = (w1, Return gdf)
    /\ joinable gdf Example.basins
    /\ forall joined,
         sjoin gdf Example.basins "inner" "within" = Return joined ->
         exists w2,
           spatial_join gdf Example.basins "inner" "within" w1 = (w2, Return joined).
Proof.
  evaluate (convert_to_geodataframe Example.located_stations "lon" "lat" 4269
              Example.empty_world) Hrun.
  assert (Hpoints : makes_only_points).
  { intros x y c Hc.
    destruct x, y; try discriminate Hc; injection Hc as <-; reflexivity. }
  eexists _, _. split; [exact Hrun |].
  exact (converted_table_joins _ _ _ _ Example.basins "inner" "within" _ _ _
           Hpoints Hrun eq_refl eq_refl).
Defined.


Lemma filter_data_within_shape_failures_witness :
  exists df,
    to_dataframe Example.canswe = Return df
    /\ ("station_id" ∉ columns df)
    /\ filter_data_within_shape Example.canswe Example.basins Example.empty_world
       = (Example.empty_world, Raise (KeyError "station_id")).
Proof.
  evaluate (to_dataframe Example.canswe) Hdf.
  eexists. split; [exact Hdf |].
  assert (Hmissing : "station_id" ∉ ["snw"; "lat"]) by decide_elem.
  split; [exact Hmissing |].
  exact (proj1 (filter_data_within_shape_failures Example.canswe Example.basins _
                  Example.empty_world Hdf) Hmissing).
Defined.

Lemma update_coordinates_twice_witness :
  exists w1 w2,
    update_coordinates 0 1 "station_id" "New_Lat" "New_Lon" Example.coordinates_world
      = (w1, Return 0%nat)
    /\ update_coordinates 0 1 "station_id" "New_Lat" "New_Lon" w1
       = (w2, Return 0%nat)
    /\ heap w2 = heap w1.
Proof.
  apply (update_coordinates_twice 0 1 "station_id" "New_Lat" "New_Lon"
           Example.coordinates_world Example.located_stations
           Example.new_coordinates [(CStr "A", (CNum 51, CNum (-114)))]).
  - discriminate.
  - reflexivity.
  - reflexivity.
  - reflexivity.
  - decide_elem.
  - decide_elem.
  - decide_elem.
Defined.

Lemma update_coordinates_early_failures_witness :
  update_coordinates 0 0 "station_id" "New_Lat" "New_Lon" Example.other_world =
    (Example.other_world,
     Raise (TypeError "Data must be a pandas DataFrame or xarray Dataset"))
  /\ update_coordinates 0 1 "station_id" "New_Lat" "New_Lon" Example.repeated_world =
       (Example.repeated_world,
        Raise (ValueError "DataFrame index must be unique for orient='index'.")).
Proof.
  split.
  - apply (proj1 (update_coordinates_early_failures 0 0 "station_id" "New_Lat"
                    "New_Lon" Example.other_world)).
    reflexivity.
  - apply (proj2 (update_coordinates_early_failures 0 1 "station_id" "New_Lat"
                    "New_Lon" Example.repeated_world)
             Example.located_stations Example.repeated_coordinates).
    + reflexivity.
    + reflexivity.
    + decide_elem.
    + decide_elem.
    + decide_elem.
    + reflexivity.
Defined.

Lemma update_coordinates_dataset_witness :
  exists w' new_lat new_lon,
    update_coordinates 0 1 "station_id" "New_Lat" "New_Lon" Example.network_world
      = (w', Return 0%nat)
    /\ heap w'
       = <[0%nat := ODataset
                      (ds_setitem
                         (ds_setitem Example.network "lat"
                            (mkDataArray (dims Example.northing) new_lat))
                         "lon" (mkDataArray (dims Example.easting) new_lon))]>
           (heap Example.network_world)
    /\ forall (j : nat) (more : list nat),
         (j < 2)%nat ->
         match dict_get [(CStr "A", (CNum 51, CNum (-114)))]
                 (values Example.station_names [j]) with
         | Some new =>
             cast_element Example.northing (fst new) = Return (new_lat (j :: more))
             /\ cast_element Example.easting (snd new) = Return (new_lon (j :: more))
         | None =>
             new_lat (j :: more) = values Example.northing (j :: more)
             /\ new_lon (j :: more) = values Example.easting (j :: more)
         end.
Proof.
  apply (update_coordinates_dataset 0 1 "station_id" "New_Lat" "New_Lon"
           Example.network_world Example.network Example.new_coordinates
           [(CStr "A", (CNum 51, CNum (-114)))]
           Example.station_names Example.northing Example.easting
           "station" [] 2); try reflexivity.
  intros j new Hj Hnew.
  destruct j as [| [| j]]; [| discriminate Hnew | lia].
  injection Hnew as <-. split; eexists; reflexivity.
Defined.

Lemma convert_hourly_to_daily_key_errors_witness :
  ("when" ∉ columns Example.hourly)
  /\ convert_hourly_to_daily 0 "swe" "when" Example.hourly_world
     = (Example.hourly_world, Raise (KeyError "when")).
Proof.
  assert (Hmissing : "when" ∉ columns Example.hourly) by decide_elem.
  split; [exact Hmissing |].
  exact (proj1 (convert_hourly_to_daily_key_errors 0 "swe" "when"
                  Example.hourly_world Example.hourly eq_refl) Hmissing).
Defined.

Lemma convert_hourly_to_daily_empty_witness :
  exists w',
    convert_hourly_to_daily 0 "swe" "time" Example.no_readings_world =
      (w', Raise (RuntimeError
                    ("Error during hourly to daily conversion: "
                     +:+ str (ValueError "No objects to concatenate"))))
    /\ progress w'
       = progress Example.no_readings_world
         ++ [TrackerStart 0 "Converting hourly to daily data" "stations";
             TrackerClose].
Proof.
  apply (convert_hourly_to_daily_empty 0 "swe" "time" Example.no_readings_world
           Example.no_readings).
  - reflexivity.
  - reflexivity.
  - decide_elem.
  - decide_elem.
Defined.

Lemma convert_hourly_to_daily_shape_witness :
  exists w' out result,
    convert_hourly_to_daily 0 "swe" "time" Example.hourly_world = (w', Return out)
    /\ heap w' !! out = Some (ODataFrame result)
    /\ index_names result = []
    /\ columns result = ["time"; "swe"; "station_id"]
    /\ forall r : row,
         r ∈ rows result ->
         (exists ns, r !! "time" = Some (CTime ns))
         /\ is_Some (r !! "swe")
         /\ isnull (cell_at "station_id" r) = false
         /\ forall k : string,
              k ≠ "time" -> k ≠ "swe" -> k ≠ "station_id" -> r !! k = None.
Proof.
  evaluate (convert_hourly_to_daily 0 "swe" "time" Example.hourly_world) Hrun.
  destruct (convert_hourly_to_daily_shape 0 "swe" "time" Example.hourly_world _ _
              Example.hourly eq_refl Hrun ltac:(discriminate) ltac:(discriminate)
              ltac:(discriminate)) as (result & Hresult).
  eexists _, _, result. split; [exact Hrun | exact Hresult].
Defined.

Lemma preprocessors_agree_witness :
  exists df w1 w2 swe precip,
    flattened Example.canswe df
    /\ preprocess_swe Example.canswe Example.empty_world = (w1, Return swe)
    /\ preprocess_precip Example.canswe Example.empty_world = (w2, Return precip)
    /\ columns swe = columns precip
    /\ length (rows swe) = length (rows df)
    /\ length (rows precip) = length (rows df)
    /\ forall (i : nat) (r : row),
         rows df !! i = Some r ->
         exists rs rp : row,
           rows swe !! i = Some rs
           /\ rows precip !! i = Some rp
           /\ (forall k : string,
                 k ≠ "data_source" -> k ≠ "units" -> rs !! k = r !! k)
           /\ (forall k : string,
                 k ≠ "data_source" -> k ≠ "time" -> rp !! k = rs !! k)
           /\ (has_column df "time" = true ->
               exists ns, rp !! "time" = Some (CTime ns)).
Proof.
  evaluate (to_dataframe Example.canswe) Hdf.
  match type of Hdf with
  | _ = Return ?df0 =>
      evaluate (reset_index df0) Hreset;
      match type of Hreset with
      | _ = Return ?df =>
          assert (Hflat : flattened Example.canswe df)
            by (exists df0; split; [exact Hdf | exact Hreset]);
          destruct (preprocessors_agree Example.canswe df Example.empty_world Hflat)
            as (w1 & w2 & swe & precip & Hrest);
          [ intros _; eexists; vm_compute; reflexivity
          | exists df, w1, w2, swe, precip; split; [exact Hflat | exact Hrest] ]
      end
  end.
Defined.
